(** * Streaming protocol of the agent bridge

    A shallow embedding of the two TypeScript classes that relay chat
    messages to the Python agent process:

    - [AIAgentService] (sendMessage, getSessionHistory, clearSession,
      setSessionId, getCurrentSessionId), and
    - [ChatViewProvider] (sendMessageToAgent, clearAgentSession).

    Each request is a closure over a few local variables, a promise and
    three event handlers registered on the child process.  The handlers are
    embedded as computations of a small state-and-exception monad, one
    computation per handler, so that a run of the request is the sequence of
    the handlers of the events the process delivers.

    Strings are [string], sequences of 8-bit characters.  The data of an
    event of the process is the sequence of bytes of its [Buffer].  A
    JavaScript string is represented by its UTF-8 encoding (a lone
    surrogate, which UTF-8 has no encoding for, by the three bytes of the
    generalised encoding), so that [data.toString()] is the UTF-8 decoder
    with its replacement of ill-formed sequences, and the protocol markers,
    which are ASCII, are the same bytes in both readings. *)

From Stdlib Require Import String Ascii List ZArith NArith Lia Bool DecimalString.
Import ListNotations.
Open Scope string_scope.

(** ** JavaScript primitives used by the handlers *)

Module JS.

Definition LF : ascii := "010"%char.
Definition nl : string := String LF "".
Definition dquote : string := String "034"%char "".
Definition backslash : string := String "092"%char "".

(** [s.split(sep)] for a one-character separator: never empty, the last
    element is the text after the last separator. *)
Fixpoint split (sep : ascii) (s : string) : list string :=
  match s with
  | EmptyString => [EmptyString]
  | String c s' =>
      if Ascii.eqb c sep then EmptyString :: split sep s'
      else match split sep s' with
           | [] => [String c EmptyString]
           | h :: t => String c h :: t
           end
  end.

(** [arr.pop()]: the removed last element ([None] is [undefined]) and the
    array that is left. *)
Definition pop {A} (arr : list A) : option A * list A :=
  match arr with
  | [] => (None, [])
  | x :: r => (Some (last r x), removelast arr)
  end.

(** [v || d] on an optional string: [undefined] and the empty string are
    falsy. *)
Definition or_else (v : option string) (d : string) : string :=
  match v with
  | None => d
  | Some s => if (s =? "")%string then d else s
  end.

Definition startsWith (s p : string) : bool := String.prefix p s.

(** [s.substring(n)] *)
Fixpoint substring_from (n : nat) (s : string) : string :=
  match n, s with
  | O, _ => s
  | S _, EmptyString => EmptyString
  | S n', String _ s' => substring_from n' s'
  end.

(** [s.includes(sub)] *)
Fixpoint includes (s sub : string) : bool :=
  if String.prefix sub s then true
  else match s with
       | EmptyString => false
       | String _ s' => includes s' sub
       end.

(** [s.replace(/c/g, by)] for a one-character pattern. *)
Fixpoint replace_all (c : ascii) (by_ : string) (s : string) : string :=
  match s with
  | EmptyString => EmptyString
  | String a s' =>
      if Ascii.eqb a c then by_ ++ replace_all c by_ s'
      else String a (replace_all c by_ s')
  end.

(** The white space and line terminator characters of ECMAScript, by the
    bytes of their encoding: U+0009 to U+000D and U+0020 on one byte;
    U+00A0 on two bytes; U+1680, U+2000 to U+200A, U+2028, U+2029, U+202F,
    U+205F, U+3000 and U+FEFF on three bytes. *)
Definition is_space (c : ascii) : bool :=
  let n := nat_of_ascii c in
  ((9 <=? n) && (n <=? 13) || (n =? 32))%nat.

Definition is_space2 (a b : ascii) : bool :=
  ((N_of_ascii a =? 0xC2) && (N_of_ascii b =? 0xA0))%N.

Definition is_space3 (a b c : ascii) : bool :=
  let x := N_of_ascii a in
  let y := N_of_ascii b in
  let z := N_of_ascii c in
  ((x =? 0xE1) && (y =? 0x9A) && (z =? 0x80)
   || (x =? 0xE2) && (y =? 0x80)
      && ((0x80 <=? z) && (z <=? 0x8A) || (z =? 0xA8) || (z =? 0xA9) || (z =? 0xAF))
   || (x =? 0xE2) && (y =? 0x81) && (z =? 0x9F)
   || (x =? 0xE3) && (y =? 0x80) && (z =? 0x80)
   || (x =? 0xEF) && (y =? 0xBB) && (z =? 0xBF))%N.

(** [s.trimStart()]: the white space characters at the start are removed. *)
Fixpoint trimStart (s : string) : string :=
  match s with
  | String a s1 =>
      if is_space a then trimStart s1
      else match s1 with
           | String b s2 =>
               if is_space2 a b then trimStart s2
               else match s2 with
                    | String c s3 => if is_space3 a b c then trimStart s3 else s
                    | EmptyString => s
                    end
           | EmptyString => s
           end
  | EmptyString => s
  end.

(** [s.trimEnd()]: the text ends where nothing but white space follows. *)
Fixpoint trimEnd (s : string) : string :=
  match s with
  | EmptyString => EmptyString
  | String c s' =>
      if (trimStart s =? "")%string then EmptyString else String c (trimEnd s')
  end.

(** [s.trim()] *)
Definition trim (s : string) : string := trimEnd (trimStart s).

(** [buffer.toString()]: the bytes decoded as UTF-8.  A well-formed
    sequence gives its character; a byte that cannot start or continue a
    sequence ends the sequence that is open, which gives one U+FFFD, and is
    then read as a first byte; a sequence that is open when the bytes end
    gives one U+FFFD. *)
Definition replacement : string :=
  String "239" (String "191" (String "189" "")).

(** The decoder between two bytes: no sequence is open, or the bytes
    [seen] of a sequence are, [more] bytes are needed and the next one has
    to be in the range from [lo] to [hi]. *)
Inductive Utf8 :=
| Idle
| Open (seen : string) (more : nat) (lo hi : N).

Definition in_range (lo hi : N) (b : ascii) : bool :=
  let n := N_of_ascii b in ((lo <=? n) && (n <=? hi))%N.

(** A byte read while no sequence is open. *)
Definition utf8_lead (b : ascii) : string * Utf8 :=
  let n := N_of_ascii b in
  let one := String b "" in
  (if n <=? 0x7F then (one, Idle)
   else if (0xC2 <=? n) && (n <=? 0xDF) then ("", Open one 1 0x80 0xBF)
   else if n =? 0xE0 then ("", Open one 2 0xA0 0xBF)
   else if n =? 0xED then ("", Open one 2 0x80 0x9F)
   else if (0xE1 <=? n) && (n <=? 0xEF) then ("", Open one 2 0x80 0xBF)
   else if n =? 0xF0 then ("", Open one 3 0x90 0xBF)
   else if n =? 0xF4 then ("", Open one 3 0x80 0x8F)
   else if (0xF1 <=? n) && (n <=? 0xF3) then ("", Open one 3 0x80 0xBF)
   else (replacement, Idle))%N.

Definition utf8_step (st : Utf8) (b : ascii) : string * Utf8 :=
  match st with
  | Idle => utf8_lead b
  | Open seen more lo hi =>
      if in_range lo hi b then
        match more with
        | S (S more') => ("", Open (seen ++ String b "") (S more') 0x80 0xBF)
        | _ => (seen ++ String b "", Idle)
        end
      else let '(out, st') := utf8_lead b in (replacement ++ out, st')
  end.

Fixpoint utf8_run (st : Utf8) (bytes : string) : string * Utf8 :=
  match bytes with
  | EmptyString => ("", st)
  | String b rest =>
      let '(out, st') := utf8_step st b in
      let '(out', st'') := utf8_run st' rest in
      (out ++ out', st'')
  end.

Definition utf8_flush (st : Utf8) : string :=
  match st with
  | Idle => ""
  | Open _ _ _ _ => replacement
  end.

Definition Buffer_toString (data : string) : string :=
  let '(out, st) := utf8_run Idle data in out ++ utf8_flush st.

(** [`${code}`] for the exit code of a close event: a number, or [null]
    when the process was killed by a signal. *)
Definition show_code (code : option Z) : string :=
  match code with
  | None => "null"
  | Some n => NilZero.string_of_int (Z.to_int n)
  end.

(** [code !== 0] and [code === 0] *)
Definition code_is_zero (code : option Z) : bool :=
  match code with
  | Some n => (n =? 0)%Z
  | None => false
  end.

(** [new Error(message)] *)
Record Error := mkError { message : string }.

(** The state of a promise: pending, or settled once and for all. *)
Inductive Outcome (V : Type) :=
| Resolved (v : V)
| Rejected (e : Error).
Arguments Resolved {V} v.
Arguments Rejected {V} e.

Definition Promise (V : Type) := option (Outcome V).

(** [resolve]/[reject] of a promise that may already be settled: the
    first settlement stays. *)
Definition settle {V} (o : Outcome V) (p : Promise V) : Promise V :=
  match p with
  | None => Some o
  | Some _ => p
  end.

(** The part of the file system the requests touch: the files that exist
    with their contents, and the paths whose removal the system refuses. *)
Record FS := mkFS {
  entries : list (string * string);
  denied : list string
}.

Definition exists_file (path : string) (fs : FS) : bool :=
  existsb (fun e => (fst e =? path)%string) (entries fs).

Definition is_denied (path : string) (fs : FS) : bool :=
  existsb (fun p => (p =? path)%string) (denied fs).

Definition remove_file (path : string) (fs : FS) : FS :=
  mkFS (filter (fun e => negb (fst e =? path)%string) (entries fs)) (denied fs).

Definition write_file (path content : string) (fs : FS) : FS :=
  mkFS ((path, content) :: entries (remove_file path fs)) (denied fs).

(** ** Computations: state passing with exceptions

    A computation runs on a state and completes normally with a value or
    abruptly with a thrown error; the state changes made before a throw
    stay. *)

Inductive Completion (A : Type) :=
| Normal (a : A)
| Throw (e : Error).
Arguments Normal {A} a.
Arguments Throw {A} e.

Definition Eff (S A : Type) : Type := S -> Completion A * S.

Definition ret {S A} (a : A) : Eff S A := fun s => (Normal a, s).

Definition bind {S A B} (m : Eff S A) (k : A -> Eff S B) : Eff S B :=
  fun s =>
    match m s with
    | (Normal a, s') => k a s'
    | (Throw e, s') => (Throw e, s')
    end.

Definition throw {S A} (e : Error) : Eff S A := fun s => (Throw e, s).

(** [try { m } catch (e) { h e }] *)
Definition try_catch {S A} (m : Eff S A) (h : Error -> Eff S A) : Eff S A :=
  fun s =>
    match m s with
    | (Normal a, s') => (Normal a, s')
    | (Throw e, s') => h e s'
    end.

Definition modify {S} (f : S -> S) : Eff S unit := fun s => (Normal tt, f s).

Definition exec {S A} (m : Eff S A) (s : S) : S := snd (m s).

(** One line of output classified by the decoding loop. *)
Inductive Frame :=
| Chunk (text : string)
| End
| Error_ (text : string).

(** The state a request's handlers run on: the closure's local variables
    [L], the promise, the file system, the console, and the record of the
    frames the decoding loop has acted on, in order. *)
Record Env (L V : Type) := mkEnv {
  locals : L;
  promise : Promise V;
  fs : FS;
  console : list string;
  decoded : list Frame
}.
Arguments mkEnv {L V}.
Arguments locals {L V}.
Arguments promise {L V}.
Arguments fs {L V}.
Arguments console {L V}.
Arguments decoded {L V}.

Section EnvOps.
Context {L V : Type}.

Definition set_locals (f : L -> L) : Eff (Env L V) unit :=
  modify (fun st => mkEnv (f (locals st)) (promise st) (fs st) (console st) (decoded st)).

Definition get_locals : Eff (Env L V) L :=
  fun st => (Normal (locals st), st).

Definition resolve (v : V) : Eff (Env L V) unit :=
  modify (fun st => mkEnv (locals st) (settle (Resolved v) (promise st)) (fs st) (console st) (decoded st)).

Definition reject (e : Error) : Eff (Env L V) unit :=
  modify (fun st => mkEnv (locals st) (settle (Rejected e) (promise st)) (fs st) (console st) (decoded st)).

(** [console.error(label, e)]: one entry, the label and the message. *)
Definition console_error (label text : string) : Eff (Env L V) unit :=
  modify (fun st => mkEnv (locals st) (promise st) (fs st)
                      (console st ++ [label ++ " " ++ text]) (decoded st)).

(** [fs.unlinkSync(path)]: throws when the removal is refused or the
    file does not exist. *)
Definition unlinkSync (path : string) : Eff (Env L V) unit :=
  fun st =>
    if is_denied path (fs st) then
      (Throw (mkError ("EACCES: permission denied, unlink '" ++ path ++ "'")), st)
    else if exists_file path (fs st) then
      (Normal tt, mkEnv (locals st) (promise st) (remove_file path (fs st)) (console st) (decoded st))
    else
      (Throw (mkError ("ENOENT: no such file or directory, unlink '" ++ path ++ "'")), st).

(** [fs.writeFileSync(path, content)] *)
Definition writeFileSync (path content : string) : Eff (Env L V) unit :=
  modify (fun st => mkEnv (locals st) (promise st) (write_file path content (fs st))
                      (console st) (decoded st)).

(** Bookkeeping, with no counterpart in the source: the frame of the
    branch of the decoding loop that is being taken. *)
Definition note (f : Frame) : Eff (Env L V) unit :=
  modify (fun st => mkEnv (locals st) (promise st) (fs st) (console st) (decoded st ++ [f])).

End EnvOps.

(** The values [JSON.parse] returns. *)
#[warnings="-register-all"]
Inductive JSON :=
| JNull
| JBool (b : bool)
| JNumber (literal : string)
| JString (s : string)
| JArray (items : list JSON)
| JObject (fields : list (string * JSON)).

(** A JavaScript value read from parsed JSON: [None] is [undefined]. *)
Definition Value := option JSON.

Fixpoint assoc (key : string) (fields : list (string * JSON)) : Value :=
  match fields with
  | [] => None
  | (k, v) :: rest => if (k =? key)%string then Some v else assoc key rest
  end.

(** [v.key] for a key that is no built-in property ([type], [content],
    [timestamp]): a TypeError on [null], the field of an object,
    [undefined] on anything else. *)
Definition get_prop {S} (v : JSON) (key : string) : Eff S Value :=
  match v with
  | JNull => throw (mkError ("TypeError: Cannot read properties of null (reading '" ++ key ++ "')"))
  | JObject fields => ret (assoc key fields)
  | _ => ret None
  end.

(** [v === s] for a string literal [s] *)
Definition strict_eq_string (v : Value) (s : string) : bool :=
  match v with
  | Some (JString t) => (t =? s)%string
  | _ => false
  end.

(** [arr.map(f)] with a callback that may throw. *)
Fixpoint map_eff {S A B} (f : A -> Eff S B) (l : list A) : Eff S (list B) :=
  match l with
  | [] => ret []
  | x :: r => bind (f x) (fun y => bind (map_eff f r) (fun ys => ret (y :: ys)))
  end.

(** [history.map(f)] on a parsed value: only arrays have [map]. *)
Definition value_map {S B} (history : JSON) (f : JSON -> Eff S B) : Eff S (list B) :=
  match history with
  | JArray items => map_eff f items
  | _ => throw (mkError "TypeError: history.map is not a function")
  end.

(** What the child process delivers to the handlers; the data of an event
    of stdout or stderr is the bytes of its [Buffer]. *)
Inductive ProcEvent :=
| StdoutData (data : string)
| StderrData (data : string)
| Close (code : option Z)
| ProcError (e : Error).

End JS.

Import JS.

Declare Scope eff_scope.
Delimit Scope eff_scope with eff.
Notation "x <- m ;; k" := (bind m (fun x => k))
  (at level 61, m at next level, right associativity) : eff_scope.
Notation "m ;; k" := (bind m (fun _ => k))
  (at level 61, right associativity) : eff_scope.
Open Scope eff_scope.

(** ** AIAgentService *)

Module AIAgentService.

(** The fields of the class. *)
Record Service := mkService {
  currentSessionId : string;
  agentPath : string
}.

Definition constructor : Service :=
  mkService "vscode_session" "/Volumes/workplace/SMUS-admin-agent".



(** [sessionId || this.currentSessionId] *)
Definition session_of (sessionId : option string) (this : Service) : string :=
  or_else sessionId (currentSessionId this).

(** *** sendMessage *)

(** The generated script, for a given agent path, message and session. *)
Definition chat_script (path message session : string) : string :=
  nl ++ "import asyncio" ++ nl ++ "import sys" ++ nl ++ "import os" ++ nl
  ++ "sys.path.append('" ++ path ++ "/src')" ++ nl
  ++ "from smus_admin_agent import SMUSAdminAgent" ++ nl ++ nl
  ++ "async def main():" ++ nl
  ++ "    try:" ++ nl
  ++ "        agent = SMUSAdminAgent()" ++ nl
  ++ "        async for chunk in agent.stream_response(" ++ dquote
  ++ replace_all "034"%char (backslash ++ dquote) message
  ++ dquote ++ ", " ++ dquote ++ session ++ dquote ++ "):" ++ nl
  ++ "            print(f" ++ dquote ++ "CHUNK:{chunk}" ++ dquote
  ++ ", end=" ++ dquote ++ dquote ++ ", flush=True)" ++ nl
  ++ "        print(" ++ dquote ++ backslash ++ "nEND_STREAM" ++ dquote ++ ")" ++ nl
  ++ "    except Exception as e:" ++ nl
  ++ "        print(f" ++ dquote ++ "ERROR:{str(e)}" ++ dquote ++ ")" ++ nl ++ nl
  ++ "if __name__ == " ++ dquote ++ "__main__" ++ dquote ++ ":" ++ nl
  ++ "    asyncio.run(main())" ++ nl.

Definition sendMessage_pythonScript (this : Service) (message : string)
    (sessionId : option string) : string :=
  let session := session_of sessionId this in
  chat_script (agentPath this) message session.

Definition sendMessage_scriptPath (this : Service) : string :=
  agentPath this ++ "/temp_chat.py".

(** The local variables of the promise executor, and the arguments the
    caller's [onChunk] has been called with. *)
Record Locals := mkLocals {
  responseBuffer : string;
  onChunk_calls : list string
}.

Definition Request := Env Locals unit.

Definition onChunk (chunk : string) : Eff Request unit :=
  set_locals (fun l => mkLocals (responseBuffer l) (onChunk_calls l ++ [chunk])).

Definition set_responseBuffer (b : string) : Eff Request unit :=
  set_locals (fun l => mkLocals b (onChunk_calls l)).

(** [for (const line of lines) { ... }] of the stdout handler; the two
    [return]s leave the handler, so the lines after them are not read. *)
Fixpoint for_lines (scriptPath : string) (lines : list string) : Eff Request unit :=
  match lines with
  | [] => ret tt
  | line :: rest =>
      if startsWith line "CHUNK:" then
        let chunk := substring_from 6 line in
        note (Chunk chunk) ;;
        onChunk chunk ;;
        for_lines scriptPath rest
      else if (line =? "END_STREAM")%string then
        note End ;;
        try_catch (unlinkSync scriptPath)
                  (fun e => console_error "Failed to clean up temp file:" (message e)) ;;
        resolve tt
      else if startsWith line "ERROR:" then
        let error := substring_from 6 line in
        note (Error_ error) ;;
        reject (mkError error)
      else for_lines scriptPath rest
  end.

(** [pythonProcess.stdout.on('data', ...)] *)
Definition on_stdout_data (scriptPath : string) (data : string) : Eff Request unit :=
  l <- get_locals ;;
  let output := Buffer_toString data in
  let buffered := responseBuffer l ++ output in
  let '(popped, lines) := pop (split LF buffered) in
  set_responseBuffer (or_else popped "") ;;
  for_lines scriptPath lines.

(** [pythonProcess.stderr.on('data', ...)] *)
Definition on_stderr_data (data : string) : Eff Request unit :=
  console_error "Python stderr:" (Buffer_toString data).

(** [pythonProcess.on('close', ...)] *)
Definition on_close (scriptPath : string) (code : option Z) : Eff Request unit :=
  try_catch (unlinkSync scriptPath)
            (fun e => console_error "Failed to clean up temp file:" (message e)) ;;
  if negb (code_is_zero code) then
    reject (mkError ("Python process exited with code " ++ show_code code))
  else resolve tt.

(** [pythonProcess.on('error', ...)] *)
Definition on_error (e : Error) : Eff Request unit := reject e.

Definition handle (scriptPath : string) (ev : ProcEvent) : Eff Request unit :=
  match ev with
  | StdoutData d => on_stdout_data scriptPath d
  | StderrData d => on_stderr_data d
  | Close code => on_close scriptPath code
  | ProcError e => on_error e
  end.

Fixpoint run (scriptPath : string) (evs : list ProcEvent) : Eff Request unit :=
  match evs with
  | [] => ret tt
  | ev :: rest => handle scriptPath ev ;; run scriptPath rest
  end.

(** The executor up to the registration of the handlers: the script is
    written and the buffer is empty. *)
Definition sendMessage_start (this : Service) (message : string)
    (sessionId : option string) (fs0 : FS) : Request :=
  exec (writeFileSync (sendMessage_scriptPath this)
                      (sendMessage_pythonScript this message sessionId))
       (mkEnv (mkLocals "" []) None fs0 [] []).

(** [sendMessage] on a process that delivers [evs]. *)
Definition sendMessage (this : Service) (message : string)
    (sessionId : option string) (fs0 : FS) (evs : list ProcEvent) : Completion unit * Request :=
  run (sendMessage_scriptPath this) evs (sendMessage_start this message sessionId fs0).

(** *** getSessionHistory *)

Record ChatMessage := mkChatMessage {
  type : string;
  content : Value;
  timestamp : Value
}.

Definition history_script (path session : string) : string :=
  nl ++ "import sys" ++ nl ++ "import json" ++ nl
  ++ "sys.path.append('" ++ path ++ "/src')" ++ nl
  ++ "from smus_admin_agent import SMUSAdminAgent" ++ nl ++ nl
  ++ "try:" ++ nl
  ++ "    agent = SMUSAdminAgent()" ++ nl
  ++ "    history = agent.get_session_history(" ++ dquote ++ session ++ dquote ++ ")" ++ nl
  ++ "    print(json.dumps(history))" ++ nl
  ++ "except Exception as e:" ++ nl
  ++ "    print(f" ++ dquote ++ "ERROR:{str(e)}" ++ dquote ++ ")" ++ nl.

Definition getSessionHistory_pythonScript (this : Service) (sessionId : option string) : string :=
  let session := session_of sessionId this in
  history_script (agentPath this) session.

Definition getSessionHistory_scriptPath (this : Service) : string :=
  agentPath this ++ "/temp_history.py".

(** The one local variable of the history and clear executors. *)
Record Output := mkOutput { output : string }.

Definition HistoryRequest := Env Output (list ChatMessage).

(** [output += data.toString()] *)
Definition append_output {V} (data : string) : Eff (Env Output V) unit :=
  set_locals (fun l => mkOutput (output l ++ Buffer_toString data)).

Section History.
(** [JSON.parse]: [None] when it throws a SyntaxError. *)
Variable JSON_parse : string -> option JSON.

Definition parse (text : string) : Eff HistoryRequest JSON :=
  match JSON_parse text with
  | Some v => ret v
  | None => throw (mkError "SyntaxError: Unexpected token in JSON")
  end.

Definition to_message (entry : JSON) : Eff HistoryRequest ChatMessage :=
  t <- get_prop entry "type" ;;
  c <- get_prop entry "content" ;;
  ts <- get_prop entry "timestamp" ;;
  ret (mkChatMessage (if strict_eq_string t "human" then "user" else "assistant") c ts).

Definition history_on_close (scriptPath : string) (code : option Z) : Eff HistoryRequest unit :=
  try_catch (unlinkSync scriptPath)
            (fun e => console_error "Failed to clean up temp file:" (message e)) ;;
  if code_is_zero code then
    try_catch
      (l <- get_locals ;;
       history <- parse (trim (output l)) ;;
       messages <- value_map history to_message ;;
       resolve messages)
      (fun _ => reject (mkError "Failed to parse history response"))
  else
    reject (mkError ("Failed to get history, exit code: " ++ show_code code)).

Definition history_handle (scriptPath : string) (ev : ProcEvent) : Eff HistoryRequest unit :=
  match ev with
  | StdoutData d => append_output d
  | StderrData _ => ret tt
  | Close code => history_on_close scriptPath code
  | ProcError e => reject e
  end.

Fixpoint history_run (scriptPath : string) (evs : list ProcEvent) : Eff HistoryRequest unit :=
  match evs with
  | [] => ret tt
  | ev :: rest => history_handle scriptPath ev ;; history_run scriptPath rest
  end.

Definition getSessionHistory_start (this : Service) (sessionId : option string)
    (fs0 : FS) : HistoryRequest :=
  exec (writeFileSync (getSessionHistory_scriptPath this)
                      (getSessionHistory_pythonScript this sessionId))
       (mkEnv (mkOutput "") None fs0 [] []).

Definition getSessionHistory (this : Service) (sessionId : option string)
    (fs0 : FS) (evs : list ProcEvent) : Completion unit * HistoryRequest :=
  history_run (getSessionHistory_scriptPath this) evs
              (getSessionHistory_start this sessionId fs0).
End History.

(** *** clearSession *)

Definition clear_script (path session : string) : string :=
  nl ++ "import sys" ++ nl
  ++ "sys.path.append('" ++ path ++ "/src')" ++ nl
  ++ "from smus_admin_agent import SMUSAdminAgent" ++ nl ++ nl
  ++ "try:" ++ nl
  ++ "    agent = SMUSAdminAgent()" ++ nl
  ++ "    agent.clear_session(" ++ dquote ++ session ++ dquote ++ ")" ++ nl
  ++ "    print(" ++ dquote ++ "SUCCESS" ++ dquote ++ ")" ++ nl
  ++ "except Exception as e:" ++ nl
  ++ "    print(f" ++ dquote ++ "ERROR:{str(e)}" ++ dquote ++ ")" ++ nl.

Definition clearSession_pythonScript (this : Service) (sessionId : option string) : string :=
  let session := session_of sessionId this in
  clear_script (agentPath this) session.

Definition clearSession_scriptPath (this : Service) : string :=
  agentPath this ++ "/temp_clear.py".

Definition ClearRequest := Env Output unit.

Definition clear_on_close (scriptPath : string) (code : option Z) : Eff ClearRequest unit :=
  try_catch (unlinkSync scriptPath)
            (fun e => console_error "Failed to clean up temp file:" (message e)) ;;
  l <- get_locals ;;
  if code_is_zero code && includes (output l) "SUCCESS" then resolve tt
  else reject (mkError "Failed to clear session").

Definition clear_handle (scriptPath : string) (ev : ProcEvent) : Eff ClearRequest unit :=
  match ev with
  | StdoutData d => append_output d
  | StderrData _ => ret tt
  | Close code => clear_on_close scriptPath code
  | ProcError e => reject e
  end.

Fixpoint clear_run (scriptPath : string) (evs : list ProcEvent) : Eff ClearRequest unit :=
  match evs with
  | [] => ret tt
  | ev :: rest => clear_handle scriptPath ev ;; clear_run scriptPath rest
  end.

Definition clearSession_start (this : Service) (sessionId : option string)
    (fs0 : FS) : ClearRequest :=
  exec (writeFileSync (clearSession_scriptPath this)
                      (clearSession_pythonScript this sessionId))
       (mkEnv (mkOutput "") None fs0 [] []).

Definition clearSession (this : Service) (sessionId : option string)
    (fs0 : FS) (evs : list ProcEvent) : Completion unit * ClearRequest :=
  clear_run (clearSession_scriptPath this) evs (clearSession_start this sessionId fs0).

End AIAgentService.

(** ** ChatViewProvider *)

Module ChatViewProvider.

Record Provider := mkProvider {
  _view : bool;
  agentPath : string;
  currentSessionId : string
}.

(** The field initialisers: no view until [resolveWebviewView] runs. *)
Definition constructor : Provider :=
  mkProvider false "/Volumes/workplace/SMUS-admin-agent" "vscode_session".

Definition resolveWebviewView (this : Provider) : Provider :=
  mkProvider true (agentPath this) (currentSessionId this).

(** The messages posted to the webview. *)
Inductive WebviewMessage :=
| StreamChunk (chunk : string)
| AddMessage (type content timestamp : string)
| Typing (isTyping : bool)
| ClearMessages.

Definition chat_script (path message session : string) : string :=
  nl ++ "import asyncio" ++ nl ++ "import sys" ++ nl ++ "import os" ++ nl
  ++ "sys.path.append('" ++ path ++ "/src')" ++ nl
  ++ "from smus_admin_agent import SMUSAdminAgent" ++ nl ++ nl
  ++ "async def main():" ++ nl
  ++ "    try:" ++ nl
  ++ "        agent = SMUSAdminAgent()" ++ nl
  ++ "        response_content = " ++ dquote ++ dquote ++ nl
  ++ "        async for chunk in agent.stream_response(" ++ dquote
  ++ replace_all "034"%char (backslash ++ dquote) message
  ++ dquote ++ ", " ++ dquote ++ session ++ dquote ++ "):" ++ nl
  ++ "            response_content += chunk" ++ nl
  ++ "            print(f" ++ dquote ++ "CHUNK:{chunk}" ++ dquote
  ++ ", end=" ++ dquote ++ dquote ++ ", flush=True)" ++ nl
  ++ "        print(" ++ dquote ++ backslash ++ "nEND_STREAM" ++ dquote ++ ")" ++ nl
  ++ "    except Exception as e:" ++ nl
  ++ "        print(f" ++ dquote ++ "ERROR:{str(e)}" ++ dquote ++ ")" ++ nl ++ nl
  ++ "if __name__ == " ++ dquote ++ "__main__" ++ dquote ++ ":" ++ nl
  ++ "    asyncio.run(main())" ++ nl.

Definition sendMessageToAgent_pythonScript (this : Provider) (message : string) : string :=
  chat_script (agentPath this) message (currentSessionId this).

Definition sendMessageToAgent_scriptPath (this : Provider) : string :=
  agentPath this ++ "/temp_vscode_chat.py".

(** The local variables of the executor, and the webview: whether
    [this._view] is set and what has been posted to it. *)
Record Locals := mkLocals {
  responseBuffer : string;
  fullResponse : string;
  view : bool;
  posted : list WebviewMessage
}.

Definition Request := Env Locals unit.

(** [if (this._view) { this._view.webview.postMessage(m) }] *)
Definition postMessage_if_view (m : WebviewMessage) : Eff Request unit :=
  set_locals (fun l =>
    if view l then mkLocals (responseBuffer l) (fullResponse l) (view l) (posted l ++ [m])
    else l).

Definition set_responseBuffer (b : string) : Eff Request unit :=
  set_locals (fun l => mkLocals b (fullResponse l) (view l) (posted l)).

Definition append_fullResponse (chunk : string) : Eff Request unit :=
  set_locals (fun l => mkLocals (responseBuffer l) (fullResponse l ++ chunk) (view l) (posted l)).

(** The loop of the stdout handler; [now] is [new Date().toISOString()]
    at the time the handler runs. *)
Fixpoint for_lines (scriptPath now : string) (lines : list string) : Eff Request unit :=
  match lines with
  | [] => ret tt
  | line :: rest =>
      if startsWith line "CHUNK:" then
        let chunk := substring_from 6 line in
        note (Chunk chunk) ;;
        append_fullResponse chunk ;;
        postMessage_if_view (StreamChunk chunk) ;;
        for_lines scriptPath now rest
      else if (line =? "END_STREAM")%string then
        note End ;;
        l <- get_locals ;;
        postMessage_if_view (AddMessage "assistant" (fullResponse l) now) ;;
        try_catch (unlinkSync scriptPath)
                  (fun e => console_error "Failed to clean up temp file:" (message e)) ;;
        resolve tt
      else if startsWith line "ERROR:" then
        let error := substring_from 6 line in
        note (Error_ error) ;;
        reject (mkError error)
      else for_lines scriptPath now rest
  end.

Definition on_stdout_data (scriptPath now : string) (data : string) : Eff Request unit :=
  l <- get_locals ;;
  let output := Buffer_toString data in
  let buffered := responseBuffer l ++ output in
  let '(popped, lines) := pop (split LF buffered) in
  set_responseBuffer (or_else popped "") ;;
  for_lines scriptPath now lines.

Definition on_close (scriptPath : string) (code : option Z) : Eff Request unit :=
  try_catch (unlinkSync scriptPath)
            (fun e => console_error "Failed to clean up temp file:" (message e)) ;;
  if negb (code_is_zero code) then
    reject (mkError ("Python process exited with code " ++ show_code code))
  else resolve tt.

Definition on_error (e : Error) : Eff Request unit := reject e.

(** No handler is registered on stderr. *)
Definition handle (scriptPath now : string) (ev : ProcEvent) : Eff Request unit :=
  match ev with
  | StdoutData d => on_stdout_data scriptPath now d
  | StderrData _ => ret tt
  | Close code => on_close scriptPath code
  | ProcError e => on_error e
  end.

Fixpoint run (scriptPath now : string) (evs : list ProcEvent) : Eff Request unit :=
  match evs with
  | [] => ret tt
  | ev :: rest => handle scriptPath now ev ;; run scriptPath now rest
  end.

Definition sendMessageToAgent_start (this : Provider) (message : string) (fs0 : FS) : Request :=
  exec (writeFileSync (sendMessageToAgent_scriptPath this)
                      (sendMessageToAgent_pythonScript this message))
       (mkEnv (mkLocals "" "" (_view this) []) None fs0 [] []).

Definition sendMessageToAgent (this : Provider) (message now : string)
    (fs0 : FS) (evs : list ProcEvent) : Completion unit * Request :=
  run (sendMessageToAgent_scriptPath this) now evs (sendMessageToAgent_start this message fs0).

(** *** clearAgentSession *)

Record Output := mkOutput { output : string }.

Definition ClearRequest := Env Output unit.

Definition clear_script (path session : string) : string :=
  nl ++ "import sys" ++ nl
  ++ "sys.path.append('" ++ path ++ "/src')" ++ nl
  ++ "from smus_admin_agent import SMUSAdminAgent" ++ nl ++ nl
  ++ "try:" ++ nl
  ++ "    agent = SMUSAdminAgent()" ++ nl
  ++ "    agent.clear_session(" ++ dquote ++ session ++ dquote ++ ")" ++ nl
  ++ "    print(" ++ dquote ++ "SUCCESS" ++ dquote ++ ")" ++ nl
  ++ "except Exception as e:" ++ nl
  ++ "    print(f" ++ dquote ++ "ERROR:{str(e)}" ++ dquote ++ ")" ++ nl.

Definition clearAgentSession_scriptPath (this : Provider) : string :=
  agentPath this ++ "/temp_clear.py".

Definition clear_on_close (scriptPath : string) (code : option Z) : Eff ClearRequest unit :=
  try_catch (unlinkSync scriptPath)
            (fun e => console_error "Failed to clean up temp file:" (message e)) ;;
  l <- get_locals ;;
  if code_is_zero code && includes (output l) "SUCCESS" then resolve tt
  else reject (mkError "Failed to clear session").

(** Only stdout data and close have handlers.  No listener is registered
    for the error event of the process: emitting it throws the error, in
    the turn of the event and outside every [try] of the extension, and
    the promise is not touched. *)
Definition clear_handle (scriptPath : string) (ev : ProcEvent) : Eff ClearRequest unit :=
  match ev with
  | StdoutData d => set_locals (fun l => mkOutput (output l ++ Buffer_toString d))
  | StderrData _ => ret tt
  | Close code => clear_on_close scriptPath code
  | ProcError e => throw e
  end.

(** The events in turn.  The run ends at an error that is thrown in a
    turn: what the host does with an error that nothing catches is no code
    of the extension. *)
Fixpoint clear_run (scriptPath : string) (evs : list ProcEvent) : Eff ClearRequest unit :=
  match evs with
  | [] => ret tt
  | ev :: rest => clear_handle scriptPath ev ;; clear_run scriptPath rest
  end.

Definition clearAgentSession_start (this : Provider) (fs0 : FS) : ClearRequest :=
  exec (writeFileSync (clearAgentSession_scriptPath this)
                      (clear_script (agentPath this) (currentSessionId this)))
       (mkEnv (mkOutput "") None fs0 [] []).

Definition clearAgentSession (this : Provider) (fs0 : FS) (evs : list ProcEvent)
    : Completion unit * ClearRequest :=
  clear_run (clearAgentSession_scriptPath this) evs (clearAgentSession_start this fs0).

End ChatViewProvider.

(** ** The generated chat script as a producer

    What the script of [chat_script] writes to its standard output when
    [agent.stream_response] yields [chunks] and then either finishes
    ([None]) or raises an exception with text [Some e]:
    [print(f"CHUNK:{chunk}", end="", flush=True)] writes the marker and the
    chunk and no line end, [print("
END_STREAM")] writes a line end, the
    marker and a line end, and [print(f"ERROR:{str(e)}")] writes the
    marker, the text and a line end. *)

Module Producer.

Fixpoint print_chunks (chunks : list string) : string :=
  match chunks with
  | [] => ""
  | chunk :: rest => ("CHUNK:" ++ chunk) ++ print_chunks rest
  end.

Definition stdout_of (chunks : list string) (raised : option string) : string :=
  match raised with
  | None => print_chunks chunks ++ (nl ++ "END_STREAM") ++ nl
  | Some e => print_chunks chunks ++ ("ERROR:" ++ e) ++ nl
  end.

(** One fragment per [print] call, as [flush=True] asks for. *)
Definition writes_of (chunks : list string) : list string :=
  map (fun chunk => "CHUNK:" ++ chunk) chunks ++ [nl ++ "END_STREAM" ++ nl].

End Producer.

(** ** Notions used to state the properties *)

(** The fragments of a stream put back together. *)
Fixpoint concat_all (frags : list string) : string :=
  match frags with
  | [] => ""
  | f :: rest => f ++ concat_all rest
  end.

(** The text received in a sequence of data events: what [toString]
    makes of the data of each event, joined. *)
Definition received (frags : list string) : string :=
  concat_all (map Buffer_toString frags).

(** Data that does not end inside a character, and data of ASCII
    characters only. *)
Definition complete (data : string) : bool :=
  match snd (utf8_run Idle data) with
  | Idle => true
  | Open _ _ _ _ => false
  end.

Fixpoint is_ascii (s : string) : bool :=
  match s with
  | EmptyString => true
  | String c s' => (N_of_ascii c <=? 0x7F)%N && is_ascii s'
  end.

(** The complete lines of a text and the unterminated text after them. *)
Definition lines_of (s : string) : list string := removelast (split LF s).
Definition rest_of (s : string) : string := last (split LF s) "".

(** A line on which the decoding loop returns. *)
Definition is_terminal (line : string) : bool :=
  negb (startsWith line "CHUNK:")
  && ((line =? "END_STREAM")%string || startsWith line "ERROR:").

(** Every complete line but the last is not terminal. *)
Definition terminal_only_last (s : string) : Prop :=
  Forall (fun l => is_terminal l = false) (removelast (lines_of s)).

(** The settlement the first terminal frame of a frame sequence asks for. *)
Fixpoint first_terminal (frames : list Frame) : Promise unit :=
  match frames with
  | [] => None
  | Chunk _ :: rest => first_terminal rest
  | End :: _ => Some (Resolved tt)
  | Error_ m :: _ => Some (Rejected (mkError m))
  end.

Fixpoint chunk_texts (frames : list Frame) : list string :=
  match frames with
  | [] => []
  | Chunk c :: rest => c :: chunk_texts rest
  | _ :: rest => chunk_texts rest
  end.

(** The settlement the close handler of a streaming request asks for. *)
Definition exit_outcome (code : option Z) : Outcome unit :=
  if code_is_zero code then Resolved tt
  else Rejected (mkError ("Python process exited with code " ++ show_code code)).

(** The request with another held buffer. *)
Definition with_buffer (b : string) (st : AIAgentService.Request) : AIAgentService.Request :=
  exec (AIAgentService.set_responseBuffer b) st.

(** The stdout handler of sendMessage behind [data.toString()]: what it
    does with the text [output] of an event. *)
Definition on_output (p output : string) (st : AIAgentService.Request)
    : Completion unit * AIAgentService.Request :=
  AIAgentService.for_lines p
    (lines_of (AIAgentService.responseBuffer (locals st) ++ output))
    (with_buffer (rest_of (AIAgentService.responseBuffer (locals st) ++ output)) st).

(** The chunk texts among the messages posted to the webview. *)
Fixpoint stream_chunks (posted : list ChatViewProvider.WebviewMessage) : list string :=
  match posted with
  | [] => []
  | ChatViewProvider.StreamChunk c :: rest => c :: stream_chunks rest
  | _ :: rest => stream_chunks rest
  end.

(** A request of the service and a request of the view provider that are
    at the same point of the protocol. *)
Record agree (s : AIAgentService.Request) (v : ChatViewProvider.Request) : Prop := {
  agree_buffer :
    AIAgentService.responseBuffer (locals s) = ChatViewProvider.responseBuffer (locals v);
  agree_promise : promise s = promise v;
  agree_decoded : decoded s = decoded v;
  agree_chunks :
    ChatViewProvider.view (locals v) = true ->
    AIAgentService.onChunk_calls (locals s) = stream_chunks (ChatViewProvider.posted (locals v))
}.

(** A text with no line feed in it. *)
Fixpoint no_LF (s : string) : bool :=
  match s with
  | EmptyString => true
  | String c s' => negb (Ascii.eqb c LF) && no_LF s'
  end.



Definition error_stream : string :=
  "CHUNK:x" ++ nl ++ "ERROR:boom" ++ nl.

(** The ways of cutting a text in two. *)
Fixpoint splits (s : string) : list (string * string) :=
  match s with
  | EmptyString => [("", "")]
  | String c s' => ("", s) :: map (fun ab => (String c (fst ab), snd ab)) (splits s')
  end.

Definition fs_empty : FS := mkFS [] [].

(** A stream delivered one character per data event. *)
Fixpoint one_by_one (s : string) : list string :=
  match s with
  | EmptyString => []
  | String c s' => String c EmptyString :: one_by_one s'
  end.

Definition hello_stream : string :=
  "CHUNK:Hello" ++ nl ++ "CHUNK: world" ++ nl ++ "END_STREAM" ++ nl.

(** The no-break space U+00A0, which is white space and not ASCII. *)
Definition nbsp : string := String "194" (String "160" "").

(** ** Code around the requests: awaiting callers, start-up, the webview script *)

Module Async.

(** The state as a whole, for code that looks at the promise. *)
Definition get_env {S} : Eff S S := fun s => (Normal s, s).

(** [`${error}`] for an [Error] object: its name, a colon and its message,
    or the name alone when the message is empty. *)
Definition Error_toString (e : Error) : string :=
  if (message e =? "")%string then "Error" else "Error: " ++ message e.

(** A computation on the locals [L] run where the locals are [L * X]. *)
Definition zoom {L X V A} (m : Eff (Env L V) A) : Eff (Env (L * X) V) A :=
  fun st =>
    match m (mkEnv (fst (locals st)) (promise st) (fs st) (console st) (decoded st)) with
    | (c, st') =>
        (c, mkEnv (locals st', snd (locals st)) (promise st') (fs st') (console st')
              (decoded st'))
    end.

(** The events handled one after the other. *)
Fixpoint run_events {S} (handle : ProcEvent -> Eff S unit) (evs : list ProcEvent) : Eff S unit :=
  match evs with
  | [] => ret tt
  | ev :: rest => handle ev ;; run_events handle rest
  end.

(** [try { await promise; ... } catch (error) { ... }] around a request:
    each event is handled in a turn of its own, and the code behind the
    [await] runs once, after the turn in which the promise was settled and
    before the next event. *)
Fixpoint run_awaited {L V} (handle : ProcEvent -> Eff (Env L V) unit)
    (after : Outcome V -> Eff (Env L V) unit) (evs : list ProcEvent) : Eff (Env L V) unit :=
  match evs with
  | [] => ret tt
  | ev :: rest =>
      handle ev ;;
      st <- get_env ;;
      match promise st with
      | None => run_awaited handle after rest
      | Some o => after o ;; run_events handle rest
      end
  end.

End Async.

Import Async.

(** *** AIAgentService: initialize and testConnection *)

Module AIAgentStartup.

Definition TestRequest := Env AIAgentService.Output unit.

(** [testProcess.on('close', ...)] *)
Definition test_on_close (code : option Z) : Eff TestRequest unit :=
  l <- get_locals ;;
  if code_is_zero code && includes (AIAgentService.output l) "OK" then resolve tt
  else reject (mkError ("AI agent test failed with code " ++ show_code code)).

(** Handlers are registered on stdout data, close and error. *)
Definition test_handle (ev : ProcEvent) : Eff TestRequest unit :=
  match ev with
  | StdoutData d => AIAgentService.append_output d
  | StderrData _ => ret tt
  | Close code => test_on_close code
  | ProcError e => reject e
  end.

(** What [initialize] leaves behind: its own promise, the lines written
    with [console.log] and the state of the connection test. *)
Record Initialized := mkInitialized {
  outcome : Promise unit;
  logged : list string;
  test : TestRequest
}.

Definition testConnection_start (fs0 : FS) : TestRequest :=
  mkEnv (AIAgentService.mkOutput "") None fs0 [] [].

Definition testConnection (fs0 : FS) (evs : list ProcEvent) : Completion unit * TestRequest :=
  run_events test_handle evs (testConnection_start fs0).

(** [initialize]: the test is awaited; success is logged, a failure is
    logged on the error console and thrown again. *)
Definition initialize (fs0 : FS) (evs : list ProcEvent) : Initialized :=
  let st := snd (testConnection fs0 evs) in
  match promise st with
  | None => mkInitialized None [] st
  | Some (Resolved _) =>
      mkInitialized (Some (Resolved tt)) ["AI Agent service initialized successfully"] st
  | Some (Rejected error) =>
      mkInitialized (Some (Rejected error)) []
        (exec (console_error "Failed to initialize AI agent service:" (message error)) st)
  end.

End AIAgentStartup.

(** *** ChatViewProvider: the handlers of the messages of the webview *)

Module ChatPanel.

Import ChatViewProvider.

(** [this._view.webview.postMessage(m)] where the view is known to be set. *)
Definition postMessage (m : WebviewMessage) : Eff Request unit :=
  set_locals (fun l => mkLocals (responseBuffer l) (fullResponse l) (view l) (posted l ++ [m])).

(** The code of [handleSendMessage] behind the [await]; [t1] is the time
    at which an error message is built. *)
Definition after_send (t1 : string) (o : Outcome unit) : Eff Request unit :=
  match o with
  | Resolved _ => ret tt
  | Rejected error =>
      console_error "Error sending message to agent:" (message error) ;;
      postMessage (AddMessage "assistant" ("Error: " ++ Error_toString error) t1)
  end ;;
  postMessage (Typing false).

(** [handleSendMessage] on a process that delivers [evs]; [t0] is the time
    at which the user message is built.  Without a view nothing is done. *)
Definition handleSendMessage (this : Provider) (message t0 now t1 : string)
    (fs0 : FS) (evs : list ProcEvent) : Completion unit * Request :=
  if negb (_view this) then
    (Normal tt, mkEnv (mkLocals "" "" false []) None fs0 [] [])
  else
    (postMessage (AddMessage "user" message t0) ;;
     postMessage (Typing true) ;;
     writeFileSync (sendMessageToAgent_scriptPath this)
                   (sendMessageToAgent_pythonScript this message) ;;
     run_awaited (handle (sendMessageToAgent_scriptPath this) now) (after_send t1) evs)
      (mkEnv (mkLocals "" "" true []) None fs0 [] []).

(** The locals of a clear request together with the messages posted to
    the webview. *)
Definition ClearChat := Env (Output * list WebviewMessage) unit.

(** The code of [handleClearChat] behind the [await]. *)
Definition after_clear (this : Provider) (o : Outcome unit) : Eff ClearChat unit :=
  match o with
  | Resolved _ =>
      if _view this then
        set_locals (fun l => (fst l, (snd l ++ [ClearMessages])%list))
      else ret tt
  | Rejected error => console_error "Error clearing chat:" (message error)
  end.

Definition handleClearChat (this : Provider) (fs0 : FS) (evs : list ProcEvent)
    : Completion unit * ClearChat :=
  (writeFileSync (clearAgentSession_scriptPath this)
                 (clear_script (agentPath this) (currentSessionId this)) ;;
   run_awaited (fun ev => zoom (clear_handle (clearAgentSession_scriptPath this) ev))
               (after_clear this) evs)
    (mkEnv (mkOutput "", []) None fs0 [] []).

End ChatPanel.

(** *** The script of the webview *)

Module WebviewScript.

Import ChatViewProvider.

(** A message element of the chat: its class, the text of its header and
    the text of its content. *)
Record Bubble := mkBubble {
  className : string;
  header : string;
  textContent : string
}.

(** What the script posts to the extension. *)
Inductive ToHost :=
| SendMessage (message : string)
| ClearChat.

(** The children of [chatMessages], the content element that
    [currentAssistantMessage] refers to (by its position among the
    children; [None] is [null]), the value of the input, and the messages
    posted to the extension. *)
Record Page := mkPage {
  chatMessages : list Bubble;
  currentAssistantMessage : option nat;
  chatInput : string;
  toHost : list ToHost
}.

Definition greeting : Bubble :=
  mkBubble "message assistant-message" "Data Agent"
    "Hello! I'm your SMUS Admin Agent. I can help you with data-related questions and Amazon DataZone queries. How can I assist you today?".

Definition cleared : Bubble :=
  mkBubble "message assistant-message" "Data Agent" "Chat cleared. How can I help you?".

Definition initial : Page := mkPage [greeting] None "" [].

(** [addMessage(type, content, timestamp)]: the new element is appended;
    the position of its content element is returned.  The timestamp is
    not used. *)
Definition addMessage (type content timestamp : string) (pg : Page) : nat * Page :=
  let messageDiv :=
    mkBubble ("message " ++ type ++ "-message")
             (if (type =? "user")%string then "You" else "Data Agent")
             content in
  (length (chatMessages pg),
   mkPage (chatMessages pg ++ [messageDiv]) (currentAssistantMessage pg)
          (chatInput pg) (toHost pg)).

(** [element.textContent += text] for the content element at a position. *)
Fixpoint append_text (pos : nat) (text : string) (bubbles : list Bubble) : list Bubble :=
  match bubbles, pos with
  | [], _ => []
  | b :: rest, O => mkBubble (className b) (header b) (textContent b ++ text) :: rest
  | b :: rest, S pos' => b :: append_text pos' text rest
  end.

Definition set_current (c : option nat) (pg : Page) : Page :=
  mkPage (chatMessages pg) c (chatInput pg) (toHost pg).

(** [window.addEventListener('message', ...)]; [now] is the time at
    which a streamed message is started. *)
Definition on_message (now : string) (m : WebviewMessage) (pg : Page) : Page :=
  match m with
  | AddMessage type content timestamp =>
      let pg1 := if (type =? "assistant")%string then set_current None pg else pg in
      snd (addMessage type content timestamp pg1)
  | StreamChunk chunk =>
      let '(pos, pg1) :=
        match currentAssistantMessage pg with
        | Some pos => (pos, pg)
        | None =>
            let '(pos, pg') := addMessage "assistant" "" now pg in
            (pos, set_current (Some pos) pg')
        end in
      mkPage (append_text pos chunk (chatMessages pg1)) (currentAssistantMessage pg1)
             (chatInput pg1) (toHost pg1)
  | Typing _ => pg
  | ClearMessages => mkPage [cleared] None (chatInput pg) (toHost pg)
  end.

Definition receive (now : string) (ms : list WebviewMessage) (pg : Page) : Page :=
  fold_left (fun p m => on_message now m p) ms pg.

(** [sendMessage()]: a value that is empty once trimmed is not sent. *)
Definition sendMessage (pg : Page) : Page :=
  let message := trim (chatInput pg) in
  if negb (message =? "")%string then
    mkPage (chatMessages pg) (currentAssistantMessage pg) ""
           (toHost pg ++ [SendMessage message])
  else pg.

(** [clearChat()] *)
Definition clearChat (pg : Page) : Page :=
  mkPage (chatMessages pg) (currentAssistantMessage pg) (chatInput pg)
         (toHost pg ++ [ClearChat]).

(** The key events the input listens to. *)
Record KeyEvent := mkKeyEvent { key : string; shiftKey : bool }.

(** The keypress listener of the input. *)
Definition on_keypress (e : KeyEvent) (pg : Page) : Page :=
  if (key e =? "Enter")%string && negb (shiftKey e) then sendMessage pg else pg.

(** The user types a value into the input. *)
Definition type_input (value : string) (pg : Page) : Page :=
  mkPage (chatMessages pg) (currentAssistantMessage pg) value (toHost pg).

End WebviewScript.

(** *** ChatViewProvider: the listener of the messages of the webview *)

Module ChatView.

Import ChatViewProvider.

(** The messages the listener of [resolveWebviewView] has a case for. *)
Inductive Data :=
| SendMessage (message : string)
| ClearChat
| LoadHistory.

(** [handleLoadHistory] has no statement. *)
Definition handleLoadHistory : list WebviewMessage := [].

(** The listener, on a process that delivers [evs]: the messages posted
    to the webview while the handler awaited runs. *)
Definition onDidReceiveMessage (this : Provider) (t0 now t1 : string) (fs0 : FS)
    (evs : list ProcEvent) (data : Data) : list WebviewMessage :=
  match data with
  | SendMessage message =>
      posted (locals (snd (ChatPanel.handleSendMessage this message t0 now t1 fs0 evs)))
  | ClearChat => snd (locals (snd (ChatPanel.handleClearChat this fs0 evs)))
  | LoadHistory => handleLoadHistory
  end.

End ChatView.

(** *** Notions for the further properties *)

(** The line that carries a chunk. *)
Definition chunk_line (c : string) : string := "CHUNK:" ++ c.

(** A stream that carries one chunk per line and ends with the end
    marker. *)
Fixpoint chunk_lines (chunks : list string) : string :=
  match chunks with
  | [] => ""
  | c :: rest => ("CHUNK:" ++ c ++ nl) ++ chunk_lines rest
  end.

Definition encode_lines (chunks : list string) : string :=
  chunk_lines chunks ++ "END_STREAM" ++ nl.

(** A line the decoding loop passes over. *)
Definition is_ignored (line : string) : bool :=
  negb (startsWith line "CHUNK:") && negb (line =? "END_STREAM")%string
  && negb (startsWith line "ERROR:").

(** Everything a sequence of events delivers on stdout. *)
Fixpoint stdout_text (evs : list ProcEvent) : string :=
  match evs with
  | [] => ""
  | StdoutData d :: rest => Buffer_toString d ++ stdout_text rest
  | _ :: rest => stdout_text rest
  end.

(** The messages sendMessageToAgent posts for a sequence of decoded
    frames, [acc] being the text of the chunks decoded before. *)
Fixpoint posts_of (now acc : string) (frames : list Frame)
    : list ChatViewProvider.WebviewMessage :=
  match frames with
  | [] => []
  | Chunk c :: rest => ChatViewProvider.StreamChunk c :: posts_of now (acc ++ c) rest
  | End :: rest => ChatViewProvider.AddMessage "assistant" acc now :: posts_of now acc rest
  | Error_ _ :: rest => posts_of now acc rest
  end.

(** The accumulated response is the text of the chunks decoded so far,
    and the messages posted are those of the frames decoded so far. *)
Definition posts_follow_frames (now : string) (v : ChatViewProvider.Request) : Prop :=
  ChatViewProvider.fullResponse (locals v) = concat_all (chunk_texts (decoded v))
  /\ ChatViewProvider.posted (locals v)
     = if ChatViewProvider.view (locals v) then posts_of now "" (decoded v) else [].

(** The field of a parsed entry, and the message built from an entry that
    is not null. *)
Definition field (entry : JSON) (key : string) : Value :=
  match entry with
  | JObject fields => assoc key fields
  | _ => None
  end.

Definition message_of (entry : JSON) : AIAgentService.ChatMessage :=
  AIAgentService.mkChatMessage
    (if strict_eq_string (field entry "type") "human" then "user" else "assistant")
    (field entry "content") (field entry "timestamp").

Definition is_null (entry : JSON) : bool :=
  match entry with
  | JNull => true
  | _ => false
  end.

(** What a history query whose process exited with code 0 settles with,
    given what [JSON.parse] made of the trimmed output. *)
Definition history_result (parsed : option JSON) : Outcome (list AIAgentService.ChatMessage) :=
  match parsed with
  | Some (JArray items) =>
      if existsb is_null items then Rejected (mkError "Failed to parse history response")
      else Resolved (map message_of items)
  | _ => Rejected (mkError "Failed to parse history response")
  end.

(** What handleSendMessage posts once the promise has settled. *)
Definition send_continuation (t1 : string) (o : Outcome unit)
    : list ChatViewProvider.WebviewMessage :=
  match o with
  | Resolved _ => [ChatViewProvider.Typing false]
  | Rejected e =>
      [ChatViewProvider.AddMessage "assistant" ("Error: " ++ Error_toString e) t1;
       ChatViewProvider.Typing false]
  end.

(** Two requests of the view provider at the same point of the protocol
    and on the same file system, whose posted messages are a common tail
    behind the prefixes [A] and [V]. *)
Definition same_but_posts (A V : list ChatViewProvider.WebviewMessage)
    (a v : ChatViewProvider.Request) : Prop :=
  exists T,
    ChatViewProvider.posted (locals a) = (A ++ T)%list
    /\ ChatViewProvider.posted (locals v) = (V ++ T)%list
    /\ ChatViewProvider.responseBuffer (locals a) = ChatViewProvider.responseBuffer (locals v)
    /\ ChatViewProvider.fullResponse (locals a) = ChatViewProvider.fullResponse (locals v)
    /\ ChatViewProvider.view (locals a) = ChatViewProvider.view (locals v)
    /\ promise a = promise v
    /\ decoded a = decoded v
    /\ fs a = fs v.

(** No frame follows an End or Error frame. *)
Definition terminal_frame_last (frames : list Frame) : Prop :=
  forall D1 D2, frames = (D1 ++ D2)%list -> first_terminal D1 <> None -> D2 = [].

(** The typing indicators among the messages posted to the webview. *)
Fixpoint typing_flags (posted : list ChatViewProvider.WebviewMessage) : list bool :=
  match posted with
  | [] => []
  | ChatViewProvider.Typing b :: rest => b :: typing_flags rest
  | _ :: rest => typing_flags rest
  end.

(** The message elements the script builds for a user message and for a
    message of the assistant, and the element the chunks of a stream are
    collected in: there is none when no chunk arrives. *)
Definition user_bubble (content : string) : WebviewScript.Bubble :=
  WebviewScript.mkBubble "message user-message" "You" content.

Definition assistant_bubble (content : string) : WebviewScript.Bubble :=
  WebviewScript.mkBubble "message assistant-message" "Data Agent" content.

Definition streamed (chunks : list string) : list WebviewScript.Bubble :=
  match chunks with
  | [] => []
  | _ :: _ => [assistant_bubble (concat_all chunks)]
  end.

(** A text made of white space characters only. *)
Fixpoint all_space (s : string) : bool :=
  match s with
  | EmptyString => true
  | String a s1 =>
      if is_space a then all_space s1
      else match s1 with
           | String b s2 =>
               if is_space2 a b then all_space s2
               else match s2 with
                    | String c s3 => is_space3 a b c && all_space s3
                    | EmptyString => false
                    end
           | EmptyString => false
           end
  end.

(** ** Facts on the primitives *)

Section SplitFacts.
Variable sep : ascii.

Lemma split_not_nil (s : string) : split sep s <> [].
Proof.
  induction s as [|c s IH]; simpl; [discriminate|].
  destruct (Ascii.eqb c sep); [discriminate|].
  destruct (split sep s); discriminate.
Qed.

Lemma split_append (a b : string) :
  split sep (a ++ b)
  = (removelast (split sep a) ++ split sep (last (split sep a) "" ++ b))%list.
Proof.
  induction a as [|c a IH].
  - reflexivity.
  - cbn [append split].
    pose proof (split_not_nil a) as Hne.
    destruct (Ascii.eqb c sep) eqn:Hc.
    + destruct (split sep a) as [|h t] eqn:Hs; [congruence|].
      rewrite IH. reflexivity.
    + rewrite IH.
      destruct (split sep a) as [|h t] eqn:Hs; [congruence|].
      destruct t as [|x t].
      * cbn [removelast last app append split]. rewrite Hc. reflexivity.
      * reflexivity.
Qed.
End SplitFacts.

Lemma last_app_cons {A} (l1 l2 : list A) (d : A) :
  l2 <> [] -> last (l1 ++ l2)%list d = last l2 d.
Proof.
  intros Hne. induction l1 as [|x l1 IH]; [reflexivity|].
  cbn [app last]. destruct (l1 ++ l2)%list eqn:E.
  - destruct l1; [cbn in E; congruence | discriminate].
  - exact IH.
Qed.

Lemma lines_of_append (a b : string) :
  lines_of (a ++ b) = (lines_of a ++ lines_of (rest_of a ++ b))%list.
Proof.
  unfold lines_of, rest_of. rewrite split_append.
  apply removelast_app, split_not_nil.
Qed.

Lemma rest_of_append (a b : string) :
  rest_of (a ++ b) = rest_of (rest_of a ++ b).
Proof.
  unfold rest_of. rewrite split_append at 1.
  apply last_app_cons, split_not_nil.
Qed.

Lemma append_assoc (a b c : string) : (a ++ b) ++ c = a ++ (b ++ c).
Proof. induction a as [|x a IH]; simpl; [reflexivity | now rewrite IH]. Qed.

Lemma append_empty_r (a : string) : a ++ "" = a.
Proof. induction a as [|x a IH]; simpl; [reflexivity | now rewrite IH]. Qed.

Lemma or_else_some (s : string) : or_else (Some s) "" = s.
Proof.
  unfold or_else. destruct (String.eqb_spec s ""); congruence.
Qed.

Lemma last_cons_default {A} (r : list A) (x d : A) :
  last (x :: r) d = last r x.
Proof.
  revert x d. induction r as [|y r IH]; intros x d; [reflexivity|].
  change (last (x :: y :: r) d) with (last (y :: r) d).
  rewrite IH. symmetry. apply IH.
Qed.

Lemma pop_split (s : string) :
  pop (split LF s) = (Some (rest_of s), lines_of s).
Proof.
  unfold pop, rest_of, lines_of.
  pose proof (split_not_nil LF s) as Hne.
  destruct (split LF s) as [|x r] eqn:E; [congruence|].
  f_equal. f_equal. symmetry. apply last_cons_default.
Qed.

(** ** The decoder of the data *)

Lemma utf8_run_app (st : Utf8) (a b : string) :
  utf8_run st (a ++ b)
  = (fst (utf8_run st a) ++ fst (utf8_run (snd (utf8_run st a)) b),
     snd (utf8_run (snd (utf8_run st a)) b)).
Proof.
  revert st. induction a as [|x a IH]; intros st.
  - cbn. destruct (utf8_run st b); reflexivity.
  - cbn [append utf8_run]. destruct (utf8_step st x) as [o st']. rewrite IH.
    destruct (utf8_run st' a) as [o1 st1]. cbn [fst snd].
    destruct (utf8_run st1 b) as [o2 st2]. cbn [fst snd].
    rewrite append_assoc. reflexivity.
Qed.

(** Data cut between two characters is decoded piece by piece. *)
Lemma toString_app (a b : string) :
  complete a = true -> Buffer_toString (a ++ b) = Buffer_toString a ++ Buffer_toString b.
Proof.
  unfold complete, Buffer_toString. intros H. rewrite utf8_run_app.
  destruct (utf8_run Idle a) as [o1 st1]. cbn [fst snd] in *.
  destruct st1; [|discriminate]. cbn [utf8_flush]. rewrite append_empty_r.
  destruct (utf8_run Idle b) as [o2 st2]. cbn [fst snd].
  apply append_assoc.
Qed.

Lemma utf8_run_ascii (a : string) : is_ascii a = true -> utf8_run Idle a = (a, Idle).
Proof.
  induction a as [|x a IH]; [reflexivity|].
  cbn [is_ascii utf8_run utf8_step]. intros H. apply andb_prop in H. destruct H as [Hx Ha].
  unfold utf8_lead. rewrite Hx, (IH Ha). reflexivity.
Qed.

Lemma toString_ascii (a : string) : is_ascii a = true -> Buffer_toString a = a.
Proof.
  intros H. unfold Buffer_toString. rewrite (utf8_run_ascii a H). apply append_empty_r.
Qed.

Lemma complete_ascii (a : string) : is_ascii a = true -> complete a = true.
Proof. intros H. unfold complete. rewrite (utf8_run_ascii a H). reflexivity. Qed.

Lemma toString_ascii_app (a b : string) :
  is_ascii a = true -> Buffer_toString (a ++ b) = a ++ Buffer_toString b.
Proof.
  intros H. rewrite (toString_app a b (complete_ascii a H)), (toString_ascii a H). reflexivity.
Qed.

Lemma is_ascii_app (a b : string) : is_ascii (a ++ b) = is_ascii a && is_ascii b.
Proof.
  induction a as [|x a IH]; [reflexivity|].
  cbn [append is_ascii]. rewrite IH. apply andb_assoc.
Qed.

(** The text received is the decoded stream when no event ends inside a
    character, and the stream itself when the stream is ASCII. *)
Lemma received_complete (frags : list string) :
  Forall (fun f => complete f = true) frags ->
  received frags = Buffer_toString (concat_all frags).
Proof.
  unfold received. induction 1 as [|f frags Hf _ IH]; [reflexivity|].
  cbn [map concat_all]. rewrite IH, (toString_app f _ Hf). reflexivity.
Qed.

Lemma received_ascii (frags : list string) :
  is_ascii (concat_all frags) = true -> received frags = concat_all frags.
Proof.
  unfold received. induction frags as [|f frags IH]; [reflexivity|].
  cbn [map concat_all]. rewrite is_ascii_app. intros H. apply andb_prop in H.
  destruct H as [Hf Hr]. rewrite (IH Hr), (toString_ascii f Hf). reflexivity.
Qed.

Lemma received_app (l1 l2 : list string) :
  received (l1 ++ l2) = received l1 ++ received l2.
Proof.
  unfold received. induction l1 as [|f l1 IH]; [reflexivity|].
  cbn [app map concat_all]. rewrite IH, append_assoc. reflexivity.
Qed.

Arguments Buffer_toString : simpl never.

(** ** White space *)

Lemma is_space2_LF (a : ascii) : is_space2 a LF = false.
Proof. unfold is_space2. change (N_of_ascii LF) with 10%N. cbn. apply andb_false_r. Qed.

Lemma is_space3_LF (a b : ascii) : is_space3 a b LF = false.
Proof.
  unfold is_space3. change (N_of_ascii LF) with 10%N. cbv zeta.
  change (10 =? 128)%N with false. change (10 =? 159)%N with false.
  change (10 =? 191)%N with false. change (128 <=? 10)%N with false.
  change (10 =? 168)%N with false. change (10 =? 169)%N with false.
  change (10 =? 175)%N with false.
  cbn [andb orb]. rewrite !andb_false_r. reflexivity.
Qed.

Lemma string_length_ind (P : string -> Prop) :
  (forall s, (forall t, String.length t < String.length s -> P t) -> P s) ->
  forall s, P s.
Proof.
  intros H s. remember (String.length s) as n eqn:E.
  revert s E. induction n as [n IH] using lt_wf_ind. intros s ->.
  apply H. intros t Ht. exact (IH _ Ht t eq_refl).
Qed.

Ltac by_IH IH t := exact (IH t ltac:(cbn; lia)).

Lemma trimStart_blank (s : string) : (trimStart s =? "")%string = all_space s.
Proof.
  induction s as [s IH] using string_length_ind.
  destruct s as [|a [|b [|c s3]]]; cbn [trimStart all_space].
  - reflexivity.
  - destruct (is_space a); reflexivity.
  - destruct (is_space a); [by_IH IH (String b "")|].
    destruct (is_space2 a b); reflexivity.
  - destruct (is_space a); [by_IH IH (String b (String c s3))|].
    destruct (is_space2 a b); [by_IH IH (String c s3)|].
    destruct (is_space3 a b c); [by_IH IH s3 | reflexivity].
Qed.

Lemma trimStart_idem (s : string) : trimStart (trimStart s) = trimStart s.
Proof.
  induction s as [s IH] using string_length_ind.
  destruct s as [|a [|b [|c s3]]].
  - reflexivity.
  - cbn [trimStart]. destruct (is_space a) eqn:Ea; [reflexivity|].
    cbn [trimStart]. rewrite Ea. reflexivity.
  - change (trimStart (String a (String b "")))
      with (if is_space a then trimStart (String b "")
            else if is_space2 a b then "" else String a (String b "")).
    destruct (is_space a) eqn:Ea; [by_IH IH (String b "")|].
    destruct (is_space2 a b) eqn:Eb; [reflexivity|].
    cbn [trimStart]. rewrite Ea, Eb. reflexivity.
  - change (trimStart (String a (String b (String c s3))))
      with (if is_space a then trimStart (String b (String c s3))
            else if is_space2 a b then trimStart (String c s3)
            else if is_space3 a b c then trimStart s3
            else String a (String b (String c s3))).
    destruct (is_space a) eqn:Ea; [by_IH IH (String b (String c s3))|].
    destruct (is_space2 a b) eqn:Eb; [by_IH IH (String c s3)|].
    destruct (is_space3 a b c) eqn:Ec; [by_IH IH s3|].
    cbn [trimStart]. rewrite Ea, Eb, Ec. reflexivity.
Qed.

Lemma trimEnd_empty (t : string) :
  (trimEnd t =? "")%string = (trimStart t =? "")%string.
Proof.
  destruct t as [|c t]; [reflexivity|].
  cbn [trimEnd]. destruct (trimStart (String c t) =? "")%string; reflexivity.
Qed.

(** The trimmed text is empty exactly for a text of white space. *)
Lemma trim_empty (s : string) : (trim s =? "")%string = all_space s.
Proof.
  unfold trim. rewrite trimEnd_empty, trimStart_idem. apply trimStart_blank.
Qed.

Lemma all_space_line_feed (s : string) : all_space (s ++ nl) = all_space s.
Proof.
  induction s as [s IH] using string_length_ind.
  destruct s as [|a [|b [|c s3]]]; unfold nl; cbn [append all_space]; fold nl.
  - reflexivity.
  - change (is_space LF) with true.
    destruct (is_space a); [reflexivity|]. rewrite is_space2_LF. reflexivity.
  - destruct (is_space a); [by_IH IH (String b "")|].
    destruct (is_space2 a b); [reflexivity|]. rewrite is_space3_LF. reflexivity.
  - destruct (is_space a); [by_IH IH (String b (String c s3))|].
    destruct (is_space2 a b); [by_IH IH (String c s3)|].
    destruct (is_space3 a b c); [by_IH IH s3 | reflexivity].
Qed.

Lemma trimStart_line_feed (s : string) :
  trimStart (s ++ nl) = if all_space s then "" else trimStart s ++ nl.
Proof.
  induction s as [s IH] using string_length_ind.
  destruct s as [|a [|b [|c s3]]]; unfold nl; cbn [append trimStart all_space]; fold nl.
  - reflexivity.
  - change (is_space LF) with true.
    destruct (is_space a); [reflexivity|]. rewrite is_space2_LF. reflexivity.
  - destruct (is_space a); [by_IH IH (String b "")|].
    destruct (is_space2 a b); [reflexivity|]. rewrite is_space3_LF. reflexivity.
  - destruct (is_space a); [by_IH IH (String b (String c s3))|].
    destruct (is_space2 a b); [by_IH IH (String c s3)|].
    destruct (is_space3 a b c); [by_IH IH s3 | reflexivity].
Qed.

Lemma trimEnd_line_feed (s : string) : trimEnd (s ++ nl) = trimEnd s.
Proof.
  induction s as [|c s IH]; [reflexivity|].
  cbn [append trimEnd].
  change (String c (s ++ nl)) with (String c s ++ nl).
  rewrite !trimStart_blank, all_space_line_feed, IH. reflexivity.
Qed.

(** A line feed at the end of a text does not change the trimmed text. *)
Lemma trim_line_feed (s : string) : trim (s ++ nl) = trim s.
Proof.
  unfold trim. rewrite trimStart_line_feed.
  destruct (all_space s) eqn:E.
  - pose proof (trimStart_blank s) as H. rewrite E in H.
    apply String.eqb_eq in H. rewrite H. reflexivity.
  - apply trimEnd_line_feed.
Qed.

(** ** The decoding loop of AIAgentService.sendMessage *)

Arguments substring_from : simpl never.
Arguments startsWith : simpl never.
Arguments String.eqb : simpl never.

Ltac run_eff :=
  unfold bind, note, resolve, reject, try_catch, unlinkSync, console_error,
    AIAgentService.onChunk, AIAgentService.set_responseBuffer, with_buffer, exec,
    set_locals, get_locals, modify, ret; cbn.

Ltac unlink_cases :=
  repeat match goal with
         | |- context [is_denied ?p ?f] => destruct (is_denied p f); cbn
         | |- context [exists_file ?p ?f] => destruct (exists_file p f); cbn
         end.

Lemma on_output_lines (p t : string) (st : AIAgentService.Request) :
  on_output p t st
  = AIAgentService.for_lines p
      (lines_of (AIAgentService.responseBuffer (locals st) ++ t))
      (with_buffer (rest_of (AIAgentService.responseBuffer (locals st) ++ t)) st).
Proof. reflexivity. Qed.

Lemma on_stdout_data_output (p d : string) (st : AIAgentService.Request) :
  AIAgentService.on_stdout_data p d st = on_output p (Buffer_toString d) st.
Proof.
  unfold AIAgentService.on_stdout_data, bind at 1, get_locals.
  rewrite pop_split, or_else_some. reflexivity.
Qed.

Lemma on_stdout_data_lines (p d : string) (st : AIAgentService.Request) :
  AIAgentService.on_stdout_data p d st
  = AIAgentService.for_lines p
      (lines_of (AIAgentService.responseBuffer (locals st) ++ Buffer_toString d))
      (with_buffer
         (rest_of (AIAgentService.responseBuffer (locals st) ++ Buffer_toString d)) st).
Proof. apply on_stdout_data_output. Qed.

Lemma for_lines_normal (p : string) (lines : list string) (st : AIAgentService.Request) :
  fst (AIAgentService.for_lines p lines st) = Normal tt.
Proof.
  revert st. induction lines as [|line rest IH]; intros st; [reflexivity|].
  cbn [AIAgentService.for_lines].
  destruct (startsWith line "CHUNK:").
  - run_eff. apply IH.
  - destruct (line =? "END_STREAM")%string.
    + run_eff. unlink_cases; reflexivity.
    + destruct (startsWith line "ERROR:"); [reflexivity | apply IH].
Qed.

Lemma for_lines_with_buffer (p b : string) (lines : list string) (st : AIAgentService.Request) :
  snd (AIAgentService.for_lines p lines (with_buffer b st))
  = with_buffer b (snd (AIAgentService.for_lines p lines st)).
Proof.
  revert st. induction lines as [|line rest IH]; intros st; [reflexivity|].
  cbn [AIAgentService.for_lines].
  destruct (startsWith line "CHUNK:").
  - run_eff.
    match goal with
    | |- _ = ?R =>
        match R with
        | context [AIAgentService.for_lines p rest ?s] => exact (IH s)
        end
    end.
  - destruct (line =? "END_STREAM")%string.
    + run_eff. unlink_cases; reflexivity.
    + destruct (startsWith line "ERROR:"); [reflexivity | apply IH].
Qed.

Lemma for_lines_buffer (p : string) (lines : list string) (st : AIAgentService.Request) :
  AIAgentService.responseBuffer (locals (snd (AIAgentService.for_lines p lines st)))
  = AIAgentService.responseBuffer (locals st).
Proof.
  revert st. induction lines as [|line rest IH]; intros st; [reflexivity|].
  cbn [AIAgentService.for_lines].
  destruct (startsWith line "CHUNK:").
  - run_eff. rewrite IH. reflexivity.
  - destruct (line =? "END_STREAM")%string.
    + run_eff. unlink_cases; reflexivity.
    + destruct (startsWith line "ERROR:"); [reflexivity | apply IH].
Qed.

Lemma for_lines_app (p : string) (l1 l2 : list string) (st : AIAgentService.Request) :
  Forall (fun l => is_terminal l = false) l1 ->
  AIAgentService.for_lines p (l1 ++ l2)%list st
  = AIAgentService.for_lines p l2 (snd (AIAgentService.for_lines p l1 st)).
Proof.
  intros H. revert st. induction H as [|line rest Hl _ IH]; intros st; [reflexivity|].
  cbn [app AIAgentService.for_lines].
  unfold is_terminal in Hl.
  destruct (startsWith line "CHUNK:").
  - run_eff. apply IH.
  - destruct (line =? "END_STREAM")%string; [discriminate|].
    destruct (startsWith line "ERROR:"); [discriminate|]. apply IH.
Qed.

Lemma with_buffer_twice (b1 b2 : string) (st : AIAgentService.Request) :
  with_buffer b2 (with_buffer b1 st) = with_buffer b2 st.
Proof. reflexivity. Qed.

Lemma pair_eta {A B} (x : A * B) : x = (fst x, snd x).
Proof. destruct x; reflexivity. Qed.

Lemma on_output_normal (p t : string) (st : AIAgentService.Request) :
  fst (on_output p t st) = Normal tt.
Proof. apply for_lines_normal. Qed.

Lemma on_stdout_data_normal (p d : string) (st : AIAgentService.Request) :
  fst (AIAgentService.on_stdout_data p d st) = Normal tt.
Proof. rewrite on_stdout_data_output. apply on_output_normal. Qed.

Lemma on_output_buffer (p t : string) (st : AIAgentService.Request) :
  AIAgentService.responseBuffer (locals (snd (on_output p t st)))
  = rest_of (AIAgentService.responseBuffer (locals st) ++ t).
Proof. unfold on_output. rewrite for_lines_buffer. reflexivity. Qed.

Lemma on_stdout_data_buffer (p d : string) (st : AIAgentService.Request) :
  AIAgentService.responseBuffer (locals (snd (AIAgentService.on_stdout_data p d st)))
  = rest_of (AIAgentService.responseBuffer (locals st) ++ Buffer_toString d).
Proof. rewrite on_stdout_data_output. apply on_output_buffer. Qed.

Lemma terminal_only_last_rest (b x y : string) :
  terminal_only_last (b ++ x ++ y) ->
  terminal_only_last (rest_of (b ++ x) ++ y).
Proof.
  unfold terminal_only_last.
  rewrite <- append_assoc, lines_of_append.
  destruct (lines_of (rest_of (b ++ x) ++ y)) as [|l2 r2] eqn:E.
  - intros _. constructor.
  - rewrite removelast_app by discriminate.
    intros H. apply Forall_app in H. apply H.
Qed.

(** Two texts in a row act as one event with the joined text, as long as
    no complete line of the first is terminal. *)
Lemma on_output_join (p x y : string) (st : AIAgentService.Request) :
  Forall (fun l => is_terminal l = false)
         (lines_of (AIAgentService.responseBuffer (locals st) ++ x)) ->
  on_output p y (snd (on_output p x st)) = on_output p (x ++ y) st.
Proof.
  intros H.
  rewrite (on_output_lines p y), on_output_buffer.
  rewrite (on_output_lines p (x ++ y)).
  rewrite (on_output_lines p x).
  set (b := AIAgentService.responseBuffer (locals st)) in *.
  rewrite <- (append_assoc b x y).
  rewrite (lines_of_append (b ++ x) y).
  rewrite (rest_of_append (b ++ x) y).
  set (L1 := lines_of (b ++ x)) in *.
  set (r1 := rest_of (b ++ x)) in *.
  set (r2 := rest_of (r1 ++ y)).
  rewrite for_lines_with_buffer, with_buffer_twice.
  rewrite (for_lines_app p L1 _ _ H).
  rewrite for_lines_with_buffer. reflexivity.
Qed.

(** The same, as long as no terminal line is followed by another complete
    line. *)
Lemma on_output_merge (p x y : string) (st : AIAgentService.Request) :
  terminal_only_last (AIAgentService.responseBuffer (locals st) ++ x ++ y) ->
  on_output p y (snd (on_output p x st)) = on_output p (x ++ y) st.
Proof.
  unfold terminal_only_last. intros H.
  rewrite (on_output_lines p y), on_output_buffer.
  rewrite (on_output_lines p (x ++ y)).
  rewrite (on_output_lines p x).
  set (b := AIAgentService.responseBuffer (locals st)) in *.
  rewrite <- (append_assoc b x y) in *.
  rewrite (lines_of_append (b ++ x) y) in *.
  rewrite (rest_of_append (b ++ x) y).
  set (L1 := lines_of (b ++ x)) in *.
  set (r1 := rest_of (b ++ x)) in *.
  set (r2 := rest_of (r1 ++ y)).
  rewrite for_lines_with_buffer, with_buffer_twice.
  destruct (lines_of (r1 ++ y)) as [|l2 rest2] eqn:E.
  - rewrite app_nil_r.
    rewrite (pair_eta (AIAgentService.for_lines p L1 (with_buffer r2 st))).
    rewrite for_lines_normal, for_lines_with_buffer. reflexivity.
  - rewrite removelast_app in H by discriminate.
    apply Forall_app in H. destruct H as [H1 _].
    rewrite (for_lines_app p L1 (l2 :: rest2) _ H1).
    rewrite for_lines_with_buffer. reflexivity.
Qed.

Lemma run_data_cons (p f : string) (evs : list ProcEvent) (st : AIAgentService.Request) :
  AIAgentService.run p (StdoutData f :: evs) st
  = AIAgentService.run p evs (snd (on_output p (Buffer_toString f) st)).
Proof.
  cbn [AIAgentService.run AIAgentService.handle]. unfold bind at 1.
  rewrite on_stdout_data_output.
  pose proof (on_output_normal p (Buffer_toString f) st) as Hn.
  destruct (on_output p (Buffer_toString f) st) as [c s']. cbn in Hn. subst c.
  reflexivity.
Qed.

(** However the text is distributed over the data events, the request
    ends in the state the whole text delivered in one event leaves it in. *)
Lemma run_fragments (p f : string) (frags : list string) (st : AIAgentService.Request) :
  terminal_only_last (AIAgentService.responseBuffer (locals st) ++ received (f :: frags)) ->
  AIAgentService.run p (map StdoutData (f :: frags)) st
  = on_output p (received (f :: frags)) st.
Proof.
  revert f st. induction frags as [|g frags IH]; intros f st H.
  - cbn [map]. rewrite run_data_cons. unfold received. cbn [map concat_all].
    rewrite append_empty_r. cbn [AIAgentService.run ret].
    rewrite (pair_eta (on_output p (Buffer_toString f) st)) at 2.
    rewrite on_output_normal. reflexivity.
  - change (received (f :: g :: frags))
      with (Buffer_toString f ++ received (g :: frags)) in *.
    rewrite <- (on_output_merge p (Buffer_toString f) (received (g :: frags)) st H).
    rewrite <- IH.
    + change (map StdoutData (f :: g :: frags))
        with (StdoutData f :: map StdoutData (g :: frags)).
      apply run_data_cons.
    + rewrite on_output_buffer. apply terminal_only_last_rest. exact H.
Qed.

(** ** The two streaming implementations side by side *)

Ltac run_view :=
  unfold bind, note, resolve, reject, try_catch, unlinkSync, console_error,
    ChatViewProvider.postMessage_if_view, ChatViewProvider.append_fullResponse,
    ChatViewProvider.set_responseBuffer, exec,
    set_locals, get_locals, modify, ret; cbn.

Lemma stream_chunks_app (l1 l2 : list ChatViewProvider.WebviewMessage) :
  stream_chunks (l1 ++ l2) = (stream_chunks l1 ++ stream_chunks l2)%list.
Proof.
  induction l1 as [|m l1 IH]; [reflexivity|].
  destruct m; cbn; rewrite ?IH; reflexivity.
Qed.

Lemma view_for_lines_normal (q now : string) (lines : list string)
    (v : ChatViewProvider.Request) :
  fst (ChatViewProvider.for_lines q now lines v) = Normal tt.
Proof.
  revert v. induction lines as [|line rest IH]; intros v; [reflexivity|].
  cbn [ChatViewProvider.for_lines].
  destruct (startsWith line "CHUNK:").
  - run_view. apply IH.
  - destruct (line =? "END_STREAM")%string.
    + run_view. unlink_cases; reflexivity.
    + destruct (startsWith line "ERROR:"); [reflexivity | apply IH].
Qed.

Lemma agree_for_lines (p q now : string) (lines : list string)
    (s : AIAgentService.Request) (v : ChatViewProvider.Request) :
  agree s v ->
  agree (snd (AIAgentService.for_lines p lines s))
        (snd (ChatViewProvider.for_lines q now lines v)).
Proof.
  revert s v. induction lines as [|line rest IH]; intros s v H; [exact H|].
  cbn [AIAgentService.for_lines ChatViewProvider.for_lines].
  destruct H as [Hb Hp Hd Hc].
  destruct (startsWith line "CHUNK:").
  - run_eff. run_view. apply IH.
    destruct v as [[vb vf vv vposted] vp vfs vcon vdec]; cbn in *.
    destruct vv; cbn; (constructor; cbn; [exact Hb | exact Hp | now rewrite Hd |]);
      intros Hv; [|discriminate].
    rewrite stream_chunks_app, (Hc Hv). reflexivity.
  - destruct (line =? "END_STREAM")%string.
    + run_eff. run_view.
      destruct v as [[vb vf vv vposted] vp vfs vcon vdec]; cbn in *.
      destruct vv; cbn; unlink_cases;
        (constructor; cbn; [exact Hb | now rewrite Hp | now rewrite Hd |]);
        intros Hv; try discriminate;
        rewrite stream_chunks_app, (Hc Hv); cbn; now rewrite app_nil_r.
    + destruct (startsWith line "ERROR:").
      * run_eff. run_view. constructor; cbn; try assumption; congruence.
      * apply IH. constructor; assumption.
Qed.

Lemma view_on_stdout_data_lines (q now d : string) (v : ChatViewProvider.Request) :
  ChatViewProvider.on_stdout_data q now d v
  = ChatViewProvider.for_lines q now
      (lines_of (ChatViewProvider.responseBuffer (locals v) ++ Buffer_toString d))
      (exec (ChatViewProvider.set_responseBuffer
               (rest_of (ChatViewProvider.responseBuffer (locals v) ++ Buffer_toString d)))
            v).
Proof.
  unfold ChatViewProvider.on_stdout_data, bind at 1, get_locals.
  rewrite pop_split, or_else_some. reflexivity.
Qed.

Lemma handle_normal (p : string) (ev : ProcEvent) (st : AIAgentService.Request) :
  fst (AIAgentService.handle p ev st) = Normal tt.
Proof.
  destruct ev as [d|d|code|e]; cbn [AIAgentService.handle].
  - apply on_stdout_data_normal.
  - reflexivity.
  - unfold AIAgentService.on_close. run_eff.
    unlink_cases; destruct (code_is_zero code); reflexivity.
  - reflexivity.
Qed.

Lemma view_handle_normal (q now : string) (ev : ProcEvent) (v : ChatViewProvider.Request) :
  fst (ChatViewProvider.handle q now ev v) = Normal tt.
Proof.
  destruct ev as [d|d|code|e]; cbn [ChatViewProvider.handle].
  - rewrite view_on_stdout_data_lines. apply view_for_lines_normal.
  - reflexivity.
  - unfold ChatViewProvider.on_close. run_view.
    unlink_cases; destruct (code_is_zero code); reflexivity.
  - reflexivity.
Qed.

Lemma run_cons (p : string) (ev : ProcEvent) (evs : list ProcEvent)
    (st : AIAgentService.Request) :
  AIAgentService.run p (ev :: evs) st
  = AIAgentService.run p evs (snd (AIAgentService.handle p ev st)).
Proof.
  cbn [AIAgentService.run]. unfold bind.
  pose proof (handle_normal p ev st) as Hn.
  destruct (AIAgentService.handle p ev st) as [c s']. cbn in Hn. subst c. reflexivity.
Qed.

Lemma view_run_cons (q now : string) (ev : ProcEvent) (evs : list ProcEvent)
    (v : ChatViewProvider.Request) :
  ChatViewProvider.run q now (ev :: evs) v
  = ChatViewProvider.run q now evs (snd (ChatViewProvider.handle q now ev v)).
Proof.
  cbn [ChatViewProvider.run]. unfold bind.
  pose proof (view_handle_normal q now ev v) as Hn.
  destruct (ChatViewProvider.handle q now ev v) as [c s']. cbn in Hn. subst c. reflexivity.
Qed.

Lemma run_normal (p : string) (evs : list ProcEvent) (st : AIAgentService.Request) :
  fst (AIAgentService.run p evs st) = Normal tt.
Proof.
  revert st. induction evs as [|ev evs IH]; intros st; [reflexivity|].
  rewrite run_cons. apply IH.
Qed.

Lemma view_run_normal (q now : string) (evs : list ProcEvent) (v : ChatViewProvider.Request) :
  fst (ChatViewProvider.run q now evs v) = Normal tt.
Proof.
  revert v. induction evs as [|ev evs IH]; intros v; [reflexivity|].
  rewrite view_run_cons. apply IH.
Qed.

Lemma run_app (p : string) (evs1 evs2 : list ProcEvent) (st : AIAgentService.Request) :
  AIAgentService.run p (evs1 ++ evs2) st
  = AIAgentService.run p evs2 (snd (AIAgentService.run p evs1 st)).
Proof.
  revert st. induction evs1 as [|ev evs1 IH]; intros st; [reflexivity|].
  cbn [app]. rewrite !run_cons. apply IH.
Qed.

Lemma view_run_app (q now : string) (evs1 evs2 : list ProcEvent)
    (v : ChatViewProvider.Request) :
  ChatViewProvider.run q now (evs1 ++ evs2) v
  = ChatViewProvider.run q now evs2 (snd (ChatViewProvider.run q now evs1 v)).
Proof.
  revert v. induction evs1 as [|ev evs1 IH]; intros v; [reflexivity|].
  cbn [app]. rewrite !view_run_cons. apply IH.
Qed.

Lemma agree_handle (p q now : string) (ev : ProcEvent)
    (s : AIAgentService.Request) (v : ChatViewProvider.Request) :
  agree s v ->
  agree (snd (AIAgentService.handle p ev s)) (snd (ChatViewProvider.handle q now ev v)).
Proof.
  intros H. destruct ev as [d|d|code|e];
    cbn [AIAgentService.handle ChatViewProvider.handle].
  - rewrite on_stdout_data_lines, view_on_stdout_data_lines.
    destruct H as [Hb Hp Hd Hc]. rewrite <- Hb.
    apply agree_for_lines. constructor; cbn; solve [assumption | reflexivity].
  - destruct H as [Hb Hp Hd Hc]. constructor; cbn; assumption.
  - destruct H as [Hb Hp Hd Hc].
    unfold AIAgentService.on_close, ChatViewProvider.on_close. run_eff.
    unlink_cases; destruct (code_is_zero code); cbn;
      constructor; cbn; try assumption; now rewrite Hp.
  - destruct H as [Hb Hp Hd Hc]. constructor; cbn; try assumption. now rewrite Hp.
Qed.

Lemma agree_run (p q now : string) (evs : list ProcEvent)
    (s : AIAgentService.Request) (v : ChatViewProvider.Request) :
  agree s v ->
  agree (snd (AIAgentService.run p evs s)) (snd (ChatViewProvider.run q now evs v)).
Proof.
  revert s v. induction evs as [|ev evs IH]; intros s v H; [exact H|].
  rewrite run_cons, view_run_cons. apply IH, agree_handle, H.
Qed.

Lemma agree_start (this : AIAgentService.Service) (that : ChatViewProvider.Provider)
    (m1 m2 : string) (sessionId : option string) (fs1 fs2 : FS) :
  agree (AIAgentService.sendMessage_start this m1 sessionId fs1)
        (ChatViewProvider.sendMessageToAgent_start that m2 fs2).
Proof. constructor; reflexivity. Qed.

Lemma view_for_lines_view (q now : string) (lines : list string)
    (v : ChatViewProvider.Request) :
  ChatViewProvider.view (locals (snd (ChatViewProvider.for_lines q now lines v)))
  = ChatViewProvider.view (locals v).
Proof.
  revert v. induction lines as [|line rest IH]; intros v; [reflexivity|].
  cbn [ChatViewProvider.for_lines].
  destruct (startsWith line "CHUNK:").
  - run_view. rewrite IH. cbn.
    destruct (ChatViewProvider.view (locals v)) eqn:E; cbn; congruence.
  - destruct (line =? "END_STREAM")%string.
    + run_view.
      destruct (ChatViewProvider.view (locals v)) eqn:E; cbn;
        unlink_cases; cbn; congruence.
    + destruct (startsWith line "ERROR:"); [reflexivity | apply IH].
Qed.

Lemma view_run_view (q now : string) (evs : list ProcEvent) (v : ChatViewProvider.Request) :
  ChatViewProvider.view (locals (snd (ChatViewProvider.run q now evs v)))
  = ChatViewProvider.view (locals v).
Proof.
  revert v. induction evs as [|ev evs IH]; intros v; [reflexivity|].
  rewrite view_run_cons, IH.
  destruct ev as [d|d|code|e]; cbn [ChatViewProvider.handle].
  - rewrite view_on_stdout_data_lines, view_for_lines_view. reflexivity.
  - reflexivity.
  - unfold ChatViewProvider.on_close. run_view.
    unlink_cases; destruct (code_is_zero code); reflexivity.
  - reflexivity.
Qed.

(** ** Framing *)

Lemma hello_stream_lines :
  lines_of hello_stream = ["CHUNK:Hello"; "CHUNK: world"; "END_STREAM"]
  /\ rest_of hello_stream = "".
Proof. split; reflexivity. Qed.

Lemma hello_stream_terminal_only_last : terminal_only_last hello_stream.
Proof.
  unfold terminal_only_last. rewrite (proj1 hello_stream_lines).
  cbn [removelast]. repeat constructor.
Qed.

Lemma hello_stream_at_once (p : string) (st : AIAgentService.Request) :
  AIAgentService.responseBuffer (locals st) = "" ->
  let st' := snd (on_output p hello_stream st) in
  decoded st' = (decoded st ++ [Chunk "Hello"; Chunk " world"; End])%list
  /\ AIAgentService.onChunk_calls (locals st')
     = (AIAgentService.onChunk_calls (locals st) ++ ["Hello"; " world"])%list
  /\ promise st' = settle (Resolved tt) (promise st).
Proof.
  intros Hb. cbn zeta. rewrite on_output_lines, Hb.
  change ("" ++ hello_stream) with hello_stream.
  destruct hello_stream_lines as [-> ->].
  cbn [AIAgentService.for_lines].
  change (startsWith "CHUNK:Hello" "CHUNK:") with true.
  change (startsWith "CHUNK: world" "CHUNK:") with true.
  change (startsWith "END_STREAM" "CHUNK:") with false.
  change ("END_STREAM" =? "END_STREAM")%string with true.
  change (substring_from 6 "CHUNK:Hello") with "Hello".
  change (substring_from 6 "CHUNK: world") with " world".
  cbv iota. run_eff.
  unlink_cases; rewrite <- !app_assoc; repeat split.
Qed.

(** C1. Framing correctness: however the stream
    CHUNK:Hello, CHUNK: world, END_STREAM (each followed by a line feed) is
    cut into stdout data events, sendMessage and sendMessageToAgent decode
    exactly the frames Chunk Hello, Chunk world, End: the chunk sink
    receives Hello and then world, and the promise is resolved. *)
Theorem C1_framing_correctness (frags : list string) :
  concat_all frags = hello_stream ->
  (forall this message sessionId fs0,
      let r := AIAgentService.sendMessage this message sessionId fs0
                 (map StdoutData frags) in
      fst r = Normal tt
      /\ decoded (snd r) = [Chunk "Hello"; Chunk " world"; End]
      /\ AIAgentService.onChunk_calls (locals (snd r)) = ["Hello"; " world"]
      /\ promise (snd r) = Some (Resolved tt))
  /\ (forall that message now fs0,
      let r := ChatViewProvider.sendMessageToAgent that message now fs0
                 (map StdoutData frags) in
      fst r = Normal tt
      /\ decoded (snd r) = [Chunk "Hello"; Chunk " world"; End]
      /\ (ChatViewProvider._view that = true ->
          stream_chunks (ChatViewProvider.posted (locals (snd r))) = ["Hello"; " world"])
      /\ promise (snd r) = Some (Resolved tt)).
Proof.
  intros Hcat.
  assert (Hs : forall this message sessionId fs0,
             let r := AIAgentService.sendMessage this message sessionId fs0
                        (map StdoutData frags) in
             decoded (snd r) = [Chunk "Hello"; Chunk " world"; End]
             /\ AIAgentService.onChunk_calls (locals (snd r)) = ["Hello"; " world"]
             /\ promise (snd r) = Some (Resolved tt)).
  { intros this message sessionId fs0. cbn zeta.
    unfold AIAgentService.sendMessage.
    destruct frags as [|f frags]; [discriminate Hcat|].
    assert (Hr : received (f :: frags) = hello_stream)
      by (rewrite received_ascii; [exact Hcat | rewrite Hcat; reflexivity]).
    rewrite run_fragments.
    - rewrite Hr.
      apply (hello_stream_at_once _ (AIAgentService.sendMessage_start this message sessionId fs0)).
      reflexivity.
    - change (AIAgentService.responseBuffer
                (locals (AIAgentService.sendMessage_start this message sessionId fs0)))
        with "".
      rewrite Hr. exact hello_stream_terminal_only_last. }
  split.
  - intros this message sessionId fs0. cbn zeta. split.
    + apply run_normal.
    + apply Hs.
  - intros that message now fs0. cbn zeta.
    unfold ChatViewProvider.sendMessageToAgent.
    pose proof (agree_run
                  (AIAgentService.sendMessage_scriptPath AIAgentService.constructor)
                  (ChatViewProvider.sendMessageToAgent_scriptPath that) now
                  (map StdoutData frags) _ _
                  (agree_start AIAgentService.constructor that message message None fs0 fs0))
      as [Hb Hp Hd Hc].
    destruct (Hs AIAgentService.constructor message None fs0) as (Hd' & Hc' & Hp').
    unfold AIAgentService.sendMessage in Hd', Hc', Hp'.
    split; [apply view_run_normal|].
    split; [now rewrite <- Hd|].
    split; [|now rewrite <- Hp].
    intros Hv. rewrite <- Hc; [exact Hc'|].
    rewrite view_run_view. exact Hv.
Qed.

(** The stream of C1 delivered one character at a time. *)
Lemma C1_framing_correctness_witness :
  concat_all (one_by_one hello_stream) = hello_stream
  /\ decoded (snd (AIAgentService.sendMessage AIAgentService.constructor "hi" None fs_empty
                     (map StdoutData (one_by_one hello_stream))))
     = [Chunk "Hello"; Chunk " world"; End].
Proof.
  split; [reflexivity|].
  destruct (proj1 (C1_framing_correctness (one_by_one hello_stream) eq_refl)
              AIAgentService.constructor "hi" None fs_empty) as (_ & Hd & _).
  exact Hd.
Defined.

(** ** The held buffer *)

Lemma no_LF_split (s : string) : no_LF s = true -> split LF s = [s].
Proof.
  induction s as [|c s IH]; [reflexivity|].
  cbn [no_LF split]. intros H. apply andb_prop in H. destruct H as [Hc Hs].
  apply negb_true_iff in Hc. rewrite Hc, (IH Hs). reflexivity.
Qed.

Lemma no_LF_append (a b : string) : no_LF (a ++ b) = no_LF a && no_LF b.
Proof.
  induction a as [|c a IH]; [reflexivity|].
  cbn [append no_LF]. rewrite IH. apply andb_assoc.
Qed.

Lemma no_LF_rest_of (s : string) : no_LF (rest_of s) = true.
Proof.
  unfold rest_of. induction s as [|c s IH]; [reflexivity|].
  cbn [split]. pose proof (split_not_nil LF s) as Hne.
  destruct (Ascii.eqb c LF) eqn:Hc.
  - destruct (split LF s) as [|h t] eqn:E; [congruence|]. exact IH.
  - destruct (split LF s) as [|h t] eqn:E; [congruence|].
    destruct t as [|x t].
    + cbn [last] in *. cbn [no_LF]. now rewrite Hc, IH.
    + exact IH.
Qed.

Lemma no_LF_lines (s : string) :
  no_LF s = true -> lines_of s = [] /\ rest_of s = s.
Proof.
  intros H. unfold lines_of, rest_of. rewrite (no_LF_split s H). split; reflexivity.
Qed.

Lemma handle_buffer_no_LF (p : string) (ev : ProcEvent) (st : AIAgentService.Request) :
  no_LF (AIAgentService.responseBuffer (locals st)) = true ->
  no_LF (AIAgentService.responseBuffer (locals (snd (AIAgentService.handle p ev st)))) = true.
Proof.
  intros H. destruct ev as [d|d|code|e]; cbn [AIAgentService.handle].
  - rewrite on_stdout_data_buffer. apply no_LF_rest_of.
  - exact H.
  - unfold AIAgentService.on_close. run_eff.
    unlink_cases; destruct (code_is_zero code); exact H.
  - exact H.
Qed.

Lemma run_buffer_no_LF (p : string) (evs : list ProcEvent) (st : AIAgentService.Request) :
  no_LF (AIAgentService.responseBuffer (locals st)) = true ->
  no_LF (AIAgentService.responseBuffer (locals (snd (AIAgentService.run p evs st)))) = true.
Proof.
  revert st. induction evs as [|ev evs IH]; intros st H; [exact H|].
  rewrite run_cons. apply IH, handle_buffer_no_LF, H.
Qed.

(** ** Settlement *)

Lemma for_lines_promise_settled (p : string) (lines : list string)
    (st : AIAgentService.Request) (o : Outcome unit) :
  promise st = Some o ->
  promise (snd (AIAgentService.for_lines p lines st)) = Some o.
Proof.
  revert st. induction lines as [|line rest IH]; intros st H; [exact H|].
  cbn [AIAgentService.for_lines].
  destruct (startsWith line "CHUNK:").
  - run_eff. apply IH. exact H.
  - destruct (line =? "END_STREAM")%string.
    + run_eff. unlink_cases; rewrite H; reflexivity.
    + destruct (startsWith line "ERROR:").
      * run_eff. rewrite H. reflexivity.
      * apply IH, H.
Qed.

Lemma handle_promise_settled (p : string) (ev : ProcEvent)
    (st : AIAgentService.Request) (o : Outcome unit) :
  promise st = Some o ->
  promise (snd (AIAgentService.handle p ev st)) = Some o.
Proof.
  intros H. destruct ev as [d|d|code|e]; cbn [AIAgentService.handle].
  - rewrite on_stdout_data_lines. apply for_lines_promise_settled. exact H.
  - exact H.
  - unfold AIAgentService.on_close. run_eff.
    unlink_cases; destruct (code_is_zero code); cbn; rewrite H; reflexivity.
  - cbn. rewrite H. reflexivity.
Qed.

Lemma run_promise_settled (p : string) (evs : list ProcEvent)
    (st : AIAgentService.Request) (o : Outcome unit) :
  promise st = Some o ->
  promise (snd (AIAgentService.run p evs st)) = Some o.
Proof.
  revert st. induction evs as [|ev evs IH]; intros st H; [exact H|].
  rewrite run_cons. apply IH, handle_promise_settled, H.
Qed.

Lemma on_close_promise (p : string) (code : option Z) (st : AIAgentService.Request) :
  promise (snd (AIAgentService.on_close p code st))
  = settle (exit_outcome code) (promise st)
  /\ decoded (snd (AIAgentService.on_close p code st)) = decoded st
  /\ locals (snd (AIAgentService.on_close p code st)) = locals st.
Proof.
  unfold AIAgentService.on_close, exit_outcome. run_eff.
  unlink_cases; destruct (code_is_zero code); cbn; repeat split.
Qed.

Lemma first_terminal_snoc (frames : list Frame) (f : Frame) :
  first_terminal (frames ++ [f])
  = match first_terminal frames with
    | Some o => Some o
    | None => first_terminal [f]
    end.
Proof.
  induction frames as [|g frames IH]; cbn.
  - destruct f; reflexivity.
  - destruct g; [exact IH | reflexivity | reflexivity].
Qed.

Lemma for_lines_first_terminal (p : string) (lines : list string)
    (st : AIAgentService.Request) :
  promise st = first_terminal (decoded st) ->
  promise (snd (AIAgentService.for_lines p lines st))
  = first_terminal (decoded (snd (AIAgentService.for_lines p lines st))).
Proof.
  revert st. induction lines as [|line rest IH]; intros st H; [exact H|].
  cbn [AIAgentService.for_lines].
  destruct (startsWith line "CHUNK:").
  - run_eff. apply IH. cbn. rewrite first_terminal_snoc, <- H.
    destruct (promise st); reflexivity.
  - destruct (line =? "END_STREAM")%string.
    + run_eff. unlink_cases; rewrite first_terminal_snoc, <- H;
        destruct (promise st); reflexivity.
    + destruct (startsWith line "ERROR:").
      * run_eff. rewrite first_terminal_snoc, <- H.
        destruct (promise st); reflexivity.
      * apply IH, H.
Qed.

Lemma run_data_first_terminal (p : string) (frags : list string)
    (st : AIAgentService.Request) :
  promise st = first_terminal (decoded st) ->
  promise (snd (AIAgentService.run p (map StdoutData frags) st))
  = first_terminal (decoded (snd (AIAgentService.run p (map StdoutData frags) st))).
Proof.
  revert st. induction frags as [|f frags IH]; intros st H; [exact H|].
  cbn [map]. rewrite run_cons. apply IH.
  cbn [AIAgentService.handle]. rewrite on_stdout_data_lines.
  apply for_lines_first_terminal. exact H.
Qed.

(** ** An unterminated last line *)

(** C2, as stated, fails: CHUNK:partial delivered without a line feed and
    followed by the close event is never decoded; no chunk reaches the
    caller and the request resolves on the exit code. *)
Lemma C2_unterminated_line_counterexample :
  let st := snd (AIAgentService.sendMessage AIAgentService.constructor "hi" None fs_empty
                   [StdoutData "CHUNK:partial"; Close (Some 0%Z)]) in
  ~ In "partial" (AIAgentService.onChunk_calls (locals st))
  /\ ~ In (Chunk "partial") (decoded st)
  /\ AIAgentService.responseBuffer (locals st) = "CHUNK:partial"
  /\ promise st = Some (Resolved tt).
Proof.
  cbv zeta.
  assert (E : snd (AIAgentService.sendMessage AIAgentService.constructor "hi" None fs_empty
                     [StdoutData "CHUNK:partial"; Close (Some 0%Z)])
              = mkEnv (AIAgentService.mkLocals "CHUNK:partial" []) (Some (Resolved tt))
                      fs_empty [] []) by reflexivity.
  rewrite E. cbn. repeat split; intros [].
Qed.

Lemma partial_held (p : string) (st : AIAgentService.Request) :
  no_LF (AIAgentService.responseBuffer (locals st)) = true ->
  snd (AIAgentService.handle p (StdoutData "CHUNK:partial") st)
  = with_buffer (AIAgentService.responseBuffer (locals st) ++ "CHUNK:partial") st.
Proof.
  intros H. cbn [AIAgentService.handle]. rewrite on_stdout_data_lines.
  change (Buffer_toString "CHUNK:partial") with "CHUNK:partial".
  assert (Hn : no_LF (AIAgentService.responseBuffer (locals st) ++ "CHUNK:partial") = true).
  { rewrite no_LF_append, H. reflexivity. }
  destruct (no_LF_lines _ Hn) as [-> ->]. reflexivity.
Qed.

Lemma view_on_close_promise (q : string) (code : option Z) (v : ChatViewProvider.Request) :
  promise (snd (ChatViewProvider.on_close q code v))
  = settle (exit_outcome code) (promise v)
  /\ decoded (snd (ChatViewProvider.on_close q code v)) = decoded v
  /\ locals (snd (ChatViewProvider.on_close q code v)) = locals v.
Proof.
  unfold ChatViewProvider.on_close, exit_outcome. run_view.
  unlink_cases; destruct (code_is_zero code); cbn; repeat split.
Qed.

Lemma view_partial_held (q now : string) (v : ChatViewProvider.Request) :
  no_LF (ChatViewProvider.responseBuffer (locals v)) = true ->
  snd (ChatViewProvider.handle q now (StdoutData "CHUNK:partial") v)
  = exec (ChatViewProvider.set_responseBuffer
            (ChatViewProvider.responseBuffer (locals v) ++ "CHUNK:partial")) v.
Proof.
  intros H. cbn [ChatViewProvider.handle]. rewrite view_on_stdout_data_lines.
  change (Buffer_toString "CHUNK:partial") with "CHUNK:partial".
  assert (Hn : no_LF (ChatViewProvider.responseBuffer (locals v) ++ "CHUNK:partial") = true).
  { rewrite no_LF_append, H. reflexivity. }
  destruct (no_LF_lines _ Hn) as [-> ->]. reflexivity.
Qed.

(** C2, amended: a last fragment CHUNK:partial with no line feed stays in
    the held buffer; the close handler does not decode it, so no frame and
    no chunk is added to what was observed before, and a request that is
    still pending settles on the exit code alone. *)
Theorem C2_unterminated_line_held (evs : list ProcEvent) (code : option Z) :
  (forall this message sessionId fs0,
      let before := snd (AIAgentService.sendMessage this message sessionId fs0 evs) in
      let after := snd (AIAgentService.sendMessage this message sessionId fs0
                          (evs ++ [StdoutData "CHUNK:partial"; Close code])) in
      AIAgentService.responseBuffer (locals after)
      = AIAgentService.responseBuffer (locals before) ++ "CHUNK:partial"
      /\ decoded after = decoded before
      /\ AIAgentService.onChunk_calls (locals after)
         = AIAgentService.onChunk_calls (locals before)
      /\ promise after = settle (exit_outcome code) (promise before))
  /\ (forall that message now fs0,
      let before := snd (ChatViewProvider.sendMessageToAgent that message now fs0 evs) in
      let after := snd (ChatViewProvider.sendMessageToAgent that message now fs0
                          (evs ++ [StdoutData "CHUNK:partial"; Close code])) in
      ChatViewProvider.responseBuffer (locals after)
      = ChatViewProvider.responseBuffer (locals before) ++ "CHUNK:partial"
      /\ decoded after = decoded before
      /\ ChatViewProvider.posted (locals after) = ChatViewProvider.posted (locals before)
      /\ promise after = settle (exit_outcome code) (promise before)).
Proof.
  split.
  - intros this message sessionId fs0. cbn zeta. unfold AIAgentService.sendMessage.
    rewrite run_app, !run_cons. cbn [AIAgentService.run ret snd].
    set (st := snd (AIAgentService.run _ evs _)).
    assert (Hb : no_LF (AIAgentService.responseBuffer (locals st)) = true)
      by (apply run_buffer_no_LF; reflexivity).
    rewrite (partial_held _ st Hb).
    cbn [AIAgentService.handle].
    destruct (on_close_promise (AIAgentService.sendMessage_scriptPath this) code
                (with_buffer (AIAgentService.responseBuffer (locals st) ++ "CHUNK:partial") st))
      as (Hp & Hd & Hl).
    rewrite Hp, Hd, Hl. repeat split.
  - intros that message now fs0. cbn zeta. unfold ChatViewProvider.sendMessageToAgent.
    rewrite view_run_app, !view_run_cons. cbn [ChatViewProvider.run ret snd].
    pose proof (agree_run (AIAgentService.sendMessage_scriptPath AIAgentService.constructor)
                  (ChatViewProvider.sendMessageToAgent_scriptPath that) now evs _ _
                  (agree_start AIAgentService.constructor that message message None fs0 fs0))
      as [Hbuf _ _ _].
    set (v := snd (ChatViewProvider.run _ now evs _)) in *.
    assert (Hb : no_LF (ChatViewProvider.responseBuffer (locals v)) = true).
    { rewrite <- Hbuf. apply run_buffer_no_LF. reflexivity. }
    rewrite (view_partial_held _ now v Hb).
    cbn [ChatViewProvider.handle].
    destruct (view_on_close_promise (ChatViewProvider.sendMessageToAgent_scriptPath that) code
                (exec (ChatViewProvider.set_responseBuffer
                         (ChatViewProvider.responseBuffer (locals v) ++ "CHUNK:partial")) v))
      as (Hp & Hd & Hl).
    rewrite Hp, Hd, Hl. repeat split.
Qed.

(** ** An error frame *)

Lemma error_stream_lines :
  lines_of error_stream = ["CHUNK:x"; "ERROR:boom"] /\ rest_of error_stream = "".
Proof. split; reflexivity. Qed.

Lemma error_stream_terminal_only_last : terminal_only_last error_stream.
Proof.
  unfold terminal_only_last. rewrite (proj1 error_stream_lines).
  cbn [removelast]. repeat constructor.
Qed.

(** The stream of C3 and whatever follows it in the same data event. *)
Lemma error_stream_at_once (p tail : string) (st : AIAgentService.Request) :
  AIAgentService.responseBuffer (locals st) = "" ->
  let st' := snd (on_output p (error_stream ++ tail) st) in
  decoded st' = (decoded st ++ [Chunk "x"; Error_ "boom"])%list
  /\ AIAgentService.onChunk_calls (locals st')
     = (AIAgentService.onChunk_calls (locals st) ++ ["x"])%list
  /\ promise st' = settle (Rejected (mkError "boom")) (promise st).
Proof.
  intros Hb. cbn zeta. rewrite on_output_lines, Hb.
  change ("" ++ error_stream ++ tail) with (error_stream ++ tail).
  rewrite lines_of_append.
  destruct error_stream_lines as [-> ->].
  cbn [app AIAgentService.for_lines].
  change (startsWith "CHUNK:x" "CHUNK:") with true.
  change (startsWith "ERROR:boom" "CHUNK:") with false.
  change (startsWith "ERROR:boom" "ERROR:") with true.
  change ("ERROR:boom" =? "END_STREAM")%string with false.
  change (substring_from 6 "CHUNK:x") with "x".
  change (substring_from 6 "ERROR:boom") with "boom".
  cbv iota. run_eff. rewrite <- !app_assoc. repeat split.
Qed.

(** C3, as stated, fails: a data event that arrives after the Error frame
    is still decoded and its chunk is still delivered to the caller. *)
Lemma C3_error_precedence_counterexample :
  let st := snd (AIAgentService.sendMessage AIAgentService.constructor "hi" None fs_empty
                   [StdoutData error_stream; StdoutData ("CHUNK:y" ++ nl)]) in
  decoded st = [Chunk "x"; Error_ "boom"; Chunk "y"]
  /\ AIAgentService.onChunk_calls (locals st) = ["x"; "y"]
  /\ AIAgentService.onChunk_calls (locals st) <> ["x"]
  /\ promise st = Some (Rejected (mkError "boom")).
Proof.
  cbv zeta.
  assert (E : snd (AIAgentService.sendMessage AIAgentService.constructor "hi" None fs_empty
                     [StdoutData error_stream; StdoutData ("CHUNK:y" ++ nl)])
              = mkEnv (AIAgentService.mkLocals "" ["x"; "y"])
                      (Some (Rejected (mkError "boom")))
                      (write_file (AIAgentService.sendMessage_scriptPath AIAgentService.constructor)
                         (AIAgentService.sendMessage_pythonScript AIAgentService.constructor
                            "hi" None) fs_empty)
                      [] [Chunk "x"; Error_ "boom"; Chunk "y"]) by reflexivity.
  rewrite E. cbn [decoded locals promise AIAgentService.onChunk_calls].
  repeat split. discriminate.
Qed.

Lemma splits_complete (a b : string) : In (a, b) (splits (a ++ b)).
Proof.
  induction a as [|c a IH]; cbn [append splits].
  - destruct b; left; reflexivity.
  - right. apply in_map_iff. exists (a, b). split; [reflexivity | exact IH].
Qed.

(** No terminal line is complete before the last character of the stream
    of C3. *)
Lemma error_stream_prefix (head last : string) :
  head ++ last = error_stream -> last <> "" ->
  Forall (fun l => is_terminal l = false) (lines_of head).
Proof.
  intros H Hne.
  assert (Hall : forallb (fun ab => (snd ab =? "")%string
                                    || forallb (fun l => negb (is_terminal l))
                                               (lines_of (fst ab)))
                         (splits error_stream) = true) by reflexivity.
  pose proof (splits_complete head last) as Hin. rewrite H in Hin.
  pose proof (proj1 (forallb_forall _ _) Hall _ Hin) as Hc. cbn [fst snd] in Hc.
  apply orb_true_iff in Hc. destruct Hc as [Hc | Hc].
  - apply String.eqb_eq in Hc. contradiction.
  - apply Forall_forall. intros l Hl.
    pose proof (proj1 (forallb_forall _ _) Hc l Hl) as Hn.
    now apply negb_true_iff in Hn.
Qed.

(** Data events whose complete lines are not terminal, followed by one
    more data event, act as one event with the joined text. *)
Lemma run_fragments_then (p d : string) (frags : list string) (st : AIAgentService.Request) :
  Forall (fun l => is_terminal l = false)
         (lines_of (AIAgentService.responseBuffer (locals st) ++ received frags)) ->
  AIAgentService.run p (map StdoutData frags ++ [StdoutData d]) st
  = on_output p (received frags ++ Buffer_toString d) st.
Proof.
  revert st. induction frags as [|f frags IH]; intros st H.
  - cbn [map app]. rewrite run_data_cons. cbn [AIAgentService.run ret].
    change (received [] ++ Buffer_toString d) with (Buffer_toString d).
    rewrite (pair_eta (on_output p (Buffer_toString d) st)) at 2.
    rewrite on_output_normal. reflexivity.
  - change (received (f :: frags)) with (Buffer_toString f ++ received frags) in *.
    rewrite <- append_assoc, lines_of_append in H. apply Forall_app in H.
    destruct H as [H1 H2].
    cbn [map app]. rewrite run_data_cons, IH.
    + rewrite (on_output_join p _ _ st H1), append_assoc. reflexivity.
    + rewrite on_output_buffer. exact H2.
Qed.

(** C3, amended: however the stream CHUNK:x, ERROR:boom is cut into data
    events, the caller observes the chunk x and the promise is rejected
    with an error whose message is exactly boom; the lines that follow the
    Error line in the same data event are not processed, whatever the cut
    before that event; and no later event changes the rejection. *)
Theorem C3_error_precedence :
  (forall frags,
      concat_all frags = error_stream ->
      (forall this message sessionId fs0,
          let st := snd (AIAgentService.sendMessage this message sessionId fs0
                           (map StdoutData frags)) in
          decoded st = [Chunk "x"; Error_ "boom"]
          /\ AIAgentService.onChunk_calls (locals st) = ["x"]
          /\ promise st = Some (Rejected (mkError "boom"))
          /\ (forall later,
                 promise (snd (AIAgentService.sendMessage this message sessionId fs0
                                 (map StdoutData frags ++ later)))
                 = Some (Rejected (mkError "boom"))))
      /\ (forall that message now fs0,
          let st := snd (ChatViewProvider.sendMessageToAgent that message now fs0
                           (map StdoutData frags)) in
          decoded st = [Chunk "x"; Error_ "boom"]
          /\ (ChatViewProvider._view that = true ->
              stream_chunks (ChatViewProvider.posted (locals st)) = ["x"])
          /\ promise st = Some (Rejected (mkError "boom"))
          /\ (forall later,
                 promise (snd (ChatViewProvider.sendMessageToAgent that message now fs0
                                 (map StdoutData frags ++ later)))
                 = Some (Rejected (mkError "boom")))))
  /\ (forall frags last tail,
      concat_all frags ++ last = error_stream ->
      last <> "" ->
      (forall this message sessionId fs0,
          let evs := (map StdoutData frags ++ [StdoutData (last ++ tail)])%list in
          let st := snd (AIAgentService.sendMessage this message sessionId fs0 evs) in
          decoded st = [Chunk "x"; Error_ "boom"]
          /\ AIAgentService.onChunk_calls (locals st) = ["x"]
          /\ promise st = Some (Rejected (mkError "boom"))
          /\ (forall later,
                 promise (snd (AIAgentService.sendMessage this message sessionId fs0
                                 (evs ++ later)))
                 = Some (Rejected (mkError "boom"))))
      /\ (forall that message now fs0,
          let evs := (map StdoutData frags ++ [StdoutData (last ++ tail)])%list in
          let st := snd (ChatViewProvider.sendMessageToAgent that message now fs0 evs) in
          decoded st = [Chunk "x"; Error_ "boom"]
          /\ (ChatViewProvider._view that = true ->
              stream_chunks (ChatViewProvider.posted (locals st)) = ["x"])
          /\ promise st = Some (Rejected (mkError "boom"))
          /\ (forall later,
                 promise (snd (ChatViewProvider.sendMessageToAgent that message now fs0
                                 (evs ++ later)))
                 = Some (Rejected (mkError "boom"))))).
Proof.
  assert (Hview : forall evs,
      (forall this message sessionId fs0,
          let st := snd (AIAgentService.sendMessage this message sessionId fs0 evs) in
          decoded st = [Chunk "x"; Error_ "boom"]
          /\ AIAgentService.onChunk_calls (locals st) = ["x"]
          /\ promise st = Some (Rejected (mkError "boom"))) ->
      (forall this message sessionId fs0,
          let st := snd (AIAgentService.sendMessage this message sessionId fs0 evs) in
          decoded st = [Chunk "x"; Error_ "boom"]
          /\ AIAgentService.onChunk_calls (locals st) = ["x"]
          /\ promise st = Some (Rejected (mkError "boom"))
          /\ (forall later,
                 promise (snd (AIAgentService.sendMessage this message sessionId fs0
                                 (evs ++ later)))
                 = Some (Rejected (mkError "boom"))))
      /\ (forall that message now fs0,
          let st := snd (ChatViewProvider.sendMessageToAgent that message now fs0 evs) in
          decoded st = [Chunk "x"; Error_ "boom"]
          /\ (ChatViewProvider._view that = true ->
              stream_chunks (ChatViewProvider.posted (locals st)) = ["x"])
          /\ promise st = Some (Rejected (mkError "boom"))
          /\ (forall later,
                 promise (snd (ChatViewProvider.sendMessageToAgent that message now fs0
                                 (evs ++ later)))
                 = Some (Rejected (mkError "boom"))))).
  { intros evs Hs.
    assert (Hl : forall this message sessionId fs0 later,
               promise (snd (AIAgentService.sendMessage this message sessionId fs0
                               (evs ++ later)))
               = Some (Rejected (mkError "boom"))).
    { intros this message sessionId fs0 later.
      destruct (Hs this message sessionId fs0) as (_ & _ & Hp).
      unfold AIAgentService.sendMessage in *. rewrite run_app.
      apply run_promise_settled. exact Hp. }
    split.
    - intros this message sessionId fs0. cbn zeta.
      destruct (Hs this message sessionId fs0) as (Hd & Hc & Hp).
      split; [exact Hd|]. split; [exact Hc|]. split; [exact Hp|].
      intros later. apply Hl.
    - intros that message now fs0. cbn zeta.
      destruct (Hs AIAgentService.constructor message None fs0) as (Hd & Hc & Hp).
      unfold AIAgentService.sendMessage in Hd, Hc, Hp.
      unfold ChatViewProvider.sendMessageToAgent.
      pose proof (agree_start AIAgentService.constructor that message message None fs0 fs0)
        as H0.
      pose proof (fun evs =>
                    agree_run
                      (AIAgentService.sendMessage_scriptPath AIAgentService.constructor)
                      (ChatViewProvider.sendMessageToAgent_scriptPath that) now evs _ _ H0)
        as Hag.
      destruct (Hag evs) as [_ Hp1 Hd1 Hc1].
      split; [now rewrite <- Hd1|]. split.
      { intros Hv. rewrite <- Hc1; [exact Hc|]. rewrite view_run_view. exact Hv. }
      split; [now rewrite <- Hp1|].
      intros later. destruct (Hag (evs ++ later)%list) as [_ Hp2 _ _].
      rewrite <- Hp2. apply (Hl AIAgentService.constructor message None fs0). }
  split.
  - intros frags Hcat. apply Hview.
    intros this message sessionId fs0. cbn zeta.
    unfold AIAgentService.sendMessage.
    destruct frags as [|f frags]; [discriminate Hcat|].
    assert (Hr : received (f :: frags) = error_stream)
      by (rewrite received_ascii; [exact Hcat | rewrite Hcat; reflexivity]).
    rewrite run_fragments.
    + rewrite Hr.
      pose proof (error_stream_at_once (AIAgentService.sendMessage_scriptPath this) ""
                    (AIAgentService.sendMessage_start this message sessionId fs0) eq_refl)
        as Hx.
      rewrite (append_empty_r error_stream) in Hx. exact Hx.
    + change (AIAgentService.responseBuffer
                (locals (AIAgentService.sendMessage_start this message sessionId fs0)))
        with "".
      rewrite Hr. exact error_stream_terminal_only_last.
  - intros frags last tail Hcat Hne. apply Hview.
    intros this message sessionId fs0. cbn zeta.
    unfold AIAgentService.sendMessage.
    assert (Ha : is_ascii (concat_all frags) = true /\ is_ascii last = true).
    { apply andb_prop. rewrite <- is_ascii_app, Hcat. reflexivity. }
    destruct Ha as [Ha Hlast].
    rewrite run_fragments_then.
    + rewrite (received_ascii frags Ha), (toString_ascii_app last tail Hlast).
      rewrite <- append_assoc, Hcat.
      exact (error_stream_at_once (AIAgentService.sendMessage_scriptPath this)
               (Buffer_toString tail)
               (AIAgentService.sendMessage_start this message sessionId fs0) eq_refl).
    + change (AIAgentService.responseBuffer
                (locals (AIAgentService.sendMessage_start this message sessionId fs0)))
        with "".
      rewrite (received_ascii frags Ha).
      exact (error_stream_prefix (concat_all frags) last Hcat Hne).
Qed.

(** The stream of C3 delivered one character at a time, and delivered in
    two events of which the second carries another line. *)
Lemma C3_error_precedence_witness :
  concat_all (one_by_one error_stream) = error_stream
  /\ promise (snd (AIAgentService.sendMessage AIAgentService.constructor "hi" None fs_empty
                     (map StdoutData (one_by_one error_stream))))
     = Some (Rejected (mkError "boom"))
  /\ concat_all ["CHUNK:x" ++ nl ++ "ERR"] ++ ("OR:boom" ++ nl) = error_stream
  /\ "OR:boom" ++ nl <> ""
  /\ AIAgentService.onChunk_calls
       (locals (snd (AIAgentService.sendMessage AIAgentService.constructor "hi" None fs_empty
                       (map StdoutData ["CHUNK:x" ++ nl ++ "ERR"]
                        ++ [StdoutData (("OR:boom" ++ nl) ++ "CHUNK:y" ++ nl)]))))
     = ["x"].
Proof.
  destruct C3_error_precedence as [H1 H2].
  split; [reflexivity|]. split.
  { destruct (proj1 (H1 (one_by_one error_stream) eq_refl)
                AIAgentService.constructor "hi" None fs_empty) as (_ & _ & Hp & _).
    exact Hp. }
  split; [reflexivity|]. split; [discriminate|].
  assert (Hne : "OR:boom" ++ nl <> "") by discriminate.
  destruct (proj1 (H2 ["CHUNK:x" ++ nl ++ "ERR"] ("OR:boom" ++ nl) ("CHUNK:y" ++ nl)
                     eq_refl Hne)
              AIAgentService.constructor "hi" None fs_empty) as (_ & Hc & _).
  exact Hc.
Defined.


(** ** The first terminal frame wins *)

(** C4. After any sequence of stdout data events the close event leaves a
    promise settled by a decoded terminal frame as it is: when END_STREAM
    was the first terminal frame the request stays resolved whatever the
    exit code, and the exit code decides the outcome only when no End or
    Error frame was decoded. *)
Theorem C4_first_terminal_wins (frags : list string) (code : option Z) :
  (forall this message sessionId fs0,
      let st := snd (AIAgentService.sendMessage this message sessionId fs0
                       (map StdoutData frags)) in
      let st' := snd (AIAgentService.sendMessage this message sessionId fs0
                        (map StdoutData frags ++ [Close code])) in
      (first_terminal (decoded st) = Some (Resolved tt) ->
       promise st' = Some (Resolved tt))
      /\ (first_terminal (decoded st) = None -> promise st' = Some (exit_outcome code))
      /\ (forall o, first_terminal (decoded st) = Some o -> promise st' = Some o)
      /\ decoded st' = decoded st)
  /\ (forall that message now fs0,
      let st := snd (ChatViewProvider.sendMessageToAgent that message now fs0
                       (map StdoutData frags)) in
      let st' := snd (ChatViewProvider.sendMessageToAgent that message now fs0
                        (map StdoutData frags ++ [Close code])) in
      (first_terminal (decoded st) = Some (Resolved tt) ->
       promise st' = Some (Resolved tt))
      /\ (first_terminal (decoded st) = None -> promise st' = Some (exit_outcome code))
      /\ (forall o, first_terminal (decoded st) = Some o -> promise st' = Some o)
      /\ decoded st' = decoded st).
Proof.
  assert (Hs : forall this message sessionId fs0,
      let st := snd (AIAgentService.sendMessage this message sessionId fs0
                       (map StdoutData frags)) in
      let st' := snd (AIAgentService.sendMessage this message sessionId fs0
                        (map StdoutData frags ++ [Close code])) in
      promise st' = settle (exit_outcome code) (first_terminal (decoded st))
      /\ decoded st' = decoded st).
  { intros this message sessionId fs0. cbn zeta. unfold AIAgentService.sendMessage.
    rewrite run_app, run_cons. cbn [AIAgentService.run ret snd AIAgentService.handle].
    rewrite <- run_data_first_terminal by reflexivity.
    destruct (on_close_promise (AIAgentService.sendMessage_scriptPath this) code
                (snd (AIAgentService.run (AIAgentService.sendMessage_scriptPath this)
                        (map StdoutData frags)
                        (AIAgentService.sendMessage_start this message sessionId fs0))))
      as (Hp & Hd & _).
    split; assumption. }
  split.
  - intros this message sessionId fs0. cbn zeta.
    destruct (Hs this message sessionId fs0) as (Hp & Hd). cbn zeta in Hp, Hd.
    rewrite Hp. repeat split; try assumption; intros; match goal with
      | H : first_terminal _ = _ |- _ => rewrite H; reflexivity
      end.
  - intros that message now fs0. cbn zeta.
    destruct (Hs AIAgentService.constructor message None fs0) as (Hp & Hd).
    cbn zeta in Hp, Hd. unfold AIAgentService.sendMessage in Hp, Hd.
    unfold ChatViewProvider.sendMessageToAgent.
    pose proof (agree_start AIAgentService.constructor that message message None fs0 fs0) as H0.
    pose proof (fun evs =>
                  agree_run (AIAgentService.sendMessage_scriptPath AIAgentService.constructor)
                    (ChatViewProvider.sendMessageToAgent_scriptPath that) now evs _ _ H0) as Hag.
    destruct (Hag (map StdoutData frags)) as [_ _ Hd1 _].
    destruct (Hag (map StdoutData frags ++ [Close code])%list) as [_ Hp2 Hd2 _].
    rewrite <- Hp2, <- Hd2, <- Hd1, Hp.
    repeat split; try assumption; intros; match goal with
      | H : first_terminal _ = _ |- _ => rewrite H; reflexivity
      end.
Qed.

(** END_STREAM decoded, then an exit with code 1. *)
Lemma C4_first_terminal_wins_witness :
  first_terminal
    (decoded (snd (AIAgentService.sendMessage AIAgentService.constructor "hi" None fs_empty
                     (map StdoutData [hello_stream]))))
  = Some (Resolved tt)
  /\ promise (snd (AIAgentService.sendMessage AIAgentService.constructor "hi" None fs_empty
                     (map StdoutData [hello_stream] ++ [Close (Some 1%Z)])))
     = Some (Resolved tt).
Proof.
  split; [reflexivity|].
  destruct (proj1 (C4_first_terminal_wins [hello_stream] (Some 1%Z))
              AIAgentService.constructor "hi" None fs_empty) as (H & _).
  apply H. reflexivity.
Defined.

(** ** The generated script and the decoding loop *)

(** C5 fails on the code: the script prints every chunk without a line
    end, so two chunks arrive as one line and are decoded as one chunk that
    holds the second marker, whether the output comes in one data event or
    in one event per print call.  For the same reason an error raised after
    a chunk is printed on the line of that chunk and is decoded as chunk
    text, and the request resolves on exit code 0. *)
Theorem C5_chunks_printed_on_one_line :
  let chunks := ["Hello"; " world"] in
  let at_once := snd (AIAgentService.sendMessage AIAgentService.constructor "hi" None fs_empty
                        [StdoutData (Producer.stdout_of chunks None)]) in
  let per_print := snd (AIAgentService.sendMessage AIAgentService.constructor "hi" None fs_empty
                          (map StdoutData (Producer.writes_of chunks))) in
  let failed := snd (AIAgentService.sendMessage AIAgentService.constructor "hi" None fs_empty
                       [StdoutData (Producer.stdout_of ["Hello"] (Some "boom"));
                        Close (Some 0%Z)]) in
  Producer.stdout_of chunks None = "CHUNK:HelloCHUNK: world" ++ nl ++ "END_STREAM" ++ nl
  /\ decoded at_once = [Chunk "HelloCHUNK: world"; End]
  /\ AIAgentService.onChunk_calls (locals at_once) = ["HelloCHUNK: world"]
  /\ decoded per_print = [Chunk "HelloCHUNK: world"; End]
  /\ AIAgentService.onChunk_calls (locals per_print) = ["HelloCHUNK: world"]
  /\ decoded at_once <> (map Chunk chunks ++ [End])%list
  /\ decoded failed = [Chunk "HelloERROR:boom"]
  /\ promise failed = Some (Resolved tt).
Proof.
  cbv zeta.
  assert (E1 : snd (AIAgentService.sendMessage AIAgentService.constructor "hi" None fs_empty
                      [StdoutData (Producer.stdout_of ["Hello"; " world"] None)])
               = mkEnv (AIAgentService.mkLocals "" ["HelloCHUNK: world"])
                       (Some (Resolved tt)) fs_empty [] [Chunk "HelloCHUNK: world"; End])
    by reflexivity.
  assert (E2 : snd (AIAgentService.sendMessage AIAgentService.constructor "hi" None fs_empty
                      (map StdoutData (Producer.writes_of ["Hello"; " world"])))
               = mkEnv (AIAgentService.mkLocals "" ["HelloCHUNK: world"])
                       (Some (Resolved tt)) fs_empty [] [Chunk "HelloCHUNK: world"; End])
    by reflexivity.
  assert (E3 : snd (AIAgentService.sendMessage AIAgentService.constructor "hi" None fs_empty
                      [StdoutData (Producer.stdout_of ["Hello"] (Some "boom"));
                       Close (Some 0%Z)])
               = mkEnv (AIAgentService.mkLocals "" ["HelloERROR:boom"])
                       (Some (Resolved tt)) fs_empty [] [Chunk "HelloERROR:boom"])
    by reflexivity.
  rewrite E1, E2, E3. cbn [decoded locals promise AIAgentService.onChunk_calls].
  repeat split. discriminate.
Qed.


(** ** Requests that collect the whole output: clear and history *)

Ltac run_out :=
  unfold bind, resolve, reject, try_catch, unlinkSync, console_error,
    AIAgentService.append_output, exec, set_locals, get_locals, modify, ret; cbn.

Lemma clear_run_data (p : string) (frags : list string) (st : AIAgentService.ClearRequest) :
  AIAgentService.clear_run p (map StdoutData frags) st
  = (Normal tt,
     mkEnv (AIAgentService.mkOutput (AIAgentService.output (locals st) ++ received frags))
           (promise st) (fs st) (console st) (decoded st)).
Proof.
  revert st. induction frags as [|f frags IH]; intros st.
  - cbn. rewrite append_empty_r. destruct st as [[o] pr f c d]. reflexivity.
  - change (received (f :: frags)) with (Buffer_toString f ++ received frags).
    cbn [map AIAgentService.clear_run AIAgentService.clear_handle].
    run_out. rewrite IH. cbn. rewrite append_assoc. reflexivity.
Qed.

Lemma clear_run_app (p : string) (frags : list string) (evs : list ProcEvent)
    (st : AIAgentService.ClearRequest) :
  AIAgentService.clear_run p (map StdoutData frags ++ evs) st
  = AIAgentService.clear_run p evs (snd (AIAgentService.clear_run p (map StdoutData frags) st)).
Proof.
  revert st. induction frags as [|f frags IH]; intros st; [reflexivity|].
  cbn [map app AIAgentService.clear_run AIAgentService.clear_handle].
  run_out. apply IH.
Qed.

Lemma clear_on_close_promise (p : string) (code : option Z) (st : AIAgentService.ClearRequest) :
  fst (AIAgentService.clear_on_close p code st) = Normal tt
  /\ promise (snd (AIAgentService.clear_on_close p code st))
     = settle (if code_is_zero code && includes (AIAgentService.output (locals st)) "SUCCESS"
               then Resolved tt
               else Rejected (mkError "Failed to clear session"))
              (promise st).
Proof.
  unfold AIAgentService.clear_on_close. run_out.
  unlink_cases;
    destruct (code_is_zero code && includes (AIAgentService.output (locals st)) "SUCCESS");
    split; reflexivity.
Qed.

Lemma view_clear_run_data (p : string) (frags : list string)
    (st : ChatViewProvider.ClearRequest) :
  ChatViewProvider.clear_run p (map StdoutData frags) st
  = (Normal tt,
     mkEnv (ChatViewProvider.mkOutput (ChatViewProvider.output (locals st) ++ received frags))
           (promise st) (fs st) (console st) (decoded st)).
Proof.
  revert st. induction frags as [|f frags IH]; intros st.
  - cbn. rewrite append_empty_r. destruct st as [[o] pr f c d]. reflexivity.
  - change (received (f :: frags)) with (Buffer_toString f ++ received frags).
    cbn [map ChatViewProvider.clear_run ChatViewProvider.clear_handle].
    run_out. rewrite IH. cbn. rewrite append_assoc. reflexivity.
Qed.

Lemma view_clear_run_app (p : string) (frags : list string) (evs : list ProcEvent)
    (st : ChatViewProvider.ClearRequest) :
  ChatViewProvider.clear_run p (map StdoutData frags ++ evs) st
  = ChatViewProvider.clear_run p evs
      (snd (ChatViewProvider.clear_run p (map StdoutData frags) st)).
Proof.
  revert st. induction frags as [|f frags IH]; intros st; [reflexivity|].
  cbn [map app ChatViewProvider.clear_run ChatViewProvider.clear_handle].
  run_out. apply IH.
Qed.

Lemma view_clear_on_close_promise (p : string) (code : option Z)
    (st : ChatViewProvider.ClearRequest) :
  fst (ChatViewProvider.clear_on_close p code st) = Normal tt
  /\ promise (snd (ChatViewProvider.clear_on_close p code st))
     = settle (if code_is_zero code && includes (ChatViewProvider.output (locals st)) "SUCCESS"
               then Resolved tt
               else Rejected (mkError "Failed to clear session"))
              (promise st).
Proof.
  unfold ChatViewProvider.clear_on_close. run_out.
  unlink_cases;
    destruct (code_is_zero code && includes (ChatViewProvider.output (locals st)) "SUCCESS");
    split; reflexivity.
Qed.

Section HistoryFacts.
Variable JSON_parse : string -> option JSON.

Lemma history_run_data (p : string) (frags : list string) (st : AIAgentService.HistoryRequest) :
  AIAgentService.history_run JSON_parse p (map StdoutData frags) st
  = (Normal tt,
     mkEnv (AIAgentService.mkOutput (AIAgentService.output (locals st) ++ received frags))
           (promise st) (fs st) (console st) (decoded st)).
Proof.
  revert st. induction frags as [|f frags IH]; intros st.
  - cbn. rewrite append_empty_r. destruct st as [[o] pr f c d]. reflexivity.
  - change (received (f :: frags)) with (Buffer_toString f ++ received frags).
    cbn [map AIAgentService.history_run AIAgentService.history_handle].
    run_out. rewrite IH. cbn. rewrite append_assoc. reflexivity.
Qed.

Lemma history_run_app (p : string) (frags : list string) (evs : list ProcEvent)
    (st : AIAgentService.HistoryRequest) :
  AIAgentService.history_run JSON_parse p (map StdoutData frags ++ evs) st
  = AIAgentService.history_run JSON_parse p evs
      (snd (AIAgentService.history_run JSON_parse p (map StdoutData frags) st)).
Proof.
  revert st. induction frags as [|f frags IH]; intros st; [reflexivity|].
  cbn [map app AIAgentService.history_run AIAgentService.history_handle].
  run_out. apply IH.
Qed.

Lemma to_message_state (entry : JSON) (st : AIAgentService.HistoryRequest) :
  snd (AIAgentService.to_message entry st) = st.
Proof. destruct entry; reflexivity. Qed.

Lemma map_to_message_state (items : list JSON) (st : AIAgentService.HistoryRequest) :
  snd (map_eff AIAgentService.to_message items st) = st.
Proof.
  induction items as [|entry items IH]; [reflexivity|].
  cbn [map_eff]. unfold bind at 1.
  pose proof (to_message_state entry st) as H1.
  destruct (AIAgentService.to_message entry st) as [[m|e] s1]; cbn in H1; subst s1;
    [|reflexivity].
  unfold bind at 1.
  destruct (map_eff AIAgentService.to_message items st) as [[ms|e] s2]; cbn in IH; subst s2;
    reflexivity.
Qed.

Lemma value_map_state (history : JSON) (st : AIAgentService.HistoryRequest) :
  snd (value_map history AIAgentService.to_message st) = st.
Proof. destruct history; try reflexivity. apply map_to_message_state. Qed.

(** The cleanup of every close handler completes normally and touches
    the file system and the console only. *)
Lemma try_unlink_result {L V} (p : string) (st : Env L V) :
  exists f' c',
    try_catch (unlinkSync p)
      (fun e => console_error "Failed to clean up temp file:" (message e)) st
    = (Normal tt, mkEnv (locals st) (promise st) f' c' (decoded st)).
Proof.
  unfold try_catch, unlinkSync, console_error, modify.
  destruct (is_denied p (fs st)); [eauto|].
  destruct (exists_file p (fs st)); eauto.
Qed.

Arguments trim : simpl never.



End HistoryFacts.

(** ** Failures of a history query *)

Lemma split_terminated (a : string) :
  no_LF a = true -> split LF (a ++ nl) = [a; ""].
Proof.
  induction a as [|c a IH]; [reflexivity|].
  cbn [no_LF append split]. intros H. apply andb_prop in H. destruct H as [Hc Ha].
  apply negb_true_iff in Hc. rewrite Hc, (IH Ha). reflexivity.
Qed.




(** ** Cleanup of the temporary script *)











(** ** Chunks delivered and frames decoded *)

Lemma chunk_texts_snoc (frames : list Frame) (f : Frame) :
  chunk_texts (frames ++ [f])
  = (chunk_texts frames ++ chunk_texts [f])%list.
Proof.
  induction frames as [|g frames IH]; [reflexivity|].
  destruct g; cbn; rewrite ?IH; reflexivity.
Qed.

Lemma for_lines_calls (p : string) (lines : list string) (st : AIAgentService.Request) :
  AIAgentService.onChunk_calls (locals st) = chunk_texts (decoded st) ->
  AIAgentService.onChunk_calls (locals (snd (AIAgentService.for_lines p lines st)))
  = chunk_texts (decoded (snd (AIAgentService.for_lines p lines st))).
Proof.
  revert st. induction lines as [|line rest IH]; intros st H; [exact H|].
  cbn [AIAgentService.for_lines].
  destruct (startsWith line "CHUNK:").
  - run_eff. apply IH. cbn. rewrite chunk_texts_snoc, H. reflexivity.
  - destruct (line =? "END_STREAM")%string.
    + run_eff. unlink_cases; rewrite chunk_texts_snoc, H; cbn; now rewrite app_nil_r.
    + destruct (startsWith line "ERROR:").
      * run_eff. rewrite chunk_texts_snoc, H. cbn. now rewrite app_nil_r.
      * apply IH, H.
Qed.

Lemma run_calls (p : string) (evs : list ProcEvent) (st : AIAgentService.Request) :
  AIAgentService.onChunk_calls (locals st) = chunk_texts (decoded st) ->
  AIAgentService.onChunk_calls (locals (snd (AIAgentService.run p evs st)))
  = chunk_texts (decoded (snd (AIAgentService.run p evs st))).
Proof.
  revert st. induction evs as [|ev evs IH]; intros st H; [exact H|].
  rewrite run_cons. apply IH.
  destruct ev as [d|d|code|e]; cbn [AIAgentService.handle].
  - rewrite on_stdout_data_lines. apply for_lines_calls. exact H.
  - exact H.
  - destruct (on_close_promise p code st) as (_ & Hd & Hl). now rewrite Hd, Hl.
  - exact H.
Qed.

(** ** The two implementations *)

(** C9. On every sequence of stdout data events followed by a close event
    with any exit code, sendMessage and sendMessageToAgent complete
    normally, decode the same frames in the same order, hold the same
    buffer, and settle their promises alike; the chunks posted to the
    webview, when the view is attached, are the chunks given to onChunk. *)
Theorem C9_streaming_implementations_agree (frags : list string) (code : option Z) :
  forall this that message message' sessionId now fs1 fs2,
    let rs := AIAgentService.sendMessage this message sessionId fs1
                (map StdoutData frags ++ [Close code]) in
    let rv := ChatViewProvider.sendMessageToAgent that message' now fs2
                (map StdoutData frags ++ [Close code]) in
    fst rs = Normal tt
    /\ fst rv = Normal tt
    /\ decoded (snd rs) = decoded (snd rv)
    /\ promise (snd rs) = promise (snd rv)
    /\ AIAgentService.responseBuffer (locals (snd rs))
       = ChatViewProvider.responseBuffer (locals (snd rv))
    /\ AIAgentService.onChunk_calls (locals (snd rs)) = chunk_texts (decoded (snd rs))
    /\ (ChatViewProvider._view that = true ->
        stream_chunks (ChatViewProvider.posted (locals (snd rv)))
        = AIAgentService.onChunk_calls (locals (snd rs))).
Proof.
  intros this that message message' sessionId now fs1 fs2. cbn zeta.
  unfold AIAgentService.sendMessage, ChatViewProvider.sendMessageToAgent.
  destruct (agree_run (AIAgentService.sendMessage_scriptPath this)
              (ChatViewProvider.sendMessageToAgent_scriptPath that) now
              (map StdoutData frags ++ [Close code])%list _ _
              (agree_start this that message message' sessionId fs1 fs2))
    as [Hb Hp Hd Hc].
  split; [apply run_normal|]. split; [apply view_run_normal|].
  split; [exact Hd|]. split; [exact Hp|]. split; [exact Hb|].
  split; [apply run_calls; reflexivity|].
  intros Hv. symmetry. apply Hc. rewrite view_run_view. exact Hv.
Qed.

(** The stream of C1 cut in two, an exit with code 1, a view attached. *)
Lemma C9_streaming_implementations_agree_witness :
  let that := ChatViewProvider.resolveWebviewView ChatViewProvider.constructor in
  ChatViewProvider._view that = true
  /\ stream_chunks
       (ChatViewProvider.posted
          (locals (snd (ChatViewProvider.sendMessageToAgent that "hi" "now" fs_empty
                          (map StdoutData ["CHUNK:Hel"; "lo" ++ nl ++ "END_STREAM" ++ nl]
                           ++ [Close (Some 1%Z)])))))
     = AIAgentService.onChunk_calls
         (locals (snd (AIAgentService.sendMessage AIAgentService.constructor "hi" None fs_empty
                         (map StdoutData ["CHUNK:Hel"; "lo" ++ nl ++ "END_STREAM" ++ nl]
                          ++ [Close (Some 1%Z)])))).
Proof.
  cbv zeta. split; [reflexivity|].
  destruct (C9_streaming_implementations_agree
              ["CHUNK:Hel"; "lo" ++ nl ++ "END_STREAM" ++ nl] (Some 1%Z)
              AIAgentService.constructor
              (ChatViewProvider.resolveWebviewView ChatViewProvider.constructor)
              "hi" "hi" None "now" fs_empty fs_empty) as (_ & _ & _ & _ & _ & _ & H).
  apply H. reflexivity.
Defined.

(** ** The current session *)



(** * Further properties of the code *)

(** ** Streams of complete lines *)

Lemma split_line_cons (a s : string) :
  no_LF a = true -> split LF (a ++ String LF s) = a :: split LF s.
Proof.
  induction a as [|c a IH]; [reflexivity|].
  cbn [no_LF append split]. intros H. apply andb_prop in H. destruct H as [Hc Ha].
  apply negb_true_iff in Hc. rewrite Hc, (IH Ha). reflexivity.
Qed.

Lemma starts_with_marker (marker text : string) :
  startsWith (marker ++ text) marker = true.
Proof.
  unfold startsWith. induction marker as [|c marker IH].
  - destruct text; reflexivity.
  - cbn [append String.prefix]. destruct (ascii_dec c c); [exact IH | congruence].
Qed.

Lemma split_chunk_lines (chunks : list string) (s : string) :
  Forall (fun c => no_LF c = true) chunks ->
  split LF (chunk_lines chunks ++ s)
  = (map chunk_line chunks ++ split LF s)%list.
Proof.
  induction 1 as [|c chunks Hc _ IH]; [reflexivity|].
  cbn [chunk_lines map app]. rewrite !append_assoc.
  change (nl ++ chunk_lines chunks ++ s) with (String LF (chunk_lines chunks ++ s)).
  rewrite <- append_assoc.
  rewrite split_line_cons by (rewrite no_LF_append, Hc; reflexivity).
  rewrite IH. reflexivity.
Qed.

Lemma encode_lines_lines (chunks : list string) :
  Forall (fun c => no_LF c = true) chunks ->
  lines_of (encode_lines chunks)
  = (map chunk_line chunks ++ ["END_STREAM"])%list
  /\ rest_of (encode_lines chunks) = "".
Proof.
  intros H. unfold lines_of, rest_of, encode_lines.
  rewrite (split_chunk_lines chunks _ H).
  change (split LF ("END_STREAM" ++ nl)) with ["END_STREAM"; ""].
  split.
  - rewrite removelast_app by discriminate. reflexivity.
  - rewrite last_app_cons by discriminate. reflexivity.
Qed.

Lemma chunk_line_not_terminal (c : string) : is_terminal ("CHUNK:" ++ c) = false.
Proof. unfold is_terminal. rewrite starts_with_marker. reflexivity. Qed.

Lemma encode_lines_terminal_only_last (chunks : list string) :
  Forall (fun c => no_LF c = true) chunks -> terminal_only_last (encode_lines chunks).
Proof.
  intros H. unfold terminal_only_last. rewrite (proj1 (encode_lines_lines chunks H)).
  rewrite removelast_app by discriminate. cbn [removelast]. rewrite app_nil_r.
  apply Forall_forall. intros l Hl. apply in_map_iff in Hl. destruct Hl as (c & <- & _).
  apply chunk_line_not_terminal.
Qed.

(** The loop on the lines of chunks followed by other lines. *)
Lemma for_lines_chunk_lines (p : string) (chunks : list string) (more : list string)
    (st : AIAgentService.Request) :
  AIAgentService.for_lines p (map chunk_line chunks ++ more)%list st
  = AIAgentService.for_lines p more
      (mkEnv (AIAgentService.mkLocals (AIAgentService.responseBuffer (locals st))
                (AIAgentService.onChunk_calls (locals st) ++ chunks))
             (promise st) (fs st) (console st) (decoded st ++ map Chunk chunks)).
Proof.
  revert st. induction chunks as [|c chunks IH]; intros st.
  - cbn [map app]. rewrite !app_nil_r. destruct st as [[b calls] pr f con dec]. reflexivity.
  - cbn [map app AIAgentService.for_lines]. unfold chunk_line at 1 2.
    rewrite starts_with_marker.
    change (substring_from 6 ("CHUNK:" ++ c)) with c.
    run_eff. rewrite IH. cbn [locals promise fs console decoded
      AIAgentService.responseBuffer AIAgentService.onChunk_calls].
    rewrite <- !app_assoc. reflexivity.
Qed.

Lemma for_lines_end (p : string) (st : AIAgentService.Request) :
  let st' := snd (AIAgentService.for_lines p ["END_STREAM"] st) in
  decoded st' = (decoded st ++ [End])%list
  /\ locals st' = locals st
  /\ promise st' = settle (Resolved tt) (promise st).
Proof.
  cbn zeta. cbn [AIAgentService.for_lines].
  change (startsWith "END_STREAM" "CHUNK:") with false.
  change ("END_STREAM" =? "END_STREAM")%string with true.
  cbv iota. run_eff. unlink_cases; repeat split.
Qed.

Lemma encode_lines_at_once (p : string) (chunks : list string) (st : AIAgentService.Request) :
  Forall (fun c => no_LF c = true) chunks ->
  AIAgentService.responseBuffer (locals st) = "" ->
  let st' := snd (on_output p (encode_lines chunks) st) in
  decoded st' = (decoded st ++ map Chunk chunks ++ [End])%list
  /\ AIAgentService.onChunk_calls (locals st')
     = (AIAgentService.onChunk_calls (locals st) ++ chunks)%list
  /\ AIAgentService.responseBuffer (locals st') = ""
  /\ promise st' = settle (Resolved tt) (promise st).
Proof.
  intros H Hb. cbn zeta. rewrite on_output_lines, Hb.
  change ("" ++ encode_lines chunks) with (encode_lines chunks).
  destruct (encode_lines_lines chunks H) as [-> ->].
  rewrite for_lines_chunk_lines.
  match goal with
  | |- context [AIAgentService.for_lines p ["END_STREAM"] ?s] =>
      destruct (for_lines_end p s) as (Hd & Hl & Hp)
  end.
  rewrite Hd, Hl, Hp. cbn. rewrite <- app_assoc. repeat split.
Qed.

(** A request whose data events carry a text in which no terminal line is
    followed by another complete line ends as the stdout handler leaves it
    on an event with the whole text. *)
Lemma sendMessage_text (this : AIAgentService.Service) (message : string)
    (sessionId : option string) (fs0 : FS) (frags : list string) :
  terminal_only_last (received frags) ->
  AIAgentService.sendMessage this message sessionId fs0 (map StdoutData frags)
  = on_output (AIAgentService.sendMessage_scriptPath this) (received frags)
      (AIAgentService.sendMessage_start this message sessionId fs0).
Proof.
  intros H. unfold AIAgentService.sendMessage.
  destruct frags as [|f frags]; [reflexivity|].
  apply run_fragments. exact H.
Qed.

Lemma sendMessage_at_once (this : AIAgentService.Service) (message : string)
    (sessionId : option string) (fs0 : FS) (frags : list string) (whole : string) :
  received frags = Buffer_toString whole ->
  terminal_only_last (Buffer_toString whole) ->
  AIAgentService.sendMessage this message sessionId fs0 (map StdoutData frags)
  = AIAgentService.sendMessage this message sessionId fs0 [StdoutData whole].
Proof.
  intros Hr H.
  rewrite (sendMessage_text this message sessionId fs0 frags) by (rewrite Hr; exact H).
  change [StdoutData whole] with (map StdoutData [whole]).
  rewrite (sendMessage_text this message sessionId fs0 [whole]).
  - rewrite Hr. unfold received. cbn [map concat_all].
    rewrite append_empty_r. reflexivity.
  - unfold received. cbn [map concat_all]. rewrite append_empty_r. exact H.
Qed.

(** ** What sendMessageToAgent posts *)

Lemma concat_all_app (l1 l2 : list string) :
  concat_all (l1 ++ l2) = concat_all l1 ++ concat_all l2.
Proof.
  induction l1 as [|x l1 IH]; [reflexivity|].
  cbn [app concat_all]. rewrite IH, append_assoc. reflexivity.
Qed.

Lemma posts_of_snoc (now acc : string) (frames : list Frame) (f : Frame) :
  posts_of now acc (frames ++ [f])
  = (posts_of now acc frames
     ++ posts_of now (acc ++ concat_all (chunk_texts frames)) [f])%list.
Proof.
  revert acc. induction frames as [|g frames IH]; intros acc.
  - cbn. rewrite append_empty_r. reflexivity.
  - destruct g as [c| |m]; cbn [app posts_of chunk_texts concat_all].
    + rewrite IH, append_assoc. reflexivity.
    + rewrite IH. reflexivity.
    + rewrite IH. reflexivity.
Qed.

Lemma view_for_lines_posts (q now : string) (lines : list string)
    (v : ChatViewProvider.Request) :
  posts_follow_frames now v ->
  posts_follow_frames now (snd (ChatViewProvider.for_lines q now lines v)).
Proof.
  revert v. induction lines as [|line rest IH]; intros v H; [exact H|].
  cbn [ChatViewProvider.for_lines].
  destruct v as [[vb vf vv vposted] vp vfs vcon vdec].
  destruct H as (Hf & Hp). cbn in Hf, Hp.
  destruct (startsWith line "CHUNK:").
  - run_view. apply IH. unfold posts_follow_frames.
    destruct vv; cbn; rewrite chunk_texts_snoc, concat_all_app; cbn [chunk_texts concat_all];
      rewrite append_empty_r, Hf; (split; [reflexivity|]).
    + rewrite posts_of_snoc, Hp. reflexivity.
    + exact Hp.
  - destruct (line =? "END_STREAM")%string.
    + run_view. unfold posts_follow_frames.
      destruct vv; cbn; unlink_cases;
        rewrite chunk_texts_snoc; cbn [chunk_texts]; rewrite app_nil_r;
        (split; [exact Hf|]); try exact Hp;
        rewrite posts_of_snoc, Hp, Hf; reflexivity.
    + destruct (startsWith line "ERROR:").
      * run_view. unfold posts_follow_frames. cbn.
        rewrite chunk_texts_snoc. cbn [chunk_texts]. rewrite app_nil_r.
        split; [exact Hf|]. destruct vv; [|exact Hp].
        rewrite posts_of_snoc, Hp. cbn. now rewrite app_nil_r.
      * apply IH. split; assumption.
Qed.

Lemma view_handle_posts (q now : string) (ev : ProcEvent) (v : ChatViewProvider.Request) :
  posts_follow_frames now v ->
  posts_follow_frames now (snd (ChatViewProvider.handle q now ev v)).
Proof.
  intros H. destruct ev as [d|d|code|e]; cbn [ChatViewProvider.handle].
  - rewrite view_on_stdout_data_lines. apply view_for_lines_posts.
    destruct H as (Hf & Hp). split; assumption.
  - exact H.
  - destruct (view_on_close_promise q code v) as (_ & Hd & Hl).
    unfold posts_follow_frames. rewrite Hd, Hl. exact H.
  - exact H.
Qed.

Lemma view_run_posts (q now : string) (evs : list ProcEvent) (v : ChatViewProvider.Request) :
  posts_follow_frames now v ->
  posts_follow_frames now (snd (ChatViewProvider.run q now evs v)).
Proof.
  revert v. induction evs as [|ev evs IH]; intros v H; [exact H|].
  rewrite view_run_cons. apply IH, view_handle_posts, H.
Qed.

Lemma view_start_posts (that : ChatViewProvider.Provider) (message now : string) (fs0 : FS) :
  posts_follow_frames now (ChatViewProvider.sendMessageToAgent_start that message fs0).
Proof.
  split; [reflexivity|]. cbn. destruct (ChatViewProvider._view that); reflexivity.
Qed.

(** X7. Whatever the process delivers, the messages sendMessageToAgent
    has posted to an attached webview are those of the frames it has
    decoded, in order: a streamChunk for every Chunk frame and, for every
    End frame, an assistant message whose content is the text of all the
    chunks decoded before it; fullResponse is that text; without a view
    nothing is posted. *)
Theorem X7_posts_follow_frames (evs : list ProcEvent) :
  forall that message now fs0,
    let v := snd (ChatViewProvider.sendMessageToAgent that message now fs0 evs) in
    ChatViewProvider.fullResponse (locals v) = concat_all (chunk_texts (decoded v))
    /\ ChatViewProvider.posted (locals v)
       = if ChatViewProvider._view that then posts_of now "" (decoded v) else [].
Proof.
  intros that message now fs0. cbn zeta. unfold ChatViewProvider.sendMessageToAgent.
  destruct (view_run_posts (ChatViewProvider.sendMessageToAgent_scriptPath that) now evs
              (ChatViewProvider.sendMessageToAgent_start that message fs0)
              (view_start_posts that message now fs0)) as (Hf & Hp).
  split; [exact Hf|]. rewrite Hp, view_run_view. reflexivity.
Qed.

(** ** Fragmentation in general *)

Lemma view_at_once (that : ChatViewProvider.Provider) (message now : string) (fs0 : FS)
    (frags : list string) (whole : string) :
  received frags = Buffer_toString whole ->
  terminal_only_last (Buffer_toString whole) ->
  let cut := snd (ChatViewProvider.sendMessageToAgent that message now fs0
                    (map StdoutData frags)) in
  let whole := snd (ChatViewProvider.sendMessageToAgent that message now fs0
                      [StdoutData whole]) in
  decoded cut = decoded whole
  /\ promise cut = promise whole
  /\ ChatViewProvider.responseBuffer (locals cut)
     = ChatViewProvider.responseBuffer (locals whole)
  /\ ChatViewProvider.fullResponse (locals cut) = ChatViewProvider.fullResponse (locals whole)
  /\ ChatViewProvider.posted (locals cut) = ChatViewProvider.posted (locals whole).
Proof.
  intros Hr H. cbn zeta.
  pose proof (sendMessage_at_once AIAgentService.constructor message None fs0 frags whole
                Hr H) as Hs.
  unfold AIAgentService.sendMessage in Hs.
  unfold ChatViewProvider.sendMessageToAgent.
  destruct (view_run_posts (ChatViewProvider.sendMessageToAgent_scriptPath that) now
              (map StdoutData frags)
              (ChatViewProvider.sendMessageToAgent_start that message fs0)
              (view_start_posts that message now fs0)) as (Hf1 & Hp1).
  destruct (view_run_posts (ChatViewProvider.sendMessageToAgent_scriptPath that) now
              [StdoutData whole]
              (ChatViewProvider.sendMessageToAgent_start that message fs0)
              (view_start_posts that message now fs0)) as (Hf2 & Hp2).
  rewrite view_run_view in Hp1, Hp2.
  pose proof (agree_start AIAgentService.constructor that message message None fs0 fs0) as H0.
  destruct (agree_run (AIAgentService.sendMessage_scriptPath AIAgentService.constructor)
              (ChatViewProvider.sendMessageToAgent_scriptPath that) now
              (map StdoutData frags) _ _ H0) as [Hb1 Hpr1 Hd1 _].
  destruct (agree_run (AIAgentService.sendMessage_scriptPath AIAgentService.constructor)
              (ChatViewProvider.sendMessageToAgent_scriptPath that) now
              [StdoutData whole] _ _ H0) as [Hb2 Hpr2 Hd2 _].
  rewrite Hs in Hb1, Hpr1, Hd1.
  assert (Hd : decoded (snd (ChatViewProvider.run
                               (ChatViewProvider.sendMessageToAgent_scriptPath that) now
                               (map StdoutData frags)
                               (ChatViewProvider.sendMessageToAgent_start that message fs0)))
               = decoded (snd (ChatViewProvider.run
                                 (ChatViewProvider.sendMessageToAgent_scriptPath that) now
                                 [StdoutData whole]
                                 (ChatViewProvider.sendMessageToAgent_start that message fs0))))
    by congruence.
  split; [exact Hd|]. split; [congruence|]. split; [congruence|].
  split; [now rewrite Hf1, Hf2, Hd | now rewrite Hp1, Hp2, Hd].
Qed.

(** X1. The decoding depends on the text of the data events only, not on
    the events the text arrives in: data events whose texts, each the
    result of toString on the data of one event, join to the text of one
    event in which no End or Error line is followed by another complete
    line leave sendMessage in the very state that one event leaves, and
    sendMessageToAgent decodes, settles and posts the same.  The texts of
    the pieces of some data join to the text of the data when no piece
    ends inside a character, and always when the data is ASCII.  A cut
    inside a character is different: with CHUNK: and the first byte of
    e-acute in one event and the second byte and the line feed in the
    next, onChunk receives two replacement characters instead of the
    character. *)
Theorem X1_fragmentation_invariance :
  (forall frags whole,
      received frags = Buffer_toString whole ->
      terminal_only_last (Buffer_toString whole) ->
      (forall this message sessionId fs0,
          AIAgentService.sendMessage this message sessionId fs0 (map StdoutData frags)
          = AIAgentService.sendMessage this message sessionId fs0 [StdoutData whole])
      /\ (forall that message now fs0,
          let cut := snd (ChatViewProvider.sendMessageToAgent that message now fs0
                            (map StdoutData frags)) in
          let one := snd (ChatViewProvider.sendMessageToAgent that message now fs0
                            [StdoutData whole]) in
          decoded cut = decoded one
          /\ promise cut = promise one
          /\ ChatViewProvider.responseBuffer (locals cut)
             = ChatViewProvider.responseBuffer (locals one)
          /\ ChatViewProvider.fullResponse (locals cut)
             = ChatViewProvider.fullResponse (locals one)
          /\ ChatViewProvider.posted (locals cut) = ChatViewProvider.posted (locals one)))
  /\ (forall frags,
      Forall (fun f => complete f = true) frags ->
      received frags = Buffer_toString (concat_all frags))
  /\ (forall frags,
      is_ascii (concat_all frags) = true ->
      received frags = Buffer_toString (concat_all frags))
  /\ (let e_acute := String "195" (String "169" "") in
      let cut := ["CHUNK:" ++ String "195" ""; String "169" nl] in
      concat_all cut = "CHUNK:" ++ e_acute ++ nl
      /\ AIAgentService.onChunk_calls
           (locals (snd (AIAgentService.sendMessage AIAgentService.constructor "hi" None
                           fs_empty [StdoutData (concat_all cut)])))
         = [e_acute]
      /\ AIAgentService.onChunk_calls
           (locals (snd (AIAgentService.sendMessage AIAgentService.constructor "hi" None
                           fs_empty (map StdoutData cut))))
         = [replacement ++ replacement]).
Proof.
  split; [|split; [|split]].
  - intros frags whole Hr H. split.
    + intros this message sessionId fs0. apply sendMessage_at_once; assumption.
    + intros that message now fs0. apply view_at_once; assumption.
  - exact received_complete.
  - intros frags H. rewrite (received_ascii frags H), (toString_ascii _ H). reflexivity.
  - cbv zeta. split; [reflexivity|]. split; reflexivity.
Qed.

(** A diagnostic line, a chunk and an error, one character at a time. *)
Lemma X1_fragmentation_invariance_witness :
  let stream := "warning" ++ nl ++ "CHUNK:a" ++ nl ++ "ERROR:e" ++ nl in
  received (one_by_one stream) = Buffer_toString stream
  /\ terminal_only_last (Buffer_toString stream)
  /\ AIAgentService.sendMessage AIAgentService.constructor "hi" None fs_empty
       (map StdoutData (one_by_one stream))
     = AIAgentService.sendMessage AIAgentService.constructor "hi" None fs_empty
         [StdoutData stream].
Proof.
  cbv zeta.
  assert (H : terminal_only_last
                (Buffer_toString ("warning" ++ nl ++ "CHUNK:a" ++ nl ++ "ERROR:e" ++ nl))).
  { unfold terminal_only_last.
    change (removelast (lines_of (Buffer_toString
              ("warning" ++ nl ++ "CHUNK:a" ++ nl ++ "ERROR:e" ++ nl))))
      with ["warning"; "CHUNK:a"].
    repeat constructor. }
  split; [reflexivity|]. split; [exact H|].
  destruct X1_fragmentation_invariance as (Hx & _).
  exact (proj1 (Hx (one_by_one ("warning" ++ nl ++ "CHUNK:a" ++ nl ++ "ERROR:e" ++ nl))
                   ("warning" ++ nl ++ "CHUNK:a" ++ nl ++ "ERROR:e" ++ nl) eq_refl H)
           AIAgentService.constructor "hi" None fs_empty).
Defined.

(** ** One chunk per line *)

Lemma posts_of_chunks (now acc : string) (chunks : list string) (rest : list Frame) :
  posts_of now acc (map Chunk chunks ++ rest)
  = (map ChatViewProvider.StreamChunk chunks
     ++ posts_of now (acc ++ concat_all chunks) rest)%list.
Proof.
  revert acc. induction chunks as [|c chunks IH]; intros acc.
  - cbn. rewrite append_empty_r. reflexivity.
  - cbn [map app posts_of concat_all]. rewrite IH, append_assoc. reflexivity.
Qed.

(** X2. A text that carries one CHUNK: line per chunk and then the
    END_STREAM line round-trips: in whatever data events the text is
    received (the text of an event being what toString makes of its data),
    sendMessage decodes exactly the chunks and End, gives the chunks to
    onChunk in order, holds nothing back and resolves; sendMessageToAgent
    posts one streamChunk per chunk and then one assistant message with
    the chunks joined. *)
Theorem X2_line_per_chunk_round_trip (chunks frags : list string) :
  Forall (fun c => no_LF c = true) chunks ->
  received frags = encode_lines chunks ->
  (forall this message sessionId fs0,
      let st := snd (AIAgentService.sendMessage this message sessionId fs0
                       (map StdoutData frags)) in
      decoded st = (map Chunk chunks ++ [End])%list
      /\ AIAgentService.onChunk_calls (locals st) = chunks
      /\ AIAgentService.responseBuffer (locals st) = ""
      /\ promise st = Some (Resolved tt))
  /\ (forall that message now fs0,
      let v := snd (ChatViewProvider.sendMessageToAgent that message now fs0
                      (map StdoutData frags)) in
      decoded v = (map Chunk chunks ++ [End])%list
      /\ promise v = Some (Resolved tt)
      /\ ChatViewProvider.fullResponse (locals v) = concat_all chunks
      /\ (ChatViewProvider._view that = true ->
          ChatViewProvider.posted (locals v)
          = (map ChatViewProvider.StreamChunk chunks
             ++ [ChatViewProvider.AddMessage "assistant" (concat_all chunks) now])%list)).
Proof.
  intros Hc Hcat.
  assert (Hs : forall this message sessionId fs0,
      let st := snd (AIAgentService.sendMessage this message sessionId fs0
                       (map StdoutData frags)) in
      decoded st = (map Chunk chunks ++ [End])%list
      /\ AIAgentService.onChunk_calls (locals st) = chunks
      /\ AIAgentService.responseBuffer (locals st) = ""
      /\ promise st = Some (Resolved tt)).
  { intros this message sessionId fs0. cbn zeta.
    rewrite sendMessage_text
      by (rewrite Hcat; apply encode_lines_terminal_only_last, Hc).
    rewrite Hcat.
    exact (encode_lines_at_once (AIAgentService.sendMessage_scriptPath this) chunks
             (AIAgentService.sendMessage_start this message sessionId fs0) Hc eq_refl). }
  split; [exact Hs|].
  intros that message now fs0. cbn zeta.
  destruct (Hs AIAgentService.constructor message None fs0) as (Hd & _ & _ & Hp).
  unfold AIAgentService.sendMessage in Hd, Hp.
  unfold ChatViewProvider.sendMessageToAgent.
  destruct (agree_run (AIAgentService.sendMessage_scriptPath AIAgentService.constructor)
              (ChatViewProvider.sendMessageToAgent_scriptPath that) now
              (map StdoutData frags) _ _
              (agree_start AIAgentService.constructor that message message None fs0 fs0))
    as [_ Hp1 Hd1 _].
  destruct (view_run_posts (ChatViewProvider.sendMessageToAgent_scriptPath that) now
              (map StdoutData frags)
              (ChatViewProvider.sendMessageToAgent_start that message fs0)
              (view_start_posts that message now fs0)) as (Hf & Hposted).
  rewrite view_run_view in Hposted.
  rewrite <- Hd1, Hd in Hf, Hposted.
  split; [now rewrite <- Hd1|]. split; [now rewrite <- Hp1|]. split.
  - rewrite Hf. clear. induction chunks as [|c chunks IH]; [reflexivity|].
    cbn [map app chunk_texts concat_all]. now rewrite IH.
  - intros Hv. rewrite Hposted.
    change (ChatViewProvider.view
              (locals (ChatViewProvider.sendMessageToAgent_start that message fs0)))
      with (ChatViewProvider._view that).
    rewrite Hv, posts_of_chunks. reflexivity.
Qed.

(** Three chunks, one of them empty, one character at a time. *)
Lemma X2_line_per_chunk_round_trip_witness :
  let chunks := ["Hello"; ""; " world"] in
  Forall (fun c => no_LF c = true) chunks
  /\ received (one_by_one (encode_lines chunks)) = encode_lines chunks
  /\ AIAgentService.onChunk_calls
       (locals (snd (AIAgentService.sendMessage AIAgentService.constructor "hi" None fs_empty
                       (map StdoutData (one_by_one (encode_lines chunks))))))
     = chunks.
Proof.
  cbv zeta.
  assert (H : Forall (fun c => no_LF c = true) ["Hello"; ""; " world"])
    by (repeat constructor).
  split; [exact H|]. split; [reflexivity|].
  destruct (proj1 (X2_line_per_chunk_round_trip ["Hello"; ""; " world"]
                     (one_by_one (encode_lines ["Hello"; ""; " world"])) H eq_refl)
              AIAgentService.constructor "hi" None fs_empty) as (_ & Hc & _).
  exact Hc.
Defined.

(** ** Lines that are passed over *)

Lemma for_lines_ignored (p : string) (lines : list string) (st : AIAgentService.Request) :
  Forall (fun l => is_ignored l = true) lines ->
  AIAgentService.for_lines p lines st = (Normal tt, st).
Proof.
  induction 1 as [|line rest Hl _ IH]; [reflexivity|].
  cbn [AIAgentService.for_lines]. unfold is_ignored in Hl.
  destruct (startsWith line "CHUNK:"); [discriminate|].
  destruct (line =? "END_STREAM")%string; [discriminate|].
  destruct (startsWith line "ERROR:"); [discriminate|]. exact IH.
Qed.

Lemma view_for_lines_ignored (q now : string) (lines : list string)
    (v : ChatViewProvider.Request) :
  Forall (fun l => is_ignored l = true) lines ->
  ChatViewProvider.for_lines q now lines v = (Normal tt, v).
Proof.
  induction 1 as [|line rest Hl _ IH]; [reflexivity|].
  cbn [ChatViewProvider.for_lines]. unfold is_ignored in Hl.
  destruct (startsWith line "CHUNK:"); [discriminate|].
  destruct (line =? "END_STREAM")%string; [discriminate|].
  destruct (startsWith line "ERROR:"); [discriminate|]. exact IH.
Qed.

(** ** What the output of the generated script is decoded to *)

Lemma print_chunks_no_LF (chunks : list string) :
  Forall (fun c => no_LF c = true) chunks -> no_LF (Producer.print_chunks chunks) = true.
Proof.
  induction 1 as [|c chunks Hc _ IH]; [reflexivity|].
  cbn [Producer.print_chunks]. rewrite !no_LF_append, Hc, IH. reflexivity.
Qed.

Lemma script_output_lines (chunks : list string) :
  Forall (fun c => no_LF c = true) chunks ->
  lines_of (Producer.stdout_of chunks None) = [Producer.print_chunks chunks; "END_STREAM"]
  /\ rest_of (Producer.stdout_of chunks None) = "".
Proof.
  intros H. unfold lines_of, rest_of, Producer.stdout_of.
  change ((nl ++ "END_STREAM") ++ nl) with (String LF ("END_STREAM" ++ nl)).
  rewrite split_line_cons by (apply print_chunks_no_LF, H).
  split; reflexivity.
Qed.

Lemma print_chunks_not_terminal (chunks : list string) :
  is_terminal (Producer.print_chunks chunks) = false.
Proof.
  destruct chunks as [|c chunks]; [reflexivity|].
  cbn [Producer.print_chunks]. rewrite append_assoc. apply chunk_line_not_terminal.
Qed.

Lemma script_output_at_once (p : string) (chunks : list string) (st : AIAgentService.Request) :
  Forall (fun c => no_LF c = true) chunks ->
  AIAgentService.responseBuffer (locals st) = "" ->
  let st' := snd (on_output p (Producer.stdout_of chunks None) st) in
  let texts := match chunks with
               | [] => []
               | c :: rest => [c ++ Producer.print_chunks rest]
               end in
  decoded st' = (decoded st ++ map Chunk texts ++ [End])%list
  /\ AIAgentService.onChunk_calls (locals st')
     = (AIAgentService.onChunk_calls (locals st) ++ texts)%list
  /\ promise st' = settle (Resolved tt) (promise st).
Proof.
  intros H Hb. cbn zeta. rewrite on_output_lines, Hb.
  change ("" ++ Producer.stdout_of chunks None) with (Producer.stdout_of chunks None).
  destruct (script_output_lines chunks H) as [-> ->].
  destruct chunks as [|c rest].
  - cbn [Producer.print_chunks].
    change [""; "END_STREAM"] with ([""] ++ ["END_STREAM"])%list.
    rewrite for_lines_app by (repeat constructor).
    rewrite (for_lines_ignored p [""]) by (repeat constructor). cbn [snd].
    match goal with
    | |- context [AIAgentService.for_lines p ["END_STREAM"] ?s] =>
        destruct (for_lines_end p s) as (Hd & Hl & Hp)
    end.
    rewrite Hd, Hl, Hp. cbn. rewrite app_nil_r. repeat split.
  - cbn [Producer.print_chunks]. rewrite append_assoc.
    change ["CHUNK:" ++ c ++ Producer.print_chunks rest; "END_STREAM"]
      with (map chunk_line [(c ++ Producer.print_chunks rest)%string] ++ ["END_STREAM"])%list.
    rewrite for_lines_chunk_lines.
    match goal with
    | |- context [AIAgentService.for_lines p ["END_STREAM"] ?s] =>
        destruct (for_lines_end p s) as (Hd & Hl & Hp)
    end.
    rewrite Hd, Hl, Hp. cbn. rewrite <- app_assoc. repeat split.
Qed.

(** X3. What the consumer makes of the output of the generated chat
    script, for every sequence of chunks without line feeds and in
    whatever data events the text of the output is received: no chunk
    gives End alone, one chunk round-trips, and two or more chunks are
    decoded as a single chunk, the first text followed by the rest still
    carrying their CHUNK: markers; the promise is resolved in every
    case. *)
Theorem X3_script_output_decoded (chunks frags : list string) :
  Forall (fun c => no_LF c = true) chunks ->
  received frags = Producer.stdout_of chunks None ->
  forall this message sessionId fs0,
    let st := snd (AIAgentService.sendMessage this message sessionId fs0
                     (map StdoutData frags)) in
    let texts := match chunks with
                 | [] => []
                 | c :: rest => [c ++ Producer.print_chunks rest]
                 end in
    decoded st = (map Chunk texts ++ [End])%list
    /\ AIAgentService.onChunk_calls (locals st) = texts
    /\ promise st = Some (Resolved tt)
    /\ (length chunks <= 1 -> AIAgentService.onChunk_calls (locals st) = chunks)
    /\ (2 <= length chunks -> AIAgentService.onChunk_calls (locals st) <> chunks).
Proof.
  intros Hc Hcat this message sessionId fs0. cbn zeta.
  assert (Hlast : terminal_only_last (received frags)).
  { rewrite Hcat. unfold terminal_only_last.
    rewrite (proj1 (script_output_lines chunks Hc)). cbn [removelast].
    constructor; [apply print_chunks_not_terminal | constructor]. }
  rewrite (sendMessage_text this message sessionId fs0 frags Hlast), Hcat.
  destruct (script_output_at_once (AIAgentService.sendMessage_scriptPath this) chunks
              (AIAgentService.sendMessage_start this message sessionId fs0) Hc eq_refl)
    as (Hd & Hcalls & Hp).
  cbn zeta in Hd, Hcalls, Hp.
  split; [exact Hd|]. split; [exact Hcalls|]. split; [exact Hp|].
  rewrite Hcalls. split.
  - intros Hlen. destruct chunks as [|c [|c' rest]]; cbn in Hlen; try lia.
    + reflexivity.
    + cbn. now rewrite append_empty_r.
  - intros Hlen. destruct chunks as [|c [|c' rest]]; cbn in Hlen; try lia.
    cbn. discriminate.
Qed.

(** The chunks Hello and world as the script prints them, cut after every
    print call. *)
Lemma X3_script_output_decoded_witness :
  let chunks := ["Hello"; " world"] in
  Forall (fun c => no_LF c = true) chunks
  /\ received (Producer.writes_of chunks) = Producer.stdout_of chunks None
  /\ 2 <= length chunks
  /\ AIAgentService.onChunk_calls
       (locals (snd (AIAgentService.sendMessage AIAgentService.constructor "hi" None fs_empty
                       (map StdoutData (Producer.writes_of chunks)))))
     <> chunks.
Proof.
  cbv zeta.
  assert (H : Forall (fun c => no_LF c = true) ["Hello"; " world"]) by (repeat constructor).
  split; [exact H|]. split; [reflexivity|]. split; [cbn; lia|].
  destruct (X3_script_output_decoded ["Hello"; " world"]
              (Producer.writes_of ["Hello"; " world"]) H eq_refl
              AIAgentService.constructor "hi" None fs_empty) as (_ & _ & _ & _ & Hne).
  apply Hne. cbn. lia.
Defined.

(** ** Lines that are no frames *)

(** X4. A data event whose complete lines are neither CHUNK: lines, nor
    the END_STREAM line, nor ERROR: lines is passed over: it changes
    nothing but the held buffer, in whatever state the request is (nothing
    decoded or delivered, the promise, the file system and the console as
    before). *)
Theorem X4_other_lines_ignored (d : string) :
  (forall p (st : AIAgentService.Request),
      Forall (fun l => is_ignored l = true)
             (lines_of (AIAgentService.responseBuffer (locals st) ++ Buffer_toString d)) ->
      AIAgentService.handle p (StdoutData d) st
      = (Normal tt,
         mkEnv (AIAgentService.mkLocals
                  (rest_of (AIAgentService.responseBuffer (locals st) ++ Buffer_toString d))
                  (AIAgentService.onChunk_calls (locals st)))
               (promise st) (fs st) (console st) (decoded st)))
  /\ (forall q now (v : ChatViewProvider.Request),
      Forall (fun l => is_ignored l = true)
             (lines_of (ChatViewProvider.responseBuffer (locals v) ++ Buffer_toString d)) ->
      ChatViewProvider.handle q now (StdoutData d) v
      = (Normal tt,
         mkEnv (ChatViewProvider.mkLocals
                  (rest_of (ChatViewProvider.responseBuffer (locals v) ++ Buffer_toString d))
                  (ChatViewProvider.fullResponse (locals v))
                  (ChatViewProvider.view (locals v))
                  (ChatViewProvider.posted (locals v)))
               (promise v) (fs v) (console v) (decoded v))).
Proof.
  split.
  - intros p st H. cbn [AIAgentService.handle].
    rewrite on_stdout_data_lines, (for_lines_ignored _ _ _ H). reflexivity.
  - intros q now v H. cbn [ChatViewProvider.handle].
    rewrite view_on_stdout_data_lines, (view_for_lines_ignored _ _ _ _ H). reflexivity.
Qed.

(** Two diagnostic lines and the start of a third on a fresh request. *)
Lemma X4_other_lines_ignored_witness :
  let d := "Loading model" ++ nl ++ " CHUNK:x" ++ nl ++ "END_STR" in
  let st := AIAgentService.sendMessage_start AIAgentService.constructor "hi" None fs_empty in
  Forall (fun l => is_ignored l = true)
         (lines_of (AIAgentService.responseBuffer (locals st) ++ Buffer_toString d))
  /\ decoded (snd (AIAgentService.handle "p" (StdoutData d) st)) = []
  /\ AIAgentService.responseBuffer (locals (snd (AIAgentService.handle "p" (StdoutData d) st)))
     = "END_STR".
Proof.
  cbv zeta.
  assert (H : Forall (fun l => is_ignored l = true)
                (lines_of (AIAgentService.responseBuffer
                             (locals (AIAgentService.sendMessage_start
                                        AIAgentService.constructor "hi" None fs_empty))
                           ++ Buffer_toString
                                ("Loading model" ++ nl ++ " CHUNK:x" ++ nl ++ "END_STR")))).
  { change (lines_of _) with ["Loading model"; " CHUNK:x"]. repeat constructor. }
  split; [exact H|].
  rewrite (proj1 (X4_other_lines_ignored
                    ("Loading model" ++ nl ++ " CHUNK:x" ++ nl ++ "END_STR")) "p" _ H).
  split; reflexivity.
Defined.

(** ** Lines after a terminal line *)

Lemma for_lines_end_first (p : string) (rest : list string) (st : AIAgentService.Request) :
  AIAgentService.for_lines p ("END_STREAM" :: rest) st
  = AIAgentService.for_lines p ["END_STREAM"] st.
Proof.
  cbn [AIAgentService.for_lines].
  change (startsWith "END_STREAM" "CHUNK:") with false.
  change ("END_STREAM" =? "END_STREAM")%string with true.
  reflexivity.
Qed.

Lemma chunk_line_no_LF (c : string) : no_LF c = true -> no_LF (chunk_line c) = true.
Proof. intros H. unfold chunk_line. rewrite no_LF_append, H. reflexivity. Qed.

(** X5. The way the text arrives matters once a terminal line is followed
    by more lines: a CHUNK: line whose text arrives in the same data event
    as the END_STREAM line before it is dropped, while the same line
    arriving in a later data event is decoded and given to onChunk
    although the promise is already resolved. *)
Theorem X5_lines_after_end (c d d' : string) :
  no_LF c = true ->
  Buffer_toString d = ("END_STREAM" ++ nl) ++ chunk_line c ++ nl ->
  Buffer_toString d' = chunk_line c ++ nl ->
  forall this message sessionId fs0,
    let whole := snd (AIAgentService.sendMessage this message sessionId fs0
                        [StdoutData d]) in
    let cut := snd (AIAgentService.sendMessage this message sessionId fs0
                      [StdoutData ("END_STREAM" ++ nl); StdoutData d']) in
    decoded whole = [End]
    /\ AIAgentService.onChunk_calls (locals whole) = []
    /\ promise whole = Some (Resolved tt)
    /\ decoded cut = [End; Chunk c]
    /\ AIAgentService.onChunk_calls (locals cut) = [c]
    /\ promise cut = Some (Resolved tt).
Proof.
  intros Hc Hd Hd' this message sessionId fs0. cbn zeta. unfold AIAgentService.sendMessage.
  set (p := AIAgentService.sendMessage_scriptPath this).
  set (st0 := AIAgentService.sendMessage_start this message sessionId fs0).
  rewrite !run_cons. cbn [AIAgentService.run ret snd AIAgentService.handle].
  assert (Hline : lines_of (chunk_line c ++ nl) = [chunk_line c]
                  /\ rest_of (chunk_line c ++ nl) = "").
  { unfold lines_of, rest_of.
    rewrite (split_terminated _ (chunk_line_no_LF c Hc)). split; reflexivity. }
  assert (Hwhole : lines_of (("END_STREAM" ++ nl) ++ chunk_line c ++ nl)
                   = ["END_STREAM"; chunk_line c]).
  { rewrite lines_of_append. change (rest_of ("END_STREAM" ++ nl)) with "".
    change ("" ++ chunk_line c ++ nl) with (chunk_line c ++ nl).
    rewrite (proj1 Hline). reflexivity. }
  split; [|split; [|split]].
  - rewrite on_stdout_data_lines, Hd.
    change (AIAgentService.responseBuffer (locals st0)) with "".
    change ("" ++ ("END_STREAM" ++ nl) ++ chunk_line c ++ nl)
      with (("END_STREAM" ++ nl) ++ chunk_line c ++ nl).
    rewrite Hwhole, for_lines_end_first.
    match goal with
    | |- context [AIAgentService.for_lines p ["END_STREAM"] ?s] =>
        destruct (for_lines_end p s) as (Hd0 & _)
    end.
    exact Hd0.
  - rewrite on_stdout_data_lines, Hd.
    change (AIAgentService.responseBuffer (locals st0)) with "".
    change ("" ++ ("END_STREAM" ++ nl) ++ chunk_line c ++ nl)
      with (("END_STREAM" ++ nl) ++ chunk_line c ++ nl).
    rewrite Hwhole, for_lines_end_first.
    match goal with
    | |- context [AIAgentService.for_lines p ["END_STREAM"] ?s] =>
        destruct (for_lines_end p s) as (_ & Hl & _)
    end.
    rewrite Hl. reflexivity.
  - rewrite on_stdout_data_lines, Hd.
    change (AIAgentService.responseBuffer (locals st0)) with "".
    change ("" ++ ("END_STREAM" ++ nl) ++ chunk_line c ++ nl)
      with (("END_STREAM" ++ nl) ++ chunk_line c ++ nl).
    rewrite Hwhole, for_lines_end_first.
    match goal with
    | |- context [AIAgentService.for_lines p ["END_STREAM"] ?s] =>
        destruct (for_lines_end p s) as (_ & _ & Hp)
    end.
    exact Hp.
  - set (st1 := snd (AIAgentService.on_stdout_data p ("END_STREAM" ++ nl) st0)).
    assert (H1 : decoded st1 = [End]
                 /\ locals st1 = AIAgentService.mkLocals "" []
                 /\ promise st1 = Some (Resolved tt)).
    { unfold st1. rewrite on_stdout_data_lines.
      change (Buffer_toString ("END_STREAM" ++ nl)) with ("END_STREAM" ++ nl).
      change (AIAgentService.responseBuffer (locals st0)) with "".
      change (lines_of ("" ++ "END_STREAM" ++ nl)) with ["END_STREAM"].
      match goal with
      | |- context [AIAgentService.for_lines p ["END_STREAM"] ?s] =>
          destruct (for_lines_end p s) as (Hd0 & Hl & Hp)
      end.
      rewrite Hd0, Hl, Hp. repeat split. }
    destruct H1 as (Hd1 & Hl1 & Hp1).
    rewrite on_stdout_data_lines, Hd', Hl1.
    cbn [AIAgentService.responseBuffer].
    change ("" ++ chunk_line c ++ nl) with (chunk_line c ++ nl).
    destruct Hline as [-> ->].
    change [chunk_line c] with (map chunk_line [c] ++ [])%list.
    rewrite for_lines_chunk_lines.
    cbn [AIAgentService.for_lines snd decoded locals promise AIAgentService.onChunk_calls].
    unfold with_buffer, exec, AIAgentService.set_responseBuffer, set_locals, modify.
    cbn [snd decoded locals promise AIAgentService.onChunk_calls].
    rewrite Hd1, Hl1, Hp1. repeat split.
Qed.

(** The chunk late. *)
Lemma X5_lines_after_end_witness :
  no_LF "late" = true
  /\ Buffer_toString (("END_STREAM" ++ nl) ++ chunk_line "late" ++ nl)
     = ("END_STREAM" ++ nl) ++ chunk_line "late" ++ nl
  /\ Buffer_toString (chunk_line "late" ++ nl) = chunk_line "late" ++ nl
  /\ AIAgentService.onChunk_calls
       (locals (snd (AIAgentService.sendMessage AIAgentService.constructor "hi" None fs_empty
                       [StdoutData ("END_STREAM" ++ nl);
                        StdoutData (chunk_line "late" ++ nl)])))
     = ["late"].
Proof.
  split; [reflexivity|]. split; [reflexivity|]. split; [reflexivity|].
  destruct (X5_lines_after_end "late" (("END_STREAM" ++ nl) ++ chunk_line "late" ++ nl)
              (chunk_line "late" ++ nl) eq_refl eq_refl eq_refl
              AIAgentService.constructor "hi" None fs_empty)
    as (_ & _ & _ & _ & H & _).
  exact H.
Defined.

(** ** The held buffer, always *)

Lemma run_buffer_rest (p : string) (evs : list ProcEvent) (st : AIAgentService.Request) :
  no_LF (AIAgentService.responseBuffer (locals st)) = true ->
  AIAgentService.responseBuffer (locals (snd (AIAgentService.run p evs st)))
  = rest_of (AIAgentService.responseBuffer (locals st) ++ stdout_text evs).
Proof.
  revert st. induction evs as [|ev evs IH]; intros st H.
  - cbn [stdout_text AIAgentService.run ret snd]. rewrite append_empty_r.
    symmetry. apply no_LF_lines, H.
  - rewrite run_cons, IH by (apply handle_buffer_no_LF, H).
    destruct ev as [d|d|code|e]; cbn [AIAgentService.handle stdout_text].
    + rewrite on_stdout_data_buffer, <- rest_of_append, append_assoc. reflexivity.
    + reflexivity.
    + destruct (on_close_promise p code st) as (_ & _ & Hl). rewrite Hl. reflexivity.
    + reflexivity.
Qed.

(** X6. After any sequence of events the held buffer of a streaming
    request is what follows the last line feed in the text received on
    stdout so far, the texts that toString makes of the data of the
    events, joined (all of it when there is no line feed); it never holds
    a line feed, whether or not a terminal frame was decoded. *)
Theorem X6_buffer_is_unterminated_tail (evs : list ProcEvent) :
  (forall this message sessionId fs0,
      let st := snd (AIAgentService.sendMessage this message sessionId fs0 evs) in
      AIAgentService.responseBuffer (locals st) = rest_of (stdout_text evs)
      /\ no_LF (AIAgentService.responseBuffer (locals st)) = true)
  /\ (forall that message now fs0,
      let v := snd (ChatViewProvider.sendMessageToAgent that message now fs0 evs) in
      ChatViewProvider.responseBuffer (locals v) = rest_of (stdout_text evs)
      /\ no_LF (ChatViewProvider.responseBuffer (locals v)) = true).
Proof.
  assert (Hs : forall this message sessionId fs0,
      let st := snd (AIAgentService.sendMessage this message sessionId fs0 evs) in
      AIAgentService.responseBuffer (locals st) = rest_of (stdout_text evs)
      /\ no_LF (AIAgentService.responseBuffer (locals st)) = true).
  { intros this message sessionId fs0. cbn zeta. unfold AIAgentService.sendMessage. split.
    - rewrite run_buffer_rest by reflexivity. reflexivity.
    - apply run_buffer_no_LF. reflexivity. }
  split; [exact Hs|].
  intros that message now fs0. cbn zeta.
  destruct (Hs AIAgentService.constructor message None fs0) as (Hb & Hn).
  unfold AIAgentService.sendMessage in Hb, Hn.
  unfold ChatViewProvider.sendMessageToAgent.
  destruct (agree_run (AIAgentService.sendMessage_scriptPath AIAgentService.constructor)
              (ChatViewProvider.sendMessageToAgent_scriptPath that) now evs _ _
              (agree_start AIAgentService.constructor that message message None fs0 fs0))
    as [Hbuf _ _ _].
  rewrite <- Hbuf. split; assumption.
Qed.

(** ** A process that fails to start *)

(** X8. When the error event of the process comes first, the streaming
    request is rejected with that very error, and nothing the process
    does afterwards changes it; more generally a streaming request that
    is settled after some events is settled in the same way after any
    further events. *)
Theorem X8_settled_for_good (evs later : list ProcEvent) :
  (forall e this message sessionId fs0,
      promise (snd (AIAgentService.sendMessage this message sessionId fs0
                      (ProcError e :: later)))
      = Some (Rejected e))
  /\ (forall e that message now fs0,
      promise (snd (ChatViewProvider.sendMessageToAgent that message now fs0
                      (ProcError e :: later)))
      = Some (Rejected e))
  /\ (forall o this message sessionId fs0,
      promise (snd (AIAgentService.sendMessage this message sessionId fs0 evs)) = Some o ->
      promise (snd (AIAgentService.sendMessage this message sessionId fs0 (evs ++ later)))
      = Some o)
  /\ (forall o that message now fs0,
      promise (snd (ChatViewProvider.sendMessageToAgent that message now fs0 evs)) = Some o ->
      promise (snd (ChatViewProvider.sendMessageToAgent that message now fs0 (evs ++ later)))
      = Some o).
Proof.
  assert (H1 : forall e this message sessionId fs0,
      promise (snd (AIAgentService.sendMessage this message sessionId fs0
                      (ProcError e :: later)))
      = Some (Rejected e)).
  { intros e this message sessionId fs0. unfold AIAgentService.sendMessage.
    rewrite run_cons. apply run_promise_settled. reflexivity. }
  assert (H3 : forall o this message sessionId fs0,
      promise (snd (AIAgentService.sendMessage this message sessionId fs0 evs)) = Some o ->
      promise (snd (AIAgentService.sendMessage this message sessionId fs0 (evs ++ later)))
      = Some o).
  { intros o this message sessionId fs0 H. unfold AIAgentService.sendMessage in *.
    rewrite run_app. apply run_promise_settled. exact H. }
  split; [exact H1|]. split; [|split; [exact H3|]].
  - intros e that message now fs0. unfold ChatViewProvider.sendMessageToAgent.
    destruct (agree_run (AIAgentService.sendMessage_scriptPath AIAgentService.constructor)
                (ChatViewProvider.sendMessageToAgent_scriptPath that) now
                (ProcError e :: later) _ _
                (agree_start AIAgentService.constructor that message message None fs0 fs0))
      as [_ Hp _ _].
    rewrite <- Hp. apply (H1 e AIAgentService.constructor message None fs0).
  - intros o that message now fs0 H. unfold ChatViewProvider.sendMessageToAgent in *.
    pose proof (fun l =>
                  agree_run (AIAgentService.sendMessage_scriptPath AIAgentService.constructor)
                    (ChatViewProvider.sendMessageToAgent_scriptPath that) now l _ _
                    (agree_start AIAgentService.constructor that message message None fs0 fs0))
      as Hag.
    destruct (Hag evs) as [_ Hp1 _ _]. destruct (Hag (evs ++ later)%list) as [_ Hp2 _ _].
    rewrite <- Hp2. apply (H3 o AIAgentService.constructor message None fs0).
    unfold AIAgentService.sendMessage. now rewrite Hp1.
Qed.

(** A spawn failure followed by output and a clean exit. *)
Lemma X8_settled_for_good_witness :
  let e := mkError "spawn python ENOENT" in
  let evs := [ProcError e] in
  let later := [StdoutData hello_stream; Close (Some 0%Z)] in
  promise (snd (AIAgentService.sendMessage AIAgentService.constructor "hi" None fs_empty evs))
  = Some (Rejected e)
  /\ promise (snd (AIAgentService.sendMessage AIAgentService.constructor "hi" None fs_empty
                     (evs ++ later)))
     = Some (Rejected e).
Proof.
  cbv zeta. split; [reflexivity|].
  destruct (X8_settled_for_good [ProcError (mkError "spawn python ENOENT")]
              [StdoutData hello_stream; Close (Some 0%Z)]) as (_ & _ & H & _).
  apply H. reflexivity.
Defined.

(** ** The messages of a history query *)

Lemma to_message_entry (entry : JSON) (st : AIAgentService.HistoryRequest) :
  is_null entry = false ->
  AIAgentService.to_message entry st = (Normal (message_of entry), st).
Proof. destruct entry; intros H; try discriminate H; reflexivity. Qed.

Lemma map_to_message (items : list JSON) (st : AIAgentService.HistoryRequest) :
  existsb is_null items = false ->
  map_eff AIAgentService.to_message items st = (Normal (map message_of items), st).
Proof.
  induction items as [|entry items IH]; [reflexivity|].
  cbn [existsb]. intros H. apply orb_false_iff in H. destruct H as [He Hi].
  cbn [map_eff map]. unfold bind at 1. rewrite (to_message_entry entry st He).
  unfold bind at 1. rewrite (IH Hi). reflexivity.
Qed.

Lemma map_to_message_null (items : list JSON) (st : AIAgentService.HistoryRequest) :
  existsb is_null items = true ->
  exists e, map_eff AIAgentService.to_message items st = (Throw e, st).
Proof.
  induction items as [|entry items IH]; [discriminate|].
  cbn [existsb map_eff]. intros H. unfold bind at 1.
  destruct (is_null entry) eqn:He.
  - destruct entry; try discriminate He. cbn. eauto.
  - rewrite (to_message_entry entry st He). unfold bind at 1.
    destruct (IH H) as (e & ->). eauto.
Qed.

Section HistoryOutcome.
Variable JSON_parse : string -> option JSON.

Lemma history_try_result (st : AIAgentService.HistoryRequest) :
  promise st = None ->
  try_catch
    (l <- get_locals ;;
     history <- AIAgentService.parse JSON_parse (trim (AIAgentService.output l)) ;;
     messages <- value_map history AIAgentService.to_message ;;
     resolve messages)
    (fun _ => reject (mkError "Failed to parse history response")) st
  = (Normal tt,
     mkEnv (locals st)
           (Some (history_result (JSON_parse (trim (AIAgentService.output (locals st))))))
           (fs st) (console st) (decoded st)).
Proof.
  intros Hp. destruct st as [[o] pr f c d]. cbn in Hp. subst pr.
  unfold try_catch, bind, get_locals, AIAgentService.parse.
  cbn [locals AIAgentService.output promise fs console decoded].
  destruct (JSON_parse (trim o)) as [history|]; [|reflexivity].
  unfold ret at 1.
  destruct history as [|b|n|s|items|fields]; try reflexivity.
  cbn [value_map history_result].
  destruct (existsb is_null items) eqn:E.
  - destruct (map_to_message_null items
                (mkEnv (AIAgentService.mkOutput o) None f c d) E) as (e & ->).
    reflexivity.
  - rewrite (map_to_message items _ E). reflexivity.
Qed.

Lemma getSessionHistory_outcome (this : AIAgentService.Service) (sessionId : option string)
    (fs0 : FS) (frags : list string) (code : option Z) :
  promise (snd (AIAgentService.getSessionHistory JSON_parse this sessionId fs0
                  (map StdoutData frags ++ [Close code])))
  = Some (if code_is_zero code
          then history_result (JSON_parse (trim (received frags)))
          else Rejected (mkError ("Failed to get history, exit code: " ++ show_code code))).
Proof.
  unfold AIAgentService.getSessionHistory.
  rewrite history_run_app, history_run_data.
  cbn [snd AIAgentService.history_run AIAgentService.history_handle].
  unfold bind at 1. unfold AIAgentService.history_on_close. unfold bind at 1.
  match goal with
  | |- context [try_catch (unlinkSync ?p) ?h ?st] =>
      destruct (try_unlink_result p st) as (f' & c' & ->)
  end.
  cbn [locals promise decoded AIAgentService.getSessionHistory_start exec snd
       writeFileSync modify].
  destruct (code_is_zero code).
  - rewrite history_try_result by reflexivity. reflexivity.
  - reflexivity.
Qed.

End HistoryOutcome.

(** ** What an ERROR: line rejects with *)

Lemma for_lines_nonterminal_promise (p : string) (lines : list string)
    (st : AIAgentService.Request) :
  Forall (fun l => is_terminal l = false) lines ->
  promise (snd (AIAgentService.for_lines p lines st)) = promise st.
Proof.
  intros H. revert st. induction H as [|line rest Hl _ IH]; intros st; [reflexivity|].
  cbn [AIAgentService.for_lines]. unfold is_terminal in Hl.
  destruct (startsWith line "CHUNK:").
  - run_eff. rewrite IH. reflexivity.
  - destruct (line =? "END_STREAM")%string; [discriminate|].
    destruct (startsWith line "ERROR:"); [discriminate|]. apply IH.
Qed.

(** The loop on an ERROR: line: the lines behind it are not read. *)
Lemma for_lines_error (p msg : string) (post : list string) (st : AIAgentService.Request) :
  AIAgentService.for_lines p (("ERROR:" ++ msg) :: post) st
  = (Normal tt,
     mkEnv (locals st) (settle (Rejected (mkError msg)) (promise st)) (fs st) (console st)
           (decoded st ++ [Error_ msg])).
Proof.
  cbn [AIAgentService.for_lines].
  change (startsWith ("ERROR:" ++ msg) "CHUNK:") with false.
  change (("ERROR:" ++ msg) =? "END_STREAM")%string with false.
  rewrite starts_with_marker.
  change (substring_from 6 ("ERROR:" ++ msg)) with msg.
  cbv iota. run_eff. reflexivity.
Qed.

(** A data event in which the first terminal line that is completed is an
    ERROR: line. *)
Lemma error_line_completed (p d msg : string) (pre post : list string)
    (st : AIAgentService.Request) :
  lines_of (AIAgentService.responseBuffer (locals st) ++ Buffer_toString d)
  = (pre ++ ("ERROR:" ++ msg)%string :: post)%list ->
  Forall (fun l => is_terminal l = false) pre ->
  promise (snd (AIAgentService.handle p (StdoutData d) st))
  = settle (Rejected (mkError msg)) (promise st).
Proof.
  intros Hl Hpre. cbn [AIAgentService.handle].
  rewrite on_stdout_data_lines, Hl, (for_lines_app p pre _ _ Hpre), for_lines_error.
  cbn [snd promise]. rewrite (for_lines_nonterminal_promise p pre _ Hpre). reflexivity.
Qed.

Lemma view_error_line_completed (q now d msg : string) (pre post : list string)
    (v : ChatViewProvider.Request) :
  lines_of (ChatViewProvider.responseBuffer (locals v) ++ Buffer_toString d)
  = (pre ++ ("ERROR:" ++ msg)%string :: post)%list ->
  Forall (fun l => is_terminal l = false) pre ->
  promise (snd (ChatViewProvider.handle q now (StdoutData d) v))
  = settle (Rejected (mkError msg)) (promise v).
Proof.
  intros Hl Hpre.
  set (s := mkEnv (AIAgentService.mkLocals (ChatViewProvider.responseBuffer (locals v))
                     (stream_chunks (ChatViewProvider.posted (locals v))))
                  (promise v) (fs v) (console v) (decoded v)).
  assert (Hag : agree s v) by (constructor; reflexivity).
  destruct (agree_handle "p" q now (StdoutData d) s v Hag) as [_ Hp _ _].
  rewrite <- Hp. exact (error_line_completed "p" d msg pre post s Hl Hpre).
Qed.

(** The lines of CHUNK: lines followed by an ERROR: line. *)
Lemma error_after_chunks_lines (chunks : list string) (msg : string) :
  Forall (fun c => no_LF c = true) chunks ->
  no_LF msg = true ->
  lines_of (chunk_lines chunks ++ ("ERROR:" ++ msg) ++ nl)
  = (map chunk_line chunks ++ [("ERROR:" ++ msg)%string])%list
  /\ rest_of (chunk_lines chunks ++ ("ERROR:" ++ msg) ++ nl) = "".
Proof.
  intros Hc Hm. unfold lines_of, rest_of.
  assert (Hl : no_LF ("ERROR:" ++ msg) = true) by (rewrite no_LF_append, Hm; reflexivity).
  rewrite (split_chunk_lines chunks _ Hc), (split_terminated _ Hl). split.
  - rewrite removelast_app by discriminate. reflexivity.
  - rewrite last_app_cons by discriminate. reflexivity.
Qed.

(** The requests that collect the output keep a settled promise. *)
Lemma clear_run_settled (p : string) (evs : list ProcEvent)
    (st : AIAgentService.ClearRequest) (o : Outcome unit) :
  promise st = Some o ->
  promise (snd (AIAgentService.clear_run p evs st)) = Some o.
Proof.
  revert st. induction evs as [|ev evs IH]; intros st H; [exact H|].
  cbn [AIAgentService.clear_run]. unfold bind.
  assert (Hh : fst (AIAgentService.clear_handle p ev st) = Normal tt
               /\ promise (snd (AIAgentService.clear_handle p ev st)) = Some o).
  { destruct ev as [d|d|code|e]; cbn [AIAgentService.clear_handle].
    - split; [reflexivity | exact H].
    - split; [reflexivity | exact H].
    - destruct (clear_on_close_promise p code st) as (Hn & Hp).
      split; [exact Hn|]. rewrite Hp, H. reflexivity.
    - split; [reflexivity|]. cbn. rewrite H. reflexivity. }
  destruct Hh as [Hn Hp].
  destruct (AIAgentService.clear_handle p ev st) as [c s']. cbn in Hn, Hp. subst c.
  apply IH. exact Hp.
Qed.

Section HistorySettled.
Variable JSON_parse : string -> option JSON.

Lemma history_on_close_settled (p : string) (code : option Z)
    (st : AIAgentService.HistoryRequest) (o : Outcome (list AIAgentService.ChatMessage)) :
  promise st = Some o ->
  exists f' c',
    AIAgentService.history_on_close JSON_parse p code st
    = (Normal tt, mkEnv (locals st) (Some o) f' c' (decoded st)).
Proof.
  intros Hp. unfold AIAgentService.history_on_close. unfold bind at 1.
  destruct (try_unlink_result p st) as (f' & c' & ->). rewrite Hp.
  exists f', c'.
  destruct (code_is_zero code); [|reflexivity].
  unfold try_catch, bind, get_locals, AIAgentService.parse.
  cbn [locals AIAgentService.output promise fs console decoded].
  destruct (JSON_parse (trim (AIAgentService.output (locals st)))) as [history|];
    [|reflexivity].
  unfold ret at 1.
  match goal with
  | |- context [value_map history AIAgentService.to_message ?s0] =>
      pose proof (value_map_state history s0) as Hs;
      destruct (value_map history AIAgentService.to_message s0) as [[ms|e] s1];
      cbn in Hs; subst s1
  end; reflexivity.
Qed.

Lemma history_run_settled (p : string) (evs : list ProcEvent)
    (st : AIAgentService.HistoryRequest) (o : Outcome (list AIAgentService.ChatMessage)) :
  promise st = Some o ->
  promise (snd (AIAgentService.history_run JSON_parse p evs st)) = Some o.
Proof.
  revert st. induction evs as [|ev evs IH]; intros st H; [exact H|].
  cbn [AIAgentService.history_run]. unfold bind.
  assert (Hh : fst (AIAgentService.history_handle JSON_parse p ev st) = Normal tt
               /\ promise (snd (AIAgentService.history_handle JSON_parse p ev st)) = Some o).
  { destruct ev as [d|d|code|e]; cbn [AIAgentService.history_handle].
    - split; [reflexivity | exact H].
    - split; [reflexivity | exact H].
    - destruct (history_on_close_settled p code st o H) as (f' & c' & ->).
      split; reflexivity.
    - split; [reflexivity|]. cbn. rewrite H. reflexivity. }
  destruct Hh as [Hn Hp].
  destruct (AIAgentService.history_handle JSON_parse p ev st) as [c s']. cbn in Hn, Hp.
  subst c. apply IH. exact Hp.
Qed.

End HistorySettled.

(** C6, as stated, fails: session clear answers an ERROR line of the agent
    with its own fixed message. *)
Lemma C6_agent_error_counterexample :
  let pr := promise (snd (AIAgentService.clearSession AIAgentService.constructor None fs_empty
                            [StdoutData ("ERROR:boom" ++ nl); Close (Some 0%Z)])) in
  pr = Some (Rejected (mkError "Failed to clear session"))
  /\ pr <> Some (Rejected (mkError "boom")).
Proof.
  cbv zeta.
  assert (E : promise (snd (AIAgentService.clearSession AIAgentService.constructor None fs_empty
                              [StdoutData ("ERROR:boom" ++ nl); Close (Some 0%Z)]))
              = Some (Rejected (mkError "Failed to clear session"))) by reflexivity.
  rewrite E. split; [reflexivity | discriminate].
Qed.

(** C6, amended.  The streaming send: after any events, the data event
    that completes an ERROR: line, with no End or Error line completed
    before it in that event, settles the promise with a rejection whose
    message is exactly the text behind the ERROR: prefix (a promise that is
    settled already stays as it is); the line may have been begun in
    earlier events.  In particular a stream of CHUNK: lines followed by an
    ERROR: line delivers the chunks and rejects with that text, however
    its text is distributed over data events.
    Session clear and history retrieval do not decode ERROR: lines.  When
    their process closes after stdout data, session clear resolves if the
    exit code is 0 and the output contains SUCCESS and rejects with the
    fixed message Failed to clear session otherwise, and history retrieval
    settles with the messages of the parsed output or Failed to parse
    history response when the exit code is 0 and with Failed to get
    history, exit code: N otherwise.  An error event that comes before the
    close rejects clearSession and getSessionHistory with that very error,
    for good; clearAgentSession has no listener for it: the error is
    thrown and the promise is left pending. *)
Theorem C6_agent_error_messages :
  (forall this message sessionId fs0 evs d msg pre post,
      let before := snd (AIAgentService.sendMessage this message sessionId fs0 evs) in
      lines_of (AIAgentService.responseBuffer (locals before) ++ Buffer_toString d)
      = (pre ++ ("ERROR:" ++ msg)%string :: post)%list ->
      Forall (fun l => is_terminal l = false) pre ->
      promise (snd (AIAgentService.sendMessage this message sessionId fs0
                      (evs ++ [StdoutData d])))
      = settle (Rejected (mkError msg)) (promise before))
  /\ (forall that message now fs0 evs d msg pre post,
      let before := snd (ChatViewProvider.sendMessageToAgent that message now fs0 evs) in
      lines_of (ChatViewProvider.responseBuffer (locals before) ++ Buffer_toString d)
      = (pre ++ ("ERROR:" ++ msg)%string :: post)%list ->
      Forall (fun l => is_terminal l = false) pre ->
      promise (snd (ChatViewProvider.sendMessageToAgent that message now fs0
                      (evs ++ [StdoutData d])))
      = settle (Rejected (mkError msg)) (promise before))
  /\ (forall chunks msg frags,
      Forall (fun c => no_LF c = true) chunks ->
      no_LF msg = true ->
      received frags = chunk_lines chunks ++ ("ERROR:" ++ msg) ++ nl ->
      (forall this message sessionId fs0,
          let st := snd (AIAgentService.sendMessage this message sessionId fs0
                           (map StdoutData frags)) in
          decoded st = (map Chunk chunks ++ [Error_ msg])%list
          /\ AIAgentService.onChunk_calls (locals st) = chunks
          /\ promise st = Some (Rejected (mkError msg)))
      /\ (forall that message now fs0,
          let v := snd (ChatViewProvider.sendMessageToAgent that message now fs0
                          (map StdoutData frags)) in
          decoded v = (map Chunk chunks ++ [Error_ msg])%list
          /\ promise v = Some (Rejected (mkError msg))))
  /\ (forall this sessionId fs0 frags code,
      promise (snd (AIAgentService.clearSession this sessionId fs0
                      (map StdoutData frags ++ [Close code])))
      = Some (if code_is_zero code && includes (received frags) "SUCCESS"
              then Resolved tt
              else Rejected (mkError "Failed to clear session")))
  /\ (forall this sessionId fs0 frags e later,
      promise (snd (AIAgentService.clearSession this sessionId fs0
                      (map StdoutData frags ++ ProcError e :: later)))
      = Some (Rejected e))
  /\ (forall that fs0 frags code,
      promise (snd (ChatViewProvider.clearAgentSession that fs0
                      (map StdoutData frags ++ [Close code])))
      = Some (if code_is_zero code && includes (received frags) "SUCCESS"
              then Resolved tt
              else Rejected (mkError "Failed to clear session")))
  /\ (forall that fs0 frags e,
      let r := ChatViewProvider.clearAgentSession that fs0
                 (map StdoutData frags ++ [ProcError e]) in
      fst r = Throw e /\ promise (snd r) = None)
  /\ (forall JSON_parse this sessionId fs0 frags code,
      promise (snd (AIAgentService.getSessionHistory JSON_parse this sessionId fs0
                      (map StdoutData frags ++ [Close code])))
      = Some (if code_is_zero code
              then history_result (JSON_parse (trim (received frags)))
              else Rejected (mkError ("Failed to get history, exit code: "
                                      ++ show_code code))))
  /\ (forall JSON_parse this sessionId fs0 frags e later,
      promise (snd (AIAgentService.getSessionHistory JSON_parse this sessionId fs0
                      (map StdoutData frags ++ ProcError e :: later)))
      = Some (Rejected e)).
Proof.
  assert (Hstream : forall chunks msg frags,
      Forall (fun c => no_LF c = true) chunks ->
      no_LF msg = true ->
      received frags = chunk_lines chunks ++ ("ERROR:" ++ msg) ++ nl ->
      forall this message sessionId fs0,
        let st := snd (AIAgentService.sendMessage this message sessionId fs0
                         (map StdoutData frags)) in
        decoded st = (map Chunk chunks ++ [Error_ msg])%list
        /\ AIAgentService.onChunk_calls (locals st) = chunks
        /\ promise st = Some (Rejected (mkError msg))).
  { intros chunks msg frags Hc Hm Hcat this message sessionId fs0. cbn zeta.
    destruct (error_after_chunks_lines chunks msg Hc Hm) as [Hl Hr].
    rewrite sendMessage_text.
    - rewrite Hcat, on_output_lines.
      change (AIAgentService.responseBuffer
                (locals (AIAgentService.sendMessage_start this message sessionId fs0)))
        with "".
      change ("" ++ chunk_lines chunks ++ ("ERROR:" ++ msg) ++ nl)
        with (chunk_lines chunks ++ ("ERROR:" ++ msg) ++ nl).
      rewrite Hl, Hr, for_lines_chunk_lines, for_lines_error.
      cbn [snd decoded locals promise AIAgentService.onChunk_calls].
      rewrite <- app_assoc. repeat split.
    - rewrite Hcat. unfold terminal_only_last. rewrite Hl.
      rewrite removelast_app by discriminate. cbn [removelast]. rewrite app_nil_r.
      apply Forall_forall. intros l Hin. apply in_map_iff in Hin.
      destruct Hin as (c & <- & _). apply chunk_line_not_terminal. }
  split; [|split; [|split; [|split; [|split; [|split; [|split; [|split]]]]]]].
  - intros this message sessionId fs0 evs d msg pre post. cbn zeta.
    unfold AIAgentService.sendMessage. intros Hl Hpre.
    rewrite run_app, run_cons. cbn [AIAgentService.run ret snd].
    exact (error_line_completed _ d msg pre post _ Hl Hpre).
  - intros that message now fs0 evs d msg pre post. cbn zeta.
    unfold ChatViewProvider.sendMessageToAgent. intros Hl Hpre.
    rewrite view_run_app, view_run_cons. cbn [ChatViewProvider.run ret snd].
    exact (view_error_line_completed _ now d msg pre post _ Hl Hpre).
  - intros chunks msg frags Hc Hm Hcat. split.
    + exact (Hstream chunks msg frags Hc Hm Hcat).
    + intros that message now fs0. cbn zeta.
      destruct (Hstream chunks msg frags Hc Hm Hcat AIAgentService.constructor message
                  None fs0) as (Hd & _ & Hp).
      unfold AIAgentService.sendMessage in Hd, Hp.
      unfold ChatViewProvider.sendMessageToAgent.
      destruct (agree_run
                  (AIAgentService.sendMessage_scriptPath AIAgentService.constructor)
                  (ChatViewProvider.sendMessageToAgent_scriptPath that) now
                  (map StdoutData frags) _ _
                  (agree_start AIAgentService.constructor that message message None fs0 fs0))
        as [_ Hp1 Hd1 _].
      split; [now rewrite <- Hd1 | now rewrite <- Hp1].
  - intros this sessionId fs0 frags code. unfold AIAgentService.clearSession.
    rewrite clear_run_app, clear_run_data.
    cbn [snd AIAgentService.clear_run AIAgentService.clear_handle]. unfold bind.
    match goal with
    | |- context [AIAgentService.clear_on_close ?p code ?st] =>
        destruct (clear_on_close_promise p code st) as (Hn & Hp);
        destruct (AIAgentService.clear_on_close p code st) as [c s']
    end.
    cbn in Hn, Hp. subst c. cbn. exact Hp.
  - intros this sessionId fs0 frags e later. unfold AIAgentService.clearSession.
    rewrite clear_run_app, clear_run_data.
    cbn [snd AIAgentService.clear_run AIAgentService.clear_handle]. unfold bind at 1.
    cbn [reject modify]. apply clear_run_settled. reflexivity.
  - intros that fs0 frags code. unfold ChatViewProvider.clearAgentSession.
    rewrite view_clear_run_app, view_clear_run_data.
    cbn [snd ChatViewProvider.clear_run ChatViewProvider.clear_handle]. unfold bind.
    match goal with
    | |- context [ChatViewProvider.clear_on_close ?p code ?st] =>
        destruct (view_clear_on_close_promise p code st) as (Hn & Hp);
        destruct (ChatViewProvider.clear_on_close p code st) as [c s']
    end.
    cbn in Hn, Hp. subst c. cbn. exact Hp.
  - intros that fs0 frags e. cbn zeta. unfold ChatViewProvider.clearAgentSession.
    rewrite view_clear_run_app, view_clear_run_data.
    cbn [snd ChatViewProvider.clear_run ChatViewProvider.clear_handle]. split; reflexivity.
  - intros JSON_parse this sessionId fs0 frags code.
    apply getSessionHistory_outcome.
  - intros JSON_parse this sessionId fs0 frags e later.
    unfold AIAgentService.getSessionHistory.
    rewrite history_run_app, history_run_data.
    cbn [snd AIAgentService.history_run AIAgentService.history_handle]. unfold bind at 1.
    cbn [reject modify]. apply history_run_settled. reflexivity.
Qed.

(** An ERROR: line begun in one data event and completed in the next,
    with another line behind it; and an ERROR: line after a chunk. *)
Lemma C6_agent_error_messages_witness :
  let evs := [StdoutData ("CHUNK:a" ++ nl ++ "ERR")] in
  let d := "OR:boom" ++ nl ++ "CHUNK:y" ++ nl in
  let before := snd (AIAgentService.sendMessage AIAgentService.constructor "hi" None
                       fs_empty evs) in
  lines_of (AIAgentService.responseBuffer (locals before) ++ Buffer_toString d)
  = ([] ++ ("ERROR:" ++ "boom")%string :: ["CHUNK:y"])%list
  /\ Forall (fun l => is_terminal l = false) []
  /\ promise (snd (AIAgentService.sendMessage AIAgentService.constructor "hi" None fs_empty
                     (evs ++ [StdoutData d])))
     = Some (Rejected (mkError "boom"))
  /\ Forall (fun c => no_LF c = true) ["a"]
  /\ no_LF "boom" = true
  /\ received ["CHUNK:a"; nl ++ "ERROR:boom" ++ nl]
     = chunk_lines ["a"] ++ ("ERROR:" ++ "boom") ++ nl
  /\ promise (snd (AIAgentService.sendMessage AIAgentService.constructor "hi" None fs_empty
                     (map StdoutData ["CHUNK:a"; nl ++ "ERROR:boom" ++ nl])))
     = Some (Rejected (mkError "boom")).
Proof.
  cbv zeta. destruct C6_agent_error_messages as (H1 & _ & H3 & _).
  assert (Hc : Forall (fun c => no_LF c = true) ["a"]) by (repeat constructor).
  split; [reflexivity|]. split; [constructor|]. split.
  { exact (H1 AIAgentService.constructor "hi" None fs_empty
              [StdoutData ("CHUNK:a" ++ nl ++ "ERR")]
              ("OR:boom" ++ nl ++ "CHUNK:y" ++ nl) "boom" [] ["CHUNK:y"]
              eq_refl (Forall_nil _)). }
  split; [exact Hc|]. split; [reflexivity|]. split; [reflexivity|].
  destruct (proj1 (H3 ["a"] "boom" ["CHUNK:a"; nl ++ "ERROR:boom" ++ nl] Hc eq_refl eq_refl)
              AIAgentService.constructor "hi" None fs_empty) as (_ & _ & Hp).
  exact Hp.
Defined.

(** X9. A history query whose process exits with code 0 and whose trimmed
    output parses to an array without null entries resolves with one
    message per entry, in the order of the array: the type is user for an
    entry whose type is the string human and assistant for any other
    entry, and content and timestamp are the fields of the entry
    (undefined when the entry has none). *)
Theorem X9_history_messages (JSON_parse : string -> option JSON)
    (frags : list string) (items : list JSON) :
  JSON_parse (trim (received frags)) = Some (JArray items) ->
  existsb is_null items = false ->
  forall this sessionId fs0,
    promise (snd (AIAgentService.getSessionHistory JSON_parse this sessionId fs0
                    (map StdoutData frags ++ [Close (Some 0%Z)])))
    = Some (Resolved (map message_of items))
    /\ length (map message_of items) = length items
    /\ (forall entry, In entry items ->
        AIAgentService.type (message_of entry) = "user"
        \/ AIAgentService.type (message_of entry) = "assistant").
Proof.
  intros Hparse Hnull this sessionId fs0. split; [|split].
  - rewrite getSessionHistory_outcome. cbn [code_is_zero Z.eqb].
    rewrite Hparse. cbn [history_result]. rewrite Hnull. reflexivity.
  - apply length_map.
  - intros entry _. unfold message_of. cbn [AIAgentService.type].
    destruct (strict_eq_string (field entry "type") "human"); [left | right]; reflexivity.
Qed.

(** A parser that knows one document: a human entry with content, and an
    entry, a number, that has no fields. *)
Lemma X9_history_messages_witness :
  let doc := [JObject [("type", JString "human"); ("content", JString "hi")]; JNumber "1"] in
  let JSON_parse := fun s => if (s =? "DOC")%string then Some (JArray doc) else None in
  JSON_parse (trim (received [nbsp ++ " D"; "OC" ++ nl ++ nbsp])) = Some (JArray doc)
  /\ existsb is_null doc = false
  /\ promise (snd (AIAgentService.getSessionHistory JSON_parse AIAgentService.constructor
                     None fs_empty
                     (map StdoutData [nbsp ++ " D"; "OC" ++ nl ++ nbsp] ++ [Close (Some 0%Z)])))
     = Some (Resolved [AIAgentService.mkChatMessage "user" (Some (JString "hi")) None;
                       AIAgentService.mkChatMessage "assistant" None None]).
Proof.
  cbv zeta. split; [reflexivity|]. split; [reflexivity|].
  exact (proj1 (X9_history_messages
                  (fun s => if (s =? "DOC")%string
                            then Some (JArray [JObject [("type", JString "human");
                                                         ("content", JString "hi")];
                                               JNumber "1"])
                            else None)
                  [nbsp ++ " D"; "OC" ++ nl ++ nbsp] _ eq_refl eq_refl
                  AIAgentService.constructor None fs_empty)).
Defined.

(** X10. Output that is valid JSON is still rejected with Failed to parse
    history response when the value is not an array, or is an array with
    a null entry: the errors raised while the messages are built are
    caught together with those of the parser. *)
Theorem X10_history_not_an_array (JSON_parse : string -> option JSON)
    (frags : list string) (history : JSON) :
  JSON_parse (trim (received frags)) = Some history ->
  match history with
  | JArray items => existsb is_null items = true
  | _ => True
  end ->
  forall this sessionId fs0,
    promise (snd (AIAgentService.getSessionHistory JSON_parse this sessionId fs0
                    (map StdoutData frags ++ [Close (Some 0%Z)])))
    = Some (Rejected (mkError "Failed to parse history response")).
Proof.
  intros Hparse Hshape this sessionId fs0.
  rewrite getSessionHistory_outcome. cbn [code_is_zero Z.eqb].
  rewrite Hparse. destruct history; try reflexivity.
  cbn [history_result]. rewrite Hshape. reflexivity.
Qed.

(** A parser that knows the document null. *)
Lemma X10_history_not_an_array_witness :
  let JSON_parse := fun s => if (s =? "null")%string then Some JNull else None in
  JSON_parse (trim (received ["null" ++ nl])) = Some JNull
  /\ promise (snd (AIAgentService.getSessionHistory JSON_parse AIAgentService.constructor
                     None fs_empty (map StdoutData ["null" ++ nl] ++ [Close (Some 0%Z)])))
     = Some (Rejected (mkError "Failed to parse history response")).
Proof.
  cbv zeta. split; [reflexivity|].
  exact (X10_history_not_an_array
           (fun s => if (s =? "null")%string then Some JNull else None)
           ["null" ++ nl] JNull eq_refl I AIAgentService.constructor None fs_empty).
Defined.

(** X11. The outcome of a history query depends on the output only
    through the exit code and the trimmed text of the output, the texts of
    the data events joined: in which events the text is received, the
    line feed that print puts at its end, and any other white space at
    its ends, make no difference. *)
Theorem X11_history_whole_output (JSON_parse : string -> option JSON)
    (frags frags' : list string) (code : option Z) :
  received frags' = received frags
  \/ received frags' = received frags ++ nl
  \/ trim (received frags') = trim (received frags) ->
  forall this sessionId fs0,
    promise (snd (AIAgentService.getSessionHistory JSON_parse this sessionId fs0
                    (map StdoutData frags' ++ [Close code])))
    = promise (snd (AIAgentService.getSessionHistory JSON_parse this sessionId fs0
                      (map StdoutData frags ++ [Close code]))).
Proof.
  intros H this sessionId fs0. rewrite !getSessionHistory_outcome.
  assert (Ht : trim (received frags') = trim (received frags)).
  { destruct H as [-> | [-> | H]]; [reflexivity | apply trim_line_feed | exact H]. }
  rewrite Ht. reflexivity.
Qed.

(** The output in two events, between a no-break space and a line feed. *)
Lemma X11_history_whole_output_witness :
  let JSON_parse := fun s => if (s =? "[]")%string then Some (JArray []) else None in
  (received [nbsp ++ "["; "]" ++ nl] = received ["[]"]
   \/ received [nbsp ++ "["; "]" ++ nl] = received ["[]"] ++ nl
   \/ trim (received [nbsp ++ "["; "]" ++ nl]) = trim (received ["[]"]))
  /\ promise (snd (AIAgentService.getSessionHistory JSON_parse AIAgentService.constructor
                     None fs_empty
                     (map StdoutData [nbsp ++ "["; "]" ++ nl] ++ [Close (Some 0%Z)])))
     = Some (Resolved []).
Proof.
  cbv zeta.
  assert (H : received [nbsp ++ "["; "]" ++ nl] = received ["[]"]
              \/ received [nbsp ++ "["; "]" ++ nl] = received ["[]"] ++ nl
              \/ trim (received [nbsp ++ "["; "]" ++ nl]) = trim (received ["[]"]))
    by (right; right; reflexivity).
  split; [exact H|].
  rewrite (X11_history_whole_output
             (fun s => if (s =? "[]")%string then Some (JArray []) else None)
             ["[]"] [nbsp ++ "["; "]" ++ nl] (Some 0%Z) H
             AIAgentService.constructor None fs_empty).
  reflexivity.
Defined.

(** ** The connection test at start-up *)

Lemma test_run_data (frags : list string) (st : AIAgentStartup.TestRequest) :
  run_events AIAgentStartup.test_handle (map StdoutData frags) st
  = (Normal tt,
     mkEnv (AIAgentService.mkOutput (AIAgentService.output (locals st) ++ received frags))
           (promise st) (fs st) (console st) (decoded st)).
Proof.
  revert st. induction frags as [|f frags IH]; intros st.
  - cbn. rewrite append_empty_r. destruct st as [[o] pr f c d]. reflexivity.
  - change (received (f :: frags)) with (Buffer_toString f ++ received frags).
    cbn [map run_events AIAgentStartup.test_handle].
    run_out. rewrite IH. cbn. rewrite append_assoc. reflexivity.
Qed.

Lemma test_run_app (evs1 evs2 : list ProcEvent) (st : AIAgentStartup.TestRequest) :
  fst (run_events AIAgentStartup.test_handle evs1 st) = Normal tt
  /\ run_events AIAgentStartup.test_handle (evs1 ++ evs2) st
     = run_events AIAgentStartup.test_handle evs2
         (snd (run_events AIAgentStartup.test_handle evs1 st)).
Proof.
  revert st. induction evs1 as [|ev evs1 IH]; intros st; [split; reflexivity|].
  cbn [app run_events]. unfold bind.
  assert (Hn : fst (AIAgentStartup.test_handle ev st) = Normal tt).
  { destruct ev as [d|d|code|e]; try reflexivity.
    cbn [AIAgentStartup.test_handle]. unfold AIAgentStartup.test_on_close. run_out.
    destruct (code_is_zero code && includes (AIAgentService.output (locals st)) "OK");
      reflexivity. }
  destruct (AIAgentStartup.test_handle ev st) as [c s']. cbn in Hn. subst c.
  apply IH.
Qed.

Lemma test_settled (evs : list ProcEvent) (st : AIAgentStartup.TestRequest)
    (o : Outcome unit) :
  promise st = Some o ->
  promise (snd (run_events AIAgentStartup.test_handle evs st)) = Some o.
Proof.
  revert st. induction evs as [|ev evs IH]; intros st H; [exact H|].
  change (ev :: evs) with ([ev] ++ evs)%list.
  rewrite (proj2 (test_run_app [ev] evs st)). apply IH.
  cbn [run_events]. unfold bind.
  destruct ev as [d|d|code|e]; cbn [AIAgentStartup.test_handle].
  - run_out. exact H.
  - exact H.
  - unfold AIAgentStartup.test_on_close. run_out.
    destruct (code_is_zero code && includes (AIAgentService.output (locals st)) "OK");
      cbn; rewrite H; reflexivity.
  - run_out. rewrite H. reflexivity.
Qed.

(** X12. initialize settles when the test process closes: it resolves,
    and logs the success, exactly when the exit code is 0 and the output,
    all its data events put together, contains OK; otherwise it rejects
    with AI agent test failed with code N (code 0 included, when OK is
    missing) and logs the failure on the error console.  Before the
    process closes it is pending, and an error event that comes first
    rejects it with that error whatever follows. *)
Theorem X12_initialize (fs0 : FS) (frags : list string) (code : option Z) :
  let ok := code_is_zero code && includes (received frags) "OK" in
  let failure := mkError ("AI agent test failed with code " ++ show_code code) in
  let r := AIAgentStartup.initialize fs0 (map StdoutData frags ++ [Close code]) in
  AIAgentStartup.outcome r = Some (if ok then Resolved tt else Rejected failure)
  /\ AIAgentStartup.logged r
     = (if ok then ["AI Agent service initialized successfully"] else [])
  /\ console (AIAgentStartup.test r)
     = (if ok then []
        else ["Failed to initialize AI agent service: AI agent test failed with code "
              ++ show_code code])
  /\ AIAgentStartup.outcome (AIAgentStartup.initialize fs0 (map StdoutData frags)) = None
  /\ (forall e later,
      AIAgentStartup.outcome (AIAgentStartup.initialize fs0 (ProcError e :: later))
      = Some (Rejected e)).
Proof.
  cbn zeta.
  assert (E : snd (AIAgentStartup.testConnection fs0 (map StdoutData frags ++ [Close code]))
              = mkEnv (AIAgentService.mkOutput (received frags))
                      (Some (if code_is_zero code && includes (received frags) "OK"
                             then Resolved tt
                             else Rejected (mkError ("AI agent test failed with code "
                                                     ++ show_code code))))
                      fs0 [] []).
  { unfold AIAgentStartup.testConnection.
    rewrite (proj2 (test_run_app _ _ _)), test_run_data.
    cbn [snd run_events AIAgentStartup.test_handle]. unfold AIAgentStartup.test_on_close.
    run_out.
    destruct (code_is_zero code && includes (received frags) "OK"); reflexivity. }
  unfold AIAgentStartup.initialize. rewrite E. cbn [promise].
  split; [|split; [|split; [|split]]].
  - destruct (code_is_zero code && includes (received frags) "OK"); reflexivity.
  - destruct (code_is_zero code && includes (received frags) "OK"); reflexivity.
  - destruct (code_is_zero code && includes (received frags) "OK"); reflexivity.
  - unfold AIAgentStartup.testConnection. rewrite test_run_data. reflexivity.
  - intros e later.
    assert (Hp : promise (snd (AIAgentStartup.testConnection fs0 (ProcError e :: later)))
                 = Some (Rejected e)).
    { unfold AIAgentStartup.testConnection.
      change (ProcError e :: later) with ([ProcError e] ++ later)%list.
      rewrite (proj2 (test_run_app _ _ _)). apply test_settled. reflexivity. }
    rewrite Hp. reflexivity.
Qed.

(** ** handleSendMessage *)

Lemma for_lines_same_but_posts (A V : list ChatViewProvider.WebviewMessage)
    (q now : string) (lines : list string) (a v : ChatViewProvider.Request) :
  same_but_posts A V a v ->
  same_but_posts A V (snd (ChatViewProvider.for_lines q now lines a))
                     (snd (ChatViewProvider.for_lines q now lines v)).
Proof.
  revert a v. induction lines as [|line rest IH]; intros a v H; [exact H|].
  cbn [ChatViewProvider.for_lines].
  destruct a as [[ab af av aposted] ap afs acon adec].
  destruct v as [[vb vf vv vposted] vp vfs vcon vdec].
  destruct H as (T & Ha & Hv & Hb & Hf & Hview & Hp & Hd & Hfs).
  cbn in Ha, Hv, Hb, Hf, Hview, Hp, Hd, Hfs. subst.
  destruct (startsWith line "CHUNK:").
  - run_view. apply IH.
    destruct vv; cbn.
    + exists (T ++ [ChatViewProvider.StreamChunk (substring_from 6 line)])%list.
      cbn. rewrite !app_assoc. repeat split.
    + exists T. cbn. repeat split.
  - destruct (line =? "END_STREAM")%string.
    + run_view. destruct vv; cbn.
      * unlink_cases; exists (T ++ [ChatViewProvider.AddMessage "assistant" vf now])%list;
          cbn; rewrite ?app_assoc; repeat split.
      * unlink_cases; exists T; cbn; repeat split.
    + destruct (startsWith line "ERROR:").
      * run_view. exists T. cbn. repeat split.
      * apply IH. exists T. cbn. repeat split.
Qed.

Lemma handle_same_but_posts (A V : list ChatViewProvider.WebviewMessage)
    (q now : string) (ev : ProcEvent) (a v : ChatViewProvider.Request) :
  same_but_posts A V a v ->
  same_but_posts A V (snd (ChatViewProvider.handle q now ev a))
                     (snd (ChatViewProvider.handle q now ev v)).
Proof.
  intros H. destruct ev as [d|d|code|e]; cbn [ChatViewProvider.handle].
  - rewrite !view_on_stdout_data_lines.
    destruct H as (T & Ha & Hv & Hb & Hf & Hview & Hp & Hd & Hfs). rewrite Hb.
    apply for_lines_same_but_posts. exists T. cbn. repeat split; assumption.
  - exact H.
  - destruct a as [[ab af av aposted] ap afs acon adec].
    destruct v as [[vb vf vv vposted] vp vfs vcon vdec].
    destruct H as (T & Ha & Hv & Hb & Hf & Hview & Hp & Hd & Hfs).
    cbn in Ha, Hv, Hb, Hf, Hview, Hp, Hd, Hfs. subst.
    unfold ChatViewProvider.on_close. run_view.
    unlink_cases; destruct (code_is_zero code); cbn; exists T; cbn; repeat split.
  - destruct H as (T & Ha & Hv & Hb & Hf & Hview & Hp & Hd & Hfs).
    exists T. cbn. rewrite Hp. repeat split; assumption.
Qed.

Lemma run_events_run (q now : string) (evs : list ProcEvent) (v : ChatViewProvider.Request) :
  run_events (ChatViewProvider.handle q now) evs v = ChatViewProvider.run q now evs v.
Proof.
  revert v. induction evs as [|ev evs IH]; intros v; [reflexivity|].
  cbn [run_events ChatViewProvider.run]. unfold bind.
  destruct (ChatViewProvider.handle q now ev v) as [[[]|e] s']; [apply IH | reflexivity].
Qed.

Lemma run_same_but_posts (A V : list ChatViewProvider.WebviewMessage)
    (q now : string) (evs : list ProcEvent) (a v : ChatViewProvider.Request) :
  same_but_posts A V a v ->
  same_but_posts A V (snd (ChatViewProvider.run q now evs a))
                     (snd (ChatViewProvider.run q now evs v)).
Proof.
  revert a v. induction evs as [|ev evs IH]; intros a v H; [exact H|].
  rewrite !view_run_cons. apply IH, handle_same_but_posts, H.
Qed.

Lemma view_handle_promise_settled (q now : string) (ev : ProcEvent)
    (v : ChatViewProvider.Request) (o : Outcome unit) :
  promise v = Some o -> promise (snd (ChatViewProvider.handle q now ev v)) = Some o.
Proof.
  intros H. destruct ev as [d|d|code|e]; cbn [ChatViewProvider.handle].
  - rewrite view_on_stdout_data_lines.
    set (v0 := exec _ v). assert (H0 : promise v0 = Some o) by exact H.
    clearbody v0. clear H.
    induction (lines_of (ChatViewProvider.responseBuffer (locals v) ++ Buffer_toString d))
      as [|line rest IH] in v0, H0 |- *; [exact H0|].
    cbn [ChatViewProvider.for_lines].
    destruct (startsWith line "CHUNK:").
    + run_view. apply IH. exact H0.
    + destruct (line =? "END_STREAM")%string.
      * run_view. unlink_cases; rewrite H0; reflexivity.
      * destruct (startsWith line "ERROR:").
        -- run_view. rewrite H0. reflexivity.
        -- apply IH, H0.
  - exact H.
  - destruct (view_on_close_promise q code v) as (Hp & _). rewrite Hp, H. reflexivity.
  - cbn. rewrite H. reflexivity.
Qed.

Lemma view_run_promise_settled (q now : string) (evs : list ProcEvent)
    (v : ChatViewProvider.Request) (o : Outcome unit) :
  promise v = Some o -> promise (snd (ChatViewProvider.run q now evs v)) = Some o.
Proof.
  revert v. induction evs as [|ev evs IH]; intros v H; [exact H|].
  rewrite view_run_cons. apply IH, view_handle_promise_settled, H.
Qed.

Lemma after_send_posts (t1 : string) (o : Outcome unit) (a : ChatViewProvider.Request) :
  fst (ChatPanel.after_send t1 o a) = Normal tt
  /\ locals (snd (ChatPanel.after_send t1 o a))
     = ChatViewProvider.mkLocals
         (ChatViewProvider.responseBuffer (locals a))
         (ChatViewProvider.fullResponse (locals a))
         (ChatViewProvider.view (locals a))
         (ChatViewProvider.posted (locals a) ++ send_continuation t1 o)
  /\ promise (snd (ChatPanel.after_send t1 o a)) = promise a
  /\ decoded (snd (ChatPanel.after_send t1 o a)) = decoded a
  /\ fs (snd (ChatPanel.after_send t1 o a)) = fs a.
Proof.
  destruct o as [[]|e]; unfold ChatPanel.after_send, ChatPanel.postMessage; run_view.
  - repeat split.
  - rewrite <- app_assoc. repeat split.
Qed.

Lemma run_awaited_cons (q now t1 : string) (ev : ProcEvent) (evs : list ProcEvent)
    (a : ChatViewProvider.Request) :
  run_awaited (ChatViewProvider.handle q now) (ChatPanel.after_send t1) (ev :: evs) a
  = match promise (snd (ChatViewProvider.handle q now ev a)) with
    | Some o =>
        ChatViewProvider.run q now evs
          (snd (ChatPanel.after_send t1 o (snd (ChatViewProvider.handle q now ev a))))
    | None =>
        run_awaited (ChatViewProvider.handle q now) (ChatPanel.after_send t1) evs
          (snd (ChatViewProvider.handle q now ev a))
    end.
Proof.
  cbn [run_awaited]. unfold bind at 1.
  pose proof (view_handle_normal q now ev a) as Hn.
  destruct (ChatViewProvider.handle q now ev a) as [c a1]. cbn in Hn. subst c.
  unfold bind at 1, get_env. cbn [snd].
  destruct (promise a1) as [o|]; [|reflexivity].
  unfold bind at 1.
  pose proof (proj1 (after_send_posts t1 o a1)) as Hn2.
  destruct (ChatPanel.after_send t1 o a1) as [c a2]. cbn in Hn2. subst c.
  apply run_events_run.
Qed.

(** The awaiting run beside the plain run of the same events: until the
    promise settles both post the same; the continuation is posted after
    the events [evs1] that settle it. *)
Lemma run_awaited_beside_run (A : list ChatViewProvider.WebviewMessage)
    (q now t1 : string) (evs : list ProcEvent) (a v : ChatViewProvider.Request) :
  same_but_posts A [] a v ->
  promise v = None ->
  exists a',
    run_awaited (ChatViewProvider.handle q now) (ChatPanel.after_send t1) evs a
    = (Normal tt, a')
    /\ promise a' = promise (snd (ChatViewProvider.run q now evs v))
    /\ decoded a' = decoded (snd (ChatViewProvider.run q now evs v))
    /\ ChatViewProvider.view (locals a')
       = ChatViewProvider.view (locals (snd (ChatViewProvider.run q now evs v)))
    /\ match promise (snd (ChatViewProvider.run q now evs v)) with
       | None =>
           ChatViewProvider.posted (locals a')
           = (A ++ ChatViewProvider.posted
                     (locals (snd (ChatViewProvider.run q now evs v))))%list
       | Some o =>
           exists evs1 evs2 P2,
             evs = (evs1 ++ evs2)%list
             /\ evs1 <> []
             /\ promise (snd (ChatViewProvider.run q now evs1 v)) = Some o
             /\ promise (snd (ChatViewProvider.run q now (removelast evs1) v)) = None
             /\ ChatViewProvider.posted (locals (snd (ChatViewProvider.run q now evs v)))
                = (ChatViewProvider.posted
                     (locals (snd (ChatViewProvider.run q now evs1 v))) ++ P2)%list
             /\ ChatViewProvider.posted (locals a')
                = (A ++ ChatViewProvider.posted
                          (locals (snd (ChatViewProvider.run q now evs1 v)))
                   ++ send_continuation t1 o ++ P2)%list
       end.
Proof.
  revert a v. induction evs as [|ev evs IH]; intros a v H Hp.
  - exists a. cbn [run_awaited ChatViewProvider.run ret fst snd]. rewrite Hp.
    destruct H as (T & Ha & Hv & _ & _ & Hview & Hpr & Hd & _).
    cbn [app] in Hv. rewrite Ha, Hv. repeat split; congruence.
  - rewrite run_awaited_cons, view_run_cons.
    pose proof (handle_same_but_posts A [] q now ev a v H) as H1.
    set (a1 := snd (ChatViewProvider.handle q now ev a)) in *.
    set (v1 := snd (ChatViewProvider.handle q now ev v)) in *.
    destruct (promise a1) as [o|] eqn:Hpa.
    + (* the promise has settled in this turn *)
      destruct (after_send_posts t1 o a1) as (_ & Hl2 & Hp2 & Hd2 & Hf2).
      set (a2 := snd (ChatPanel.after_send t1 o a1)) in *.
      destruct H1 as (T & Ha & Hv & Hb & Hf & Hview & Hpr & Hd & Hfs).
      cbn [app] in Hv.
      assert (Hpv1 : promise v1 = Some o) by (rewrite <- Hpr; exact Hpa).
      assert (H2 : same_but_posts (A ++ T ++ send_continuation t1 o) T a2 v1).
      { exists []. rewrite Hl2. cbn. rewrite !app_nil_r, Ha, <- app_assoc.
        rewrite Hp2, Hd2, Hf2. repeat split; assumption. }
      pose proof (run_same_but_posts _ _ q now evs a2 v1 H2) as H3.
      destruct H3 as (T' & Ha' & Hv' & _ & _ & Hview' & Hpr' & Hd' & _).
      exists (snd (ChatViewProvider.run q now evs a2)).
      rewrite (view_run_promise_settled q now evs v1 o Hpv1).
      split.
      { rewrite (pair_eta (ChatViewProvider.run q now evs a2)) at 1.
        rewrite view_run_normal. reflexivity. }
      split; [rewrite Hpr'; apply view_run_promise_settled, Hpv1|].
      split; [exact Hd'|]. split; [exact Hview'|].
      exists [ev], evs, T'.
      rewrite (view_run_cons q now ev []).
      cbn [removelast ChatViewProvider.run ret snd]. fold v1.
      rewrite Hv. split; [reflexivity|]. split; [discriminate|].
      split; [exact Hpv1|]. split; [exact Hp|]. split; [exact Hv'|].
      rewrite Ha', <- !app_assoc. reflexivity.
    + (* still pending *)
      assert (Hpv1 : promise v1 = None).
      { destruct H1 as (T & _ & _ & _ & _ & _ & Hpr & _). rewrite <- Hpr. exact Hpa. }
      destruct (IH a1 v1 H1 Hpv1) as (a' & Hrun & Hp3 & Hd3 & Hview3 & Hposted).
      exists a'.
      split; [exact Hrun|]. split; [exact Hp3|]. split; [exact Hd3|]. split; [exact Hview3|].
      destruct (promise (snd (ChatViewProvider.run q now evs v1))) as [o|]; [|exact Hposted].
      destruct Hposted as (evs1 & evs2 & P2 & -> & Hne & Hs & Hpend & Hpv & Hpa').
      exists (ev :: evs1), evs2, P2.
      rewrite !view_run_cons. fold v1.
      split; [reflexivity|]. split; [discriminate|]. split; [exact Hs|].
      split.
      * destruct evs1 as [|ev1 evs1]; [contradiction|].
        change (removelast (ev :: ev1 :: evs1)) with (ev :: removelast (ev1 :: evs1)).
        rewrite view_run_cons. exact Hpend.
      * split; assumption.
Qed.

Lemma handleSendMessage_beside (that : ChatViewProvider.Provider)
    (message t0 now t1 : string) (fs0 : FS) (evs : list ProcEvent) :
  ChatViewProvider._view that = true ->
  let A := [ChatViewProvider.AddMessage "user" message t0; ChatViewProvider.Typing true] in
  let v := snd (ChatViewProvider.sendMessageToAgent that message now fs0 evs) in
  exists a',
    ChatPanel.handleSendMessage that message t0 now t1 fs0 evs = (Normal tt, a')
    /\ promise a' = promise v
    /\ decoded a' = decoded v
    /\ match promise v with
       | None =>
           ChatViewProvider.posted (locals a') = (A ++ ChatViewProvider.posted (locals v))%list
       | Some o =>
           exists evs1 evs2 P2,
             evs = (evs1 ++ evs2)%list
             /\ evs1 <> []
             /\ promise (snd (ChatViewProvider.sendMessageToAgent that message now fs0 evs1))
                = Some o
             /\ promise (snd (ChatViewProvider.sendMessageToAgent that message now fs0
                                (removelast evs1))) = None
             /\ ChatViewProvider.posted (locals v)
                = (ChatViewProvider.posted
                     (locals (snd (ChatViewProvider.sendMessageToAgent that message now fs0
                                     evs1))) ++ P2)%list
             /\ ChatViewProvider.posted (locals a')
                = (A ++ ChatViewProvider.posted
                          (locals (snd (ChatViewProvider.sendMessageToAgent that message now
                                          fs0 evs1)))
                   ++ send_continuation t1 o ++ P2)%list
       end.
Proof.
  intros Hv. cbn zeta.
  unfold ChatPanel.handleSendMessage, ChatViewProvider.sendMessageToAgent. rewrite Hv.
  cbn [negb]. unfold bind at 1 2 3, ChatPanel.postMessage, writeFileSync, set_locals, modify.
  cbn [locals promise fs console decoded ChatViewProvider.responseBuffer
       ChatViewProvider.fullResponse ChatViewProvider.view ChatViewProvider.posted app].
  match goal with
  | |- context [run_awaited _ _ evs ?a] =>
      destruct (run_awaited_beside_run
                  [ChatViewProvider.AddMessage "user" message t0; ChatViewProvider.Typing true]
                  (ChatViewProvider.sendMessageToAgent_scriptPath that) now t1 evs a
                  (ChatViewProvider.sendMessageToAgent_start that message fs0))
        as (a' & Hrun & Hp & Hd & _ & Hposted)
  end.
  - exists []. unfold ChatViewProvider.sendMessageToAgent_start, exec, writeFileSync, modify.
    cbn. rewrite Hv. repeat split.
  - reflexivity.
  - exists a'. split; [exact Hrun|]. split; [exact Hp|]. split; [exact Hd|]. exact Hposted.
Qed.

Lemma typing_flags_app (l1 l2 : list ChatViewProvider.WebviewMessage) :
  typing_flags (l1 ++ l2) = (typing_flags l1 ++ typing_flags l2)%list.
Proof.
  induction l1 as [|m l1 IH]; [reflexivity|].
  destruct m; cbn; rewrite ?IH; reflexivity.
Qed.

Lemma typing_flags_posts_of (now acc : string) (frames : list Frame) :
  typing_flags (posts_of now acc frames) = [].
Proof.
  revert acc. induction frames as [|f frames IH]; intros acc; [reflexivity|].
  destruct f; cbn; apply IH.
Qed.

Lemma typing_flags_continuation (t1 : string) (o : Outcome unit) :
  typing_flags (send_continuation t1 o) = [false].
Proof. destruct o; reflexivity. Qed.

Lemma view_posted_no_typing (that : ChatViewProvider.Provider) (message now : string)
    (fs0 : FS) (evs : list ProcEvent) :
  typing_flags (ChatViewProvider.posted
                  (locals (snd (ChatViewProvider.sendMessageToAgent that message now fs0 evs))))
  = [].
Proof.
  unfold ChatViewProvider.sendMessageToAgent.
  destruct (view_run_posts (ChatViewProvider.sendMessageToAgent_scriptPath that) now evs
              (ChatViewProvider.sendMessageToAgent_start that message fs0)
              (view_start_posts that message now fs0)) as (_ & ->).
  destruct (ChatViewProvider.view _); [apply typing_flags_posts_of | reflexivity].
Qed.

(** X14. handleSendMessage without a view does nothing: no script is
    written and nothing is posted.  With a view it never raises, it
    settles as sendMessageToAgent does, and whatever the process delivers
    it posts the typing indicator twice at most: on at the start and off
    once the request has settled, however it settled; while the request
    is pending the indicator stays on. *)
Theorem X14_typing_indicator (that : ChatViewProvider.Provider)
    (message t0 now t1 : string) (fs0 : FS) (evs : list ProcEvent) :
  let r := ChatPanel.handleSendMessage that message t0 now t1 fs0 evs in
  (ChatViewProvider._view that = false ->
   r = (Normal tt, mkEnv (ChatViewProvider.mkLocals "" "" false []) None fs0 [] []))
  /\ (ChatViewProvider._view that = true ->
      fst r = Normal tt
      /\ promise (snd r)
         = promise (snd (ChatViewProvider.sendMessageToAgent that message now fs0 evs))
      /\ typing_flags (ChatViewProvider.posted (locals (snd r)))
         = match promise (snd r) with
           | Some _ => [true; false]
           | None => [true]
           end).
Proof.
  cbn zeta. split.
  - intros Hv. unfold ChatPanel.handleSendMessage. rewrite Hv. reflexivity.
  - intros Hv.
    destruct (handleSendMessage_beside that message t0 now t1 fs0 evs Hv)
      as (a' & -> & Hp & _ & Hposted).
    cbn [fst snd]. split; [reflexivity|]. split; [exact Hp|].
    rewrite Hp.
    pose proof (view_posted_no_typing that message now fs0 evs) as Hnone.
    destruct (promise (snd (ChatViewProvider.sendMessageToAgent that message now fs0 evs)))
      as [o|].
    + destruct Hposted as (evs1 & evs2 & P2 & _ & _ & _ & _ & Hpv & ->).
      rewrite Hpv, typing_flags_app in Hnone. apply app_eq_nil in Hnone.
      destruct Hnone as (H1 & H2).
      cbn [app typing_flags].
      rewrite !typing_flags_app, H1, H2, typing_flags_continuation. reflexivity.
    + rewrite Hposted. cbn [app typing_flags]. rewrite Hnone. reflexivity.
Qed.

(** A view, a stream with an error line, an exit with code 1. *)
Lemma X14_typing_indicator_witness :
  let that := ChatViewProvider.resolveWebviewView ChatViewProvider.constructor in
  ChatViewProvider._view that = true
  /\ typing_flags
       (ChatViewProvider.posted
          (locals (snd (ChatPanel.handleSendMessage that "hi" "t0" "now" "t1" fs_empty
                          [StdoutData error_stream; Close (Some 1%Z)]))))
     = [true; false].
Proof.
  cbv zeta. split; [reflexivity|].
  destruct (proj2 (X14_typing_indicator
                     (ChatViewProvider.resolveWebviewView ChatViewProvider.constructor)
                     "hi" "t0" "now" "t1" fs_empty
                     [StdoutData error_stream; Close (Some 1%Z)]) eq_refl)
    as (_ & _ & H).
  exact H.
Defined.

Lemma for_lines_decoded_grows (p : string) (lines : list string)
    (st : AIAgentService.Request) :
  exists X, decoded (snd (AIAgentService.for_lines p lines st)) = (decoded st ++ X)%list.
Proof.
  revert st. induction lines as [|line rest IH]; intros st.
  - exists []. cbn. now rewrite app_nil_r.
  - cbn [AIAgentService.for_lines].
    destruct (startsWith line "CHUNK:").
    + run_eff.
      match goal with
      | |- context [AIAgentService.for_lines p rest ?s] => destruct (IH s) as (X & ->)
      end.
      cbn. rewrite <- app_assoc. eauto.
    + destruct (line =? "END_STREAM")%string.
      * run_eff. unlink_cases; eauto.
      * destruct (startsWith line "ERROR:"); [run_eff; eauto | apply IH].
Qed.

Lemma run_decoded_grows (p : string) (evs : list ProcEvent) (st : AIAgentService.Request) :
  exists X, decoded (snd (AIAgentService.run p evs st)) = (decoded st ++ X)%list.
Proof.
  revert st. induction evs as [|ev evs IH]; intros st.
  - exists []. cbn. now rewrite app_nil_r.
  - rewrite run_cons. destruct (IH (snd (AIAgentService.handle p ev st))) as (X & ->).
    destruct ev as [d|d|code|e]; cbn [AIAgentService.handle].
    + rewrite on_stdout_data_lines.
      match goal with
      | |- context [AIAgentService.for_lines p ?l ?s] =>
          destruct (for_lines_decoded_grows p l s) as (Y & ->)
      end.
      cbn. rewrite <- app_assoc. eauto.
    + cbn. eauto.
    + destruct (on_close_promise p code st) as (_ & -> & _). eauto.
    + cbn. eauto.
Qed.

Lemma app_eq_snoc_cases {A} (l1 l2 l : list A) (x : A) :
  (l1 ++ l2 = l ++ [x])%list ->
  (exists l', l = (l1 ++ l')%list) \/ (l1 = (l ++ [x])%list /\ l2 = []).
Proof.
  revert l. induction l1 as [|a l1 IH]; intros l H.
  - left. exists l. reflexivity.
  - destruct l as [|b l].
    + cbn in H. injection H as -> H. destruct l1; [|discriminate].
      cbn in H. subst l2. right. split; reflexivity.
    + cbn in H. injection H as -> H. destruct (IH l H) as [(l' & ->) | (-> & ->)].
      * left. exists l'. reflexivity.
      * right. split; reflexivity.
Qed.

Lemma first_terminal_chunks (chunks : list string) : first_terminal (map Chunk chunks) = None.
Proof. induction chunks as [|c chunks IH]; [reflexivity | exact IH]. Qed.

Lemma terminal_frame_last_chunks (chunks : list string) (tail : list Frame) :
  length tail <= 1 -> terminal_frame_last (map Chunk chunks ++ tail).
Proof.
  intros Ht. induction chunks as [|c chunks IH]; intros D1 D2 H Hterm.
  - cbn [map app] in H. destruct D1 as [|f D1]; [contradiction Hterm; reflexivity|].
    destruct tail as [|t [|t' tail]]; cbn in Ht; try lia; try discriminate H.
    injection H as _ H. destruct D1; [|discriminate H]. cbn in H. now subst D2.
  - cbn [map app] in H. destruct D1 as [|f D1]; [contradiction Hterm; reflexivity|].
    injection H as <- H. cbn [first_terminal] in Hterm. exact (IH D1 D2 H Hterm).
Qed.

Lemma view_data_first_terminal (that : ChatViewProvider.Provider) (message now : string)
    (fs0 : FS) (frags : list string) :
  let v := snd (ChatViewProvider.sendMessageToAgent that message now fs0
                  (map StdoutData frags)) in
  promise v = first_terminal (decoded v).
Proof.
  cbn zeta. unfold ChatViewProvider.sendMessageToAgent.
  destruct (agree_run (AIAgentService.sendMessage_scriptPath AIAgentService.constructor)
              (ChatViewProvider.sendMessageToAgent_scriptPath that) now
              (map StdoutData frags) _ _
              (agree_start AIAgentService.constructor that message message None fs0 fs0))
    as [_ Hp Hd _].
  rewrite <- Hp, <- Hd. apply run_data_first_terminal. reflexivity.
Qed.

Lemma view_decoded_grows (that : ChatViewProvider.Provider) (message now : string)
    (fs0 : FS) (evs1 evs2 : list ProcEvent) :
  exists X,
    decoded (snd (ChatViewProvider.sendMessageToAgent that message now fs0 (evs1 ++ evs2)))
    = (decoded (snd (ChatViewProvider.sendMessageToAgent that message now fs0 evs1))
       ++ X)%list.
Proof.
  unfold ChatViewProvider.sendMessageToAgent.
  pose proof (fun l =>
                agree_run (AIAgentService.sendMessage_scriptPath AIAgentService.constructor)
                  (ChatViewProvider.sendMessageToAgent_scriptPath that) now l _ _
                  (agree_start AIAgentService.constructor that message message None fs0 fs0))
    as Hag.
  destruct (Hag evs1) as [_ _ Hd1 _]. destruct (Hag (evs1 ++ evs2)%list) as [_ _ Hd2 _].
  rewrite <- Hd1, <- Hd2, run_app. apply run_decoded_grows.
Qed.

Lemma view_close_after (that : ChatViewProvider.Provider) (message now : string)
    (fs0 : FS) (evs : list ProcEvent) (code : option Z) :
  let v := snd (ChatViewProvider.sendMessageToAgent that message now fs0 evs) in
  let v' := snd (ChatViewProvider.sendMessageToAgent that message now fs0
                   (evs ++ [Close code])) in
  promise v' = settle (exit_outcome code) (promise v)
  /\ decoded v' = decoded v
  /\ locals v' = locals v.
Proof.
  cbn zeta. unfold ChatViewProvider.sendMessageToAgent.
  rewrite view_run_app, view_run_cons.
  cbn [ChatViewProvider.run ret snd ChatViewProvider.handle].
  apply view_on_close_promise.
Qed.

(** What handleSendMessage has posted once the process has closed. *)
Lemma handleSendMessage_posted (that : ChatViewProvider.Provider)
    (message t0 now t1 : string) (fs0 : FS) (frags : list string) (code : option Z) :
  ChatViewProvider._view that = true ->
  let D := decoded (snd (ChatViewProvider.sendMessageToAgent that message now fs0
                           (map StdoutData frags))) in
  terminal_frame_last D ->
  let r := ChatPanel.handleSendMessage that message t0 now t1 fs0
             (map StdoutData frags ++ [Close code]) in
  let o := match first_terminal D with
           | Some o => o
           | None => exit_outcome code
           end in
  fst r = Normal tt
  /\ promise (snd r) = Some o
  /\ ChatViewProvider.posted (locals (snd r))
     = ([ChatViewProvider.AddMessage "user" message t0; ChatViewProvider.Typing true]
        ++ posts_of now "" D ++ send_continuation t1 o)%list.
Proof.
  intros Hv. cbn zeta. intros Hlast.
  set (D := decoded (snd (ChatViewProvider.sendMessageToAgent that message now fs0
                            (map StdoutData frags)))) in *.
  destruct (view_close_after that message now fs0 (map StdoutData frags) code)
    as (Hp' & Hd' & Hl').
  cbn zeta in Hp', Hd', Hl'.
  rewrite (view_data_first_terminal that message now fs0 frags) in Hp'. fold D in Hp'.
  assert (Hposted : forall evs,
             ChatViewProvider.posted
               (locals (snd (ChatViewProvider.sendMessageToAgent that message now fs0 evs)))
             = posts_of now ""
                 (decoded (snd (ChatViewProvider.sendMessageToAgent that message now fs0 evs)))).
  { intros evs. unfold ChatViewProvider.sendMessageToAgent.
    destruct (view_run_posts (ChatViewProvider.sendMessageToAgent_scriptPath that) now evs
                (ChatViewProvider.sendMessageToAgent_start that message fs0)
                (view_start_posts that message now fs0)) as (_ & ->).
    rewrite view_run_view.
    change (ChatViewProvider.view
              (locals (ChatViewProvider.sendMessageToAgent_start that message fs0)))
      with (ChatViewProvider._view that).
    rewrite Hv. reflexivity. }
  destruct (handleSendMessage_beside that message t0 now t1 fs0
              (map StdoutData frags ++ [Close code]) Hv) as (a' & -> & Hp & _ & Hstruct).
  cbn [fst snd]. rewrite Hp' in Hp, Hstruct.
  assert (Ho : settle (exit_outcome code) (first_terminal D)
               = Some match first_terminal D with
                      | Some o => o
                      | None => exit_outcome code
                      end) by (destruct (first_terminal D); reflexivity).
  rewrite Ho in Hp, Hstruct.
  split; [reflexivity|]. split; [exact Hp|].
  destruct Hstruct as (evs1 & evs2 & P2 & Hevs & Hne & Hs1 & _ & Hpv & ->).
  rewrite (Hposted (map StdoutData frags ++ [Close code])%list), Hd' in Hpv. fold D in Hpv.
  assert (H1 : ChatViewProvider.posted
                 (locals (snd (ChatViewProvider.sendMessageToAgent that message now fs0 evs1)))
               = posts_of now "" D).
  { rewrite Hposted.
    destruct (app_eq_snoc_cases evs1 evs2 _ _ (eq_sym Hevs)) as [(l' & Hl) | (-> & _)].
    - apply map_eq_app in Hl.
      destruct Hl as (f1 & f2 & -> & <- & <-).
      pose proof (view_data_first_terminal that message now fs0 f1) as Hft.
      cbn zeta in Hft. rewrite Hs1 in Hft.
      destruct (view_decoded_grows that message now fs0 (map StdoutData f1)
                  (map StdoutData f2)) as (X & HX).
      rewrite <- map_app in HX. fold D in HX.
      assert (X = []) as ->.
      { apply (Hlast _ X HX). rewrite <- Hft. discriminate. }
      rewrite app_nil_r in HX. now rewrite HX.
    - now rewrite Hd'. }
  rewrite H1 in Hpv |- *.
  assert (P2 = []) as ->.
  { apply (app_inv_head (posts_of now "" D)). now rewrite app_nil_r. }
  rewrite app_nil_r. reflexivity.
Qed.

(** X13. What handleSendMessage posts for a process that writes its
    output and closes, when no frame follows an End or Error frame: the
    user message, typing on, the posts of sendMessageToAgent for the
    decoded frames, then, when the request was rejected, an assistant
    message Error: followed by the error as a string (Error: and its
    message), and typing off.  The request settles by the terminal frame
    if there is one and by the exit code otherwise. *)
Theorem X13_handleSendMessage_posts (that : ChatViewProvider.Provider)
    (message t0 now t1 : string) (fs0 : FS) (frags : list string) (code : option Z) :
  ChatViewProvider._view that = true ->
  let D := decoded (snd (ChatViewProvider.sendMessageToAgent that message now fs0
                           (map StdoutData frags))) in
  terminal_frame_last D ->
  let r := ChatPanel.handleSendMessage that message t0 now t1 fs0
             (map StdoutData frags ++ [Close code]) in
  let o := match first_terminal D with
           | Some o => o
           | None => exit_outcome code
           end in
  fst r = Normal tt
  /\ promise (snd r) = Some o
  /\ ChatViewProvider.posted (locals (snd r))
     = ([ChatViewProvider.AddMessage "user" message t0; ChatViewProvider.Typing true]
        ++ posts_of now "" D ++ send_continuation t1 o)%list.
Proof. exact (handleSendMessage_posted that message t0 now t1 fs0 frags code). Qed.

(** A stream with a chunk and an error, an exit with code 1. *)
Lemma X13_handleSendMessage_posts_witness :
  let that := ChatViewProvider.resolveWebviewView ChatViewProvider.constructor in
  ChatViewProvider._view that = true
  /\ terminal_frame_last
       (decoded (snd (ChatViewProvider.sendMessageToAgent that "hi" "now" fs_empty
                        (map StdoutData [error_stream]))))
  /\ ChatViewProvider.posted
       (locals (snd (ChatPanel.handleSendMessage that "hi" "t0" "now" "t1" fs_empty
                       (map StdoutData [error_stream] ++ [Close (Some 1%Z)]))))
     = [ChatViewProvider.AddMessage "user" "hi" "t0"; ChatViewProvider.Typing true;
        ChatViewProvider.StreamChunk "x";
        ChatViewProvider.AddMessage "assistant" "Error: Error: boom" "t1";
        ChatViewProvider.Typing false].
Proof.
  cbv zeta.
  assert (H : terminal_frame_last
                (decoded (snd (ChatViewProvider.sendMessageToAgent
                                 (ChatViewProvider.resolveWebviewView
                                    ChatViewProvider.constructor)
                                 "hi" "now" fs_empty (map StdoutData [error_stream]))))).
  { change (decoded _) with (map Chunk ["x"] ++ [Error_ "boom"])%list.
    apply terminal_frame_last_chunks. cbn. lia. }
  split; [reflexivity|]. split; [exact H|].
  destruct (X13_handleSendMessage_posts
              (ChatViewProvider.resolveWebviewView ChatViewProvider.constructor)
              "hi" "t0" "now" "t1" fs_empty [error_stream] (Some 1%Z) eq_refl H)
    as (_ & _ & Hposted).
  exact Hposted.
Defined.

(** ** handleClearChat *)

Lemma view_clear_on_close_result (p : string) (code : option Z)
    (st : ChatViewProvider.ClearRequest) :
  exists f' c',
    ChatViewProvider.clear_on_close p code st
    = (Normal tt,
       mkEnv (locals st)
             (settle (if code_is_zero code
                         && includes (ChatViewProvider.output (locals st)) "SUCCESS"
                      then Resolved tt
                      else Rejected (mkError "Failed to clear session"))
                     (promise st))
             f' c' (decoded st)).
Proof.
  unfold ChatViewProvider.clear_on_close. unfold bind at 1.
  destruct (try_unlink_result p st) as (f' & c' & ->).
  exists f', c'. unfold bind, get_locals. cbn [locals].
  destruct (code_is_zero code && includes (ChatViewProvider.output (locals st)) "SUCCESS");
    reflexivity.
Qed.

Lemma clear_chat_data (this : ChatViewProvider.Provider) (p : string)
    (frags : list string) (evs : list ProcEvent) (st : ChatPanel.ClearChat) :
  promise st = None ->
  run_awaited (fun ev => zoom (ChatViewProvider.clear_handle p ev))
              (ChatPanel.after_clear this) (map StdoutData frags ++ evs) st
  = run_awaited (fun ev => zoom (ChatViewProvider.clear_handle p ev))
                (ChatPanel.after_clear this) evs
      (mkEnv (ChatViewProvider.mkOutput
                (ChatViewProvider.output (fst (locals st)) ++ received frags),
              snd (locals st))
             (promise st) (fs st) (console st) (decoded st)).
Proof.
  revert st. induction frags as [|f frags IH]; intros st Hp.
  - cbn [map app concat_all]. rewrite append_empty_r.
    destruct st as [[[o] w] pr fsys c d]. reflexivity.
  - cbn [map app run_awaited concat_all].
    unfold bind at 1, zoom at 1. cbn [ChatViewProvider.clear_handle].
    unfold set_locals, modify. cbn [locals promise fs console decoded fst snd].
    unfold bind at 1, get_env. cbn [promise]. rewrite Hp.
    rewrite IH by reflexivity.
    cbn [locals promise fs console decoded fst snd ChatViewProvider.output].
    rewrite append_assoc. reflexivity.
Qed.

(** The request of handleClearChat once the process has closed. *)
Lemma handleClearChat_closed (this : ChatViewProvider.Provider) (fs0 : FS)
    (frags : list string) (code : option Z) :
  exists f' c',
  ChatPanel.handleClearChat this fs0 (map StdoutData frags ++ [Close code])
  = (Normal tt,
     mkEnv (ChatViewProvider.mkOutput (received frags),
            if code_is_zero code && includes (received frags) "SUCCESS"
               && ChatViewProvider._view this
            then [ChatViewProvider.ClearMessages] else [])
           (Some (if code_is_zero code && includes (received frags) "SUCCESS"
                  then Resolved tt
                  else Rejected (mkError "Failed to clear session")))
           f'
           (c' ++ if code_is_zero code && includes (received frags) "SUCCESS"
                  then []
                  else ["Error clearing chat: Failed to clear session"])
           []).
Proof.
  unfold ChatPanel.handleClearChat.
  unfold bind at 1, writeFileSync, modify.
  cbn [locals promise fs console decoded].
  rewrite clear_chat_data by reflexivity.
  cbn [run_awaited locals promise fs console decoded fst snd ChatViewProvider.output].
  unfold bind at 1, zoom at 1. cbn [ChatViewProvider.clear_handle].
  match goal with
  | |- context [ChatViewProvider.clear_on_close ?p ?c ?st] =>
      destruct (view_clear_on_close_result p c st) as (f' & c' & ->)
  end.
  cbn [locals promise fs console decoded fst snd ChatViewProvider.output settle].
  unfold bind at 1, get_env. cbn [promise].
  change ("" ++ received frags) with (received frags).
  exists f', c'.
  destruct (code_is_zero code && includes (received frags) "SUCCESS");
    unfold ChatPanel.after_clear; cbn [andb].
  - destruct (ChatViewProvider._view this); cbn; rewrite app_nil_r; reflexivity.
  - cbn. reflexivity.
Qed.

(** The request of handleClearChat at an error event of the process. *)
Lemma handleClearChat_error (this : ChatViewProvider.Provider) (fs0 : FS)
    (frags : list string) (e : Error) :
  exists f',
    ChatPanel.handleClearChat this fs0 (map StdoutData frags ++ [ProcError e])
    = (Throw e, mkEnv (ChatViewProvider.mkOutput (received frags), []) None f' [] []).
Proof.
  unfold ChatPanel.handleClearChat.
  unfold bind at 1, writeFileSync, modify.
  cbn [locals promise fs console decoded].
  rewrite clear_chat_data by reflexivity.
  eexists. reflexivity.
Qed.

(** X15. handleClearChat tells the webview to clear its messages only
    when the clear process has closed with exit code 0 and its output, the
    text of all data events put together, contains SUCCESS, and only when
    a view is set; before the process closes nothing is posted; when the
    process closes otherwise nothing is posted either and Error clearing
    chat: with the error Failed to clear session is logged on the error
    console.  An error event of the
    process, such as a failure to start it, is not handled at all:
    clearAgentSession has no listener for it, so the error is thrown in
    the turn of the event, the promise stays pending, and handleClearChat
    neither posts nor logs anything. *)
Theorem X15_handleClearChat (this : ChatViewProvider.Provider) (fs0 : FS)
    (frags : list string) (code : option Z) :
  let ok := code_is_zero code && includes (received frags) "SUCCESS" in
  let r := ChatPanel.handleClearChat this fs0 (map StdoutData frags ++ [Close code]) in
  let pending := ChatPanel.handleClearChat this fs0 (map StdoutData frags) in
  fst r = Normal tt
  /\ promise (snd r)
     = Some (if ok then Resolved tt else Rejected (mkError "Failed to clear session"))
  /\ snd (locals (snd r))
     = (if ok && ChatViewProvider._view this then [ChatViewProvider.ClearMessages] else [])
  /\ (ok = false ->
      exists c, console (snd r) = (c ++ ["Error clearing chat: Failed to clear session"])%list)
  /\ promise (snd pending) = None
  /\ snd (locals (snd pending)) = []
  /\ (forall e,
      let failed := ChatPanel.handleClearChat this fs0
                      (map StdoutData frags ++ [ProcError e]) in
      fst failed = Throw e
      /\ promise (snd failed) = None
      /\ snd (locals (snd failed)) = []
      /\ console (snd failed) = []).
Proof.
  cbn zeta.
  destruct (handleClearChat_closed this fs0 frags code) as (f' & c' & ->). cbn [fst snd locals promise console].
  split; [reflexivity|]. split; [reflexivity|]. split; [reflexivity|]. split.
  { intros ->. exists c'. reflexivity. }
  split; [|split].
  - unfold ChatPanel.handleClearChat.
    unfold bind at 1, writeFileSync, modify.
    cbn [locals promise fs console decoded].
    rewrite <- (app_nil_r (map StdoutData frags)), clear_chat_data by reflexivity.
    reflexivity.
  - unfold ChatPanel.handleClearChat.
    unfold bind at 1, writeFileSync, modify.
    cbn [locals promise fs console decoded].
    rewrite <- (app_nil_r (map StdoutData frags)), clear_chat_data by reflexivity.
    reflexivity.
  - intros e. destruct (handleClearChat_error this fs0 frags e) as (f1 & ->).
    repeat split.
Qed.

(** A clear process that reports a failure and exits with code 0. *)
Lemma X15_handleClearChat_witness :
  code_is_zero (Some 0%Z) && includes (received ["FAILED"]) "SUCCESS" = false
  /\ exists c,
       console (snd (ChatPanel.handleClearChat
                       (ChatViewProvider.resolveWebviewView ChatViewProvider.constructor)
                       fs_empty (map StdoutData ["FAILED"] ++ [Close (Some 0%Z)])))
       = (c ++ ["Error clearing chat: Failed to clear session"])%list.
Proof.
  split; [reflexivity|].
  destruct (X15_handleClearChat
              (ChatViewProvider.resolveWebviewView ChatViewProvider.constructor)
              fs_empty ["FAILED"] (Some 0%Z)) as (_ & _ & _ & H & _).
  exact (H eq_refl).
Defined.

(** ** The script of the webview *)

Lemma receive_app (now : string) (l1 l2 : list ChatViewProvider.WebviewMessage)
    (pg : WebviewScript.Page) :
  WebviewScript.receive now (l1 ++ l2) pg
  = WebviewScript.receive now l2 (WebviewScript.receive now l1 pg).
Proof. apply fold_left_app. Qed.

Lemma append_text_at (pre post : list WebviewScript.Bubble) (b : WebviewScript.Bubble)
    (text : string) :
  WebviewScript.append_text (length pre) text (pre ++ b :: post)
  = (pre ++ WebviewScript.mkBubble (WebviewScript.className b) (WebviewScript.header b)
              (WebviewScript.textContent b ++ text) :: post)%list.
Proof.
  induction pre as [|x pre IH]; [reflexivity|].
  cbn [length app WebviewScript.append_text]. rewrite IH. reflexivity.
Qed.

(** Chunks received while [currentAssistantMessage] refers to an element. *)
Lemma receive_chunks_current (now : string) (chunks : list string)
    (pre post : list WebviewScript.Bubble) (b : WebviewScript.Bubble)
    (input : string) (sent : list WebviewScript.ToHost) :
  WebviewScript.receive now (map ChatViewProvider.StreamChunk chunks)
    (WebviewScript.mkPage (pre ++ b :: post) (Some (length pre)) input sent)
  = WebviewScript.mkPage
      (pre ++ WebviewScript.mkBubble (WebviewScript.className b) (WebviewScript.header b)
                (WebviewScript.textContent b ++ concat_all chunks) :: post)
      (Some (length pre)) input sent.
Proof.
  revert b. induction chunks as [|c chunks IH]; intros b.
  - cbn. rewrite append_empty_r. destruct b; reflexivity.
  - cbn [map WebviewScript.receive fold_left WebviewScript.on_message
         WebviewScript.currentAssistantMessage WebviewScript.chatMessages
         WebviewScript.chatInput WebviewScript.toHost concat_all].
    rewrite append_text_at.
    change (fold_left (fun p m => WebviewScript.on_message now m p)
              (map ChatViewProvider.StreamChunk chunks) ?pg)
      with (WebviewScript.receive now (map ChatViewProvider.StreamChunk chunks) pg).
    rewrite IH. cbn [WebviewScript.className WebviewScript.header WebviewScript.textContent].
    rewrite append_assoc. reflexivity.
Qed.

(** Chunks received while [currentAssistantMessage] is null. *)
Lemma receive_chunks_fresh (now : string) (c : string) (chunks : list string)
    (bubbles : list WebviewScript.Bubble) (input : string)
    (sent : list WebviewScript.ToHost) :
  WebviewScript.receive now (map ChatViewProvider.StreamChunk (c :: chunks))
    (WebviewScript.mkPage bubbles None input sent)
  = WebviewScript.mkPage
      (bubbles ++ [WebviewScript.mkBubble "message assistant-message" "Data Agent"
                     (concat_all (c :: chunks))])
      (Some (length bubbles)) input sent.
Proof.
  cbn [map WebviewScript.receive fold_left WebviewScript.on_message
       WebviewScript.currentAssistantMessage WebviewScript.addMessage
       WebviewScript.set_current WebviewScript.chatMessages
       WebviewScript.chatInput WebviewScript.toHost concat_all].
  change ("assistant" =? "user")%string with false. cbv iota.
  rewrite append_text_at.
  change (fold_left (fun p m => WebviewScript.on_message now m p)
            (map ChatViewProvider.StreamChunk chunks) ?pg)
    with (WebviewScript.receive now (map ChatViewProvider.StreamChunk chunks) pg).
  rewrite receive_chunks_current.
  cbn [WebviewScript.className WebviewScript.header WebviewScript.textContent].
  reflexivity.
Qed.

(** X16. The chunks the webview receives are appended, in order, to the
    one content element that currentAssistantMessage refers to, wherever
    that element stands among the messages: messages added after it are
    left as they are and do not receive the text.  When
    currentAssistantMessage is null the first chunk starts a new assistant
    message at the end, which then receives all the chunks. *)
Theorem X16_chunks_fill_one_bubble (now : string) (chunks : list string)
    (pg : WebviewScript.Page) :
  (forall pre b post,
      WebviewScript.chatMessages pg = (pre ++ b :: post)%list ->
      WebviewScript.currentAssistantMessage pg = Some (length pre) ->
      WebviewScript.receive now (map ChatViewProvider.StreamChunk chunks) pg
      = WebviewScript.mkPage
          (pre ++ WebviewScript.mkBubble (WebviewScript.className b)
                    (WebviewScript.header b)
                    (WebviewScript.textContent b ++ concat_all chunks) :: post)
          (Some (length pre)) (WebviewScript.chatInput pg) (WebviewScript.toHost pg))
  /\ (WebviewScript.currentAssistantMessage pg = None ->
      chunks <> [] ->
      WebviewScript.receive now (map ChatViewProvider.StreamChunk chunks) pg
      = WebviewScript.mkPage
          (WebviewScript.chatMessages pg
           ++ [WebviewScript.mkBubble "message assistant-message" "Data Agent"
                 (concat_all chunks)])
          (Some (length (WebviewScript.chatMessages pg)))
          (WebviewScript.chatInput pg) (WebviewScript.toHost pg)).
Proof.
  destruct pg as [bubbles cur input sent]. cbn [WebviewScript.chatMessages
    WebviewScript.currentAssistantMessage WebviewScript.chatInput WebviewScript.toHost].
  split.
  - intros pre b post -> ->. apply receive_chunks_current.
  - intros -> Hne. destruct chunks as [|c chunks]; [contradiction|].
    apply receive_chunks_fresh.
Qed.

(** Chunks that arrive while the first of three messages is current. *)
Lemma X16_chunks_fill_one_bubble_witness :
  let b := WebviewScript.mkBubble "message assistant-message" "Data Agent" "Hel" in
  let you := WebviewScript.mkBubble "message user-message" "You" "next" in
  let pg := WebviewScript.mkPage [WebviewScript.greeting; b; you] (Some 1) "" [] in
  WebviewScript.chatMessages pg = ([WebviewScript.greeting] ++ b :: [you])%list
  /\ WebviewScript.currentAssistantMessage pg = Some (length [WebviewScript.greeting])
  /\ WebviewScript.chatMessages
       (WebviewScript.receive "now" (map ChatViewProvider.StreamChunk ["lo"; "!"]) pg)
     = [WebviewScript.greeting;
        WebviewScript.mkBubble "message assistant-message" "Data Agent" "Hello!";
        you].
Proof.
  cbv zeta. split; [reflexivity|]. split; [reflexivity|].
  rewrite (proj1 (X16_chunks_fill_one_bubble "now" ["lo"; "!"]
                    (WebviewScript.mkPage
                       [WebviewScript.greeting;
                        WebviewScript.mkBubble "message assistant-message" "Data Agent" "Hel";
                        WebviewScript.mkBubble "message user-message" "You" "next"]
                       (Some 1) "" []))
             [WebviewScript.greeting]
             (WebviewScript.mkBubble "message assistant-message" "Data Agent" "Hel")
             [WebviewScript.mkBubble "message user-message" "You" "next"]
             eq_refl eq_refl).
  reflexivity.
Defined.

(** The input of the webview *)

(** X17. The webview posts a message to the extension only for an input
    that is not blank: sendMessage on an input of white space alone
    changes nothing (nothing is posted, the input is kept), and on any
    other input it posts the trimmed input, which is not empty, and
    empties the input.  The Enter key without Shift does the same; any
    other key, and Enter with Shift, does nothing. *)
Theorem X17_blank_input_not_sent (pg : WebviewScript.Page) :
  (all_space (WebviewScript.chatInput pg) = true -> WebviewScript.sendMessage pg = pg)
  /\ (all_space (WebviewScript.chatInput pg) = false ->
      WebviewScript.sendMessage pg
      = WebviewScript.mkPage (WebviewScript.chatMessages pg)
          (WebviewScript.currentAssistantMessage pg) ""
          (WebviewScript.toHost pg
           ++ [WebviewScript.SendMessage (trim (WebviewScript.chatInput pg))])
      /\ trim (WebviewScript.chatInput pg) <> "")
  /\ (forall e,
      WebviewScript.on_keypress e pg
      = if (WebviewScript.key e =? "Enter")%string && negb (WebviewScript.shiftKey e)
        then WebviewScript.sendMessage pg else pg).
Proof.
  split; [|split].
  - intros H. unfold WebviewScript.sendMessage. rewrite trim_empty, H. reflexivity.
  - intros H. unfold WebviewScript.sendMessage. rewrite trim_empty, H.
    split; [reflexivity|].
    intros Ht. pose proof (trim_empty (WebviewScript.chatInput pg)) as E.
    rewrite Ht, H in E. discriminate E.
  - intros e. reflexivity.
Qed.

(** An input of blanks, and an input with text between blanks. *)
Lemma X17_blank_input_not_sent_witness :
  let blank := WebviewScript.type_input (" " ++ nbsp) WebviewScript.initial in
  let text := WebviewScript.type_input (nbsp ++ " hi there ") WebviewScript.initial in
  all_space (WebviewScript.chatInput blank) = true
  /\ WebviewScript.toHost (WebviewScript.sendMessage blank) = []
  /\ all_space (WebviewScript.chatInput text) = false
  /\ WebviewScript.toHost (WebviewScript.sendMessage text)
     = [WebviewScript.SendMessage "hi there"].
Proof.
  cbv zeta. split; [reflexivity|]. split.
  - rewrite (proj1 (X17_blank_input_not_sent
                      (WebviewScript.type_input (" " ++ nbsp) WebviewScript.initial)) eq_refl).
    reflexivity.
  - split; [reflexivity|].
    rewrite (proj1 (proj1 (proj2 (X17_blank_input_not_sent
                                    (WebviewScript.type_input (nbsp ++ " hi there ")
                                       WebviewScript.initial))) eq_refl)).
    reflexivity.
Defined.

(** ** A request seen from the webview *)

Lemma receive_cons (now : string) (m : ChatViewProvider.WebviewMessage)
    (ms : list ChatViewProvider.WebviewMessage) (pg : WebviewScript.Page) :
  WebviewScript.receive now (m :: ms) pg
  = WebviewScript.receive now ms (WebviewScript.on_message now m pg).
Proof. reflexivity. Qed.

Lemma on_message_user (now content t : string) (pg : WebviewScript.Page) :
  WebviewScript.on_message now (ChatViewProvider.AddMessage "user" content t) pg
  = WebviewScript.mkPage (WebviewScript.chatMessages pg ++ [user_bubble content])
      (WebviewScript.currentAssistantMessage pg) (WebviewScript.chatInput pg)
      (WebviewScript.toHost pg).
Proof. reflexivity. Qed.

Lemma on_message_assistant (now content t : string) (pg : WebviewScript.Page) :
  WebviewScript.on_message now (ChatViewProvider.AddMessage "assistant" content t) pg
  = WebviewScript.mkPage (WebviewScript.chatMessages pg ++ [assistant_bubble content])
      None (WebviewScript.chatInput pg) (WebviewScript.toHost pg).
Proof. reflexivity. Qed.

Lemma first_terminal_after_chunks (chunks : list string) (tail : list Frame) :
  first_terminal (map Chunk chunks ++ tail) = first_terminal tail.
Proof. induction chunks as [|c chunks IH]; [reflexivity | exact IH]. Qed.

(** What handleSendMessage has posted for a stream of chunks closed by at
    most one terminal frame. *)
Lemma handleSendMessage_posted_tail (that : ChatViewProvider.Provider)
    (message t0 now t1 : string) (fs0 : FS) (frags : list string) (code : option Z)
    (chunks : list string) (tail : list Frame) :
  ChatViewProvider._view that = true ->
  decoded (snd (ChatViewProvider.sendMessageToAgent that message now fs0
                  (map StdoutData frags)))
  = (map Chunk chunks ++ tail)%list ->
  length tail <= 1 ->
  ChatViewProvider.posted
    (locals (snd (ChatPanel.handleSendMessage that message t0 now t1 fs0
                    (map StdoutData frags ++ [Close code]))))
  = ([ChatViewProvider.AddMessage "user" message t0; ChatViewProvider.Typing true]
     ++ map ChatViewProvider.StreamChunk chunks
     ++ posts_of now (concat_all chunks) tail
     ++ send_continuation t1 match first_terminal tail with
                             | Some o => o
                             | None => exit_outcome code
                             end)%list.
Proof.
  intros Hv HD Ht.
  pose proof (terminal_frame_last_chunks chunks tail Ht) as Hlast.
  rewrite <- HD in Hlast.
  destruct (handleSendMessage_posted that message t0 now t1 fs0 frags code Hv Hlast)
    as (_ & _ & ->).
  rewrite HD, posts_of_chunks, first_terminal_after_chunks, <- app_assoc.
  reflexivity.
Qed.

(** The webview on the messages of a request, up to the last chunk, when
    no assistant message is current. *)
Lemma receive_request_fresh (wnow message t0 : string) (chunks : list string)
    (rest : list ChatViewProvider.WebviewMessage) (pg : WebviewScript.Page) :
  WebviewScript.currentAssistantMessage pg = None ->
  WebviewScript.receive wnow
    ([ChatViewProvider.AddMessage "user" message t0; ChatViewProvider.Typing true]
     ++ map ChatViewProvider.StreamChunk chunks ++ rest) pg
  = WebviewScript.receive wnow rest
      (WebviewScript.mkPage
         (WebviewScript.chatMessages pg ++ user_bubble message :: streamed chunks)
         match chunks with
         | [] => None
         | _ :: _ => Some (S (length (WebviewScript.chatMessages pg)))
         end
         (WebviewScript.chatInput pg) (WebviewScript.toHost pg)).
Proof.
  destruct pg as [bubbles cur input sent].
  cbn [WebviewScript.currentAssistantMessage WebviewScript.chatMessages
       WebviewScript.chatInput WebviewScript.toHost]. intros ->.
  cbn [app]. rewrite !receive_cons, on_message_user.
  cbn [WebviewScript.on_message WebviewScript.currentAssistantMessage
       WebviewScript.chatMessages WebviewScript.chatInput WebviewScript.toHost].
  rewrite receive_app. f_equal.
  destruct chunks as [|c chunks]; [reflexivity|].
  rewrite receive_chunks_fresh, length_app, <- app_assoc. cbn [length app streamed].
  rewrite Nat.add_1_r. reflexivity.
Qed.

(** The same when an assistant message is current. *)
Lemma receive_request_stale (wnow message t0 : string) (chunks : list string)
    (rest : list ChatViewProvider.WebviewMessage)
    (pre post : list WebviewScript.Bubble) (b : WebviewScript.Bubble)
    (input : string) (sent : list WebviewScript.ToHost) :
  WebviewScript.receive wnow
    ([ChatViewProvider.AddMessage "user" message t0; ChatViewProvider.Typing true]
     ++ map ChatViewProvider.StreamChunk chunks ++ rest)
    (WebviewScript.mkPage (pre ++ b :: post) (Some (length pre)) input sent)
  = WebviewScript.receive wnow rest
      (WebviewScript.mkPage
         (pre ++ WebviewScript.mkBubble (WebviewScript.className b)
                   (WebviewScript.header b)
                   (WebviewScript.textContent b ++ concat_all chunks)
              :: post ++ [user_bubble message])
         (Some (length pre)) input sent).
Proof.
  cbn [app]. rewrite !receive_cons, on_message_user.
  cbn [WebviewScript.on_message WebviewScript.currentAssistantMessage
       WebviewScript.chatMessages WebviewScript.chatInput WebviewScript.toHost].
  rewrite receive_app. f_equal.
  rewrite <- app_assoc. cbn [app].
  apply receive_chunks_current.
Qed.

(** X18. What the chat shows after a request, when no assistant message
    was current before it: the user's message, then one element with
    the text of all the chunks (none if no chunk came), then, according
    to how the stream ended,
    - after END_STREAM, a second element with the same text, so that an
      answer of at least one chunk is shown twice;
    - after an ERROR line, an element with the text Error: followed by
      the text of the error object;
    - with no terminal line and exit code 0, nothing more, and the
      element of the chunks remains the current assistant message;
    - with no terminal line and another exit code, an element that
      reports the exit code. *)
Theorem X18_chat_after_request (that : ChatViewProvider.Provider)
    (message t0 now t1 wnow : string) (fs0 : FS) (frags : list string)
    (code : option Z) (chunks : list string) (pg : WebviewScript.Page) :
  ChatViewProvider._view that = true ->
  WebviewScript.currentAssistantMessage pg = None ->
  let D := decoded (snd (ChatViewProvider.sendMessageToAgent that message now fs0
                           (map StdoutData frags))) in
  let pg' := WebviewScript.receive wnow
               (ChatView.onDidReceiveMessage that t0 now t1 fs0
                  (map StdoutData frags ++ [Close code]) (ChatView.SendMessage message))
               pg in
  let shown tail current :=
    WebviewScript.mkPage
      (WebviewScript.chatMessages pg ++ user_bubble message :: streamed chunks ++ tail)
      current (WebviewScript.chatInput pg) (WebviewScript.toHost pg) in
  (D = (map Chunk chunks ++ [End])%list ->
   pg' = shown [assistant_bubble (concat_all chunks)] None)
  /\ (forall e, D = (map Chunk chunks ++ [Error_ e])%list ->
      pg' = shown [assistant_bubble ("Error: " ++ Error_toString (mkError e))] None)
  /\ (D = map Chunk chunks -> code_is_zero code = true ->
      pg' = shown [] match chunks with
                     | [] => None
                     | _ :: _ => Some (S (length (WebviewScript.chatMessages pg)))
                     end)
  /\ (D = map Chunk chunks -> code_is_zero code = false ->
      pg' = shown [assistant_bubble
                     ("Error: Error: Python process exited with code " ++ show_code code)]
              None).
Proof.
  intros Hv Hcur. cbn zeta. unfold ChatView.onDidReceiveMessage.
  split; [|split; [|split]].
  - intros HD.
    rewrite (handleSendMessage_posted_tail that message t0 now t1 fs0 frags code
               chunks [End] Hv HD) by (cbn; lia).
    rewrite (receive_request_fresh wnow message t0 chunks _ pg Hcur).
    cbn [posts_of first_terminal send_continuation app].
    rewrite !receive_cons, on_message_assistant.
    cbn [WebviewScript.on_message WebviewScript.receive fold_left
         WebviewScript.chatMessages WebviewScript.chatInput WebviewScript.toHost].
    rewrite <- app_assoc. reflexivity.
  - intros e HD.
    rewrite (handleSendMessage_posted_tail that message t0 now t1 fs0 frags code
               chunks [Error_ e] Hv HD) by (cbn; lia).
    rewrite (receive_request_fresh wnow message t0 chunks _ pg Hcur).
    cbn [posts_of first_terminal send_continuation app].
    rewrite !receive_cons, on_message_assistant.
    cbn [WebviewScript.on_message WebviewScript.receive fold_left
         WebviewScript.chatMessages WebviewScript.chatInput WebviewScript.toHost].
    rewrite <- app_assoc. reflexivity.
  - intros HD Hz. rewrite <- (app_nil_r (map Chunk chunks)) in HD.
    rewrite (handleSendMessage_posted_tail that message t0 now t1 fs0 frags code
               chunks [] Hv HD) by (cbn; lia).
    rewrite (receive_request_fresh wnow message t0 chunks _ pg Hcur).
    unfold exit_outcome. rewrite Hz.
    cbn [posts_of first_terminal send_continuation app].
    rewrite !receive_cons.
    cbn [WebviewScript.on_message WebviewScript.receive fold_left].
    rewrite app_nil_r. reflexivity.
  - intros HD Hz. rewrite <- (app_nil_r (map Chunk chunks)) in HD.
    rewrite (handleSendMessage_posted_tail that message t0 now t1 fs0 frags code
               chunks [] Hv HD) by (cbn; lia).
    rewrite (receive_request_fresh wnow message t0 chunks _ pg Hcur).
    unfold exit_outcome. rewrite Hz.
    cbn [posts_of first_terminal send_continuation app].
    rewrite !receive_cons, on_message_assistant.
    cbn [WebviewScript.on_message WebviewScript.receive fold_left
         WebviewScript.chatMessages WebviewScript.chatInput WebviewScript.toHost].
    rewrite <- app_assoc. reflexivity.
Qed.

(** An answer of two chunks, seen from the page the webview starts with. *)
Lemma X18_chat_after_request_witness :
  let that := ChatViewProvider.resolveWebviewView ChatViewProvider.constructor in
  ChatViewProvider._view that = true
  /\ WebviewScript.currentAssistantMessage WebviewScript.initial = None
  /\ decoded (snd (ChatViewProvider.sendMessageToAgent that "hi" "now" fs_empty
                     (map StdoutData [hello_stream])))
     = (map Chunk ["Hello"; " world"] ++ [End])%list
  /\ WebviewScript.chatMessages
       (WebviewScript.receive "w"
          (ChatView.onDidReceiveMessage that "t0" "now" "t1" fs_empty
             (map StdoutData [hello_stream] ++ [Close (Some 0%Z)])
             (ChatView.SendMessage "hi"))
          WebviewScript.initial)
     = [WebviewScript.greeting; user_bubble "hi";
        assistant_bubble "Hello world"; assistant_bubble "Hello world"].
Proof.
  cbv zeta. split; [reflexivity|]. split; [reflexivity|]. split; [reflexivity|].
  pose proof (X18_chat_after_request
                (ChatViewProvider.resolveWebviewView ChatViewProvider.constructor)
                "hi" "t0" "now" "t1" "w" fs_empty [hello_stream] (Some 0%Z)
                ["Hello"; " world"] WebviewScript.initial eq_refl eq_refl) as H.
  cbv zeta in H. destruct H as (H & _).
  rewrite (H eq_refl). reflexivity.
Defined.

(** X19. When an assistant message is still current as a request starts,
    the chunks of the answer are appended to that earlier message, above
    the user's new message, and no element is started for them; the
    message added at END_STREAM then holds the answer alone and ends the
    currency of the earlier one. *)
Theorem X19_chunks_into_earlier_answer (that : ChatViewProvider.Provider)
    (message t0 now t1 wnow : string) (fs0 : FS) (frags : list string)
    (code : option Z) (chunks : list string) (pg : WebviewScript.Page)
    (pre post : list WebviewScript.Bubble) (b : WebviewScript.Bubble) :
  ChatViewProvider._view that = true ->
  WebviewScript.chatMessages pg = (pre ++ b :: post)%list ->
  WebviewScript.currentAssistantMessage pg = Some (length pre) ->
  decoded (snd (ChatViewProvider.sendMessageToAgent that message now fs0
                  (map StdoutData frags)))
  = (map Chunk chunks ++ [End])%list ->
  WebviewScript.receive wnow
    (ChatView.onDidReceiveMessage that t0 now t1 fs0
       (map StdoutData frags ++ [Close code]) (ChatView.SendMessage message))
    pg
  = WebviewScript.mkPage
      (pre ++ WebviewScript.mkBubble (WebviewScript.className b) (WebviewScript.header b)
                (WebviewScript.textContent b ++ concat_all chunks)
           :: post ++ [user_bubble message; assistant_bubble (concat_all chunks)])
      None (WebviewScript.chatInput pg) (WebviewScript.toHost pg).
Proof.
  intros Hv Hb Hcur HD. unfold ChatView.onDidReceiveMessage.
  rewrite (handleSendMessage_posted_tail that message t0 now t1 fs0 frags code
             chunks [End] Hv HD) by (cbn; lia).
  destruct pg as [bubbles cur input sent].
  cbn [WebviewScript.currentAssistantMessage WebviewScript.chatMessages
       WebviewScript.chatInput WebviewScript.toHost] in *.
  subst bubbles cur. rewrite receive_request_stale.
  cbn [posts_of first_terminal send_continuation app].
  rewrite !receive_cons, on_message_assistant.
  cbn [WebviewScript.on_message WebviewScript.receive fold_left
       WebviewScript.chatMessages WebviewScript.chatInput WebviewScript.toHost].
  rewrite <- app_assoc. cbn [app]. rewrite <- app_assoc. reflexivity.
Qed.

(** The lines of a stream of chunk lines without a terminal line. *)
Lemma chunk_lines_lines (chunks : list string) :
  Forall (fun c => no_LF c = true) chunks ->
  lines_of (chunk_lines chunks) = map chunk_line chunks
  /\ rest_of (chunk_lines chunks) = "".
Proof.
  intros H. unfold lines_of, rest_of.
  rewrite <- (append_empty_r (chunk_lines chunks)), (split_chunk_lines chunks _ H).
  change (split LF "") with [""]. split.
  - rewrite removelast_app by discriminate. cbn [removelast]. apply app_nil_r.
  - rewrite last_app_cons by discriminate. reflexivity.
Qed.

Lemma Forall_removelast {A} (P : A -> Prop) (l : list A) :
  Forall P l -> Forall P (removelast l).
Proof.
  induction 1 as [|x l Hx Hl IH]; [constructor|].
  cbn [removelast]. destruct l; [constructor|]. constructor; assumption.
Qed.

Lemma chunk_lines_terminal_only_last (chunks : list string) :
  Forall (fun c => no_LF c = true) chunks -> terminal_only_last (chunk_lines chunks).
Proof.
  intros H. unfold terminal_only_last. rewrite (proj1 (chunk_lines_lines chunks H)).
  apply Forall_removelast, Forall_forall. intros l Hl.
  apply in_map_iff in Hl. destruct Hl as (c & <- & _).
  apply chunk_line_not_terminal.
Qed.

Lemma chunk_lines_at_once (p : string) (chunks : list string) (st : AIAgentService.Request) :
  Forall (fun c => no_LF c = true) chunks ->
  AIAgentService.responseBuffer (locals st) = "" ->
  decoded (snd (on_output p (chunk_lines chunks) st))
  = (decoded st ++ map Chunk chunks)%list.
Proof.
  intros H Hb. rewrite on_output_lines, Hb.
  change ("" ++ chunk_lines chunks) with (chunk_lines chunks).
  destruct (chunk_lines_lines chunks H) as [-> ->].
  rewrite <- (app_nil_r (map chunk_line chunks)), for_lines_chunk_lines.
  reflexivity.
Qed.

(** The frames of a stream of chunk lines that is cut anywhere. *)
Lemma chunk_lines_decoded (chunks frags : list string)
    (that : ChatViewProvider.Provider) (message now : string) (fs0 : FS) :
  Forall (fun c => no_LF c = true) chunks ->
  received frags = chunk_lines chunks ->
  decoded (snd (ChatViewProvider.sendMessageToAgent that message now fs0
                  (map StdoutData frags)))
  = map Chunk chunks.
Proof.
  intros Hc Hcat.
  assert (Hs : decoded (snd (AIAgentService.sendMessage AIAgentService.constructor
                               message None fs0 (map StdoutData frags)))
               = map Chunk chunks).
  { rewrite sendMessage_text
      by (rewrite Hcat; apply chunk_lines_terminal_only_last, Hc).
    rewrite Hcat.
    exact (chunk_lines_at_once
             (AIAgentService.sendMessage_scriptPath AIAgentService.constructor) chunks
             (AIAgentService.sendMessage_start AIAgentService.constructor message None fs0)
             Hc eq_refl). }
  unfold AIAgentService.sendMessage in Hs. unfold ChatViewProvider.sendMessageToAgent.
  destruct (agree_run (AIAgentService.sendMessage_scriptPath AIAgentService.constructor)
              (ChatViewProvider.sendMessageToAgent_scriptPath that) now
              (map StdoutData frags) _ _
              (agree_start AIAgentService.constructor that message message None fs0 fs0))
    as [_ _ Hd1 _].
  rewrite <- Hd1. exact Hs.
Qed.

Lemma raised_output (c e : string) (rest : list string) :
  Producer.stdout_of (c :: rest) (Some e)
  = chunk_lines [c ++ Producer.print_chunks rest ++ "ERROR:" ++ e].
Proof.
  unfold Producer.stdout_of. cbn [Producer.print_chunks chunk_lines].
  rewrite append_empty_r, !append_assoc. reflexivity.
Qed.

Lemma no_LF_print_chunks (chunks : list string) :
  Forall (fun c => no_LF c = true) chunks -> no_LF (Producer.print_chunks chunks) = true.
Proof.
  induction 1 as [|c chunks Hc _ IH]; [reflexivity|].
  cbn [Producer.print_chunks]. rewrite !no_LF_append, Hc, IH. reflexivity.
Qed.

(** X20. An agent that raises after it has streamed a chunk: the script
    prints the chunks and the ERROR: text on one line and exits with
    code 0, so the request resolves.  The chat then shows, after the
    user's message, one assistant message whose text is the first chunk
    followed by the rest of that line, CHUNK: and ERROR: markers
    included; no error message is added, and that message remains the
    current assistant message. *)
Theorem X20_raise_after_chunk (that : ChatViewProvider.Provider)
    (message t0 now t1 wnow : string) (fs0 : FS) (frags : list string)
    (c e : string) (rest : list string) (pg : WebviewScript.Page) :
  ChatViewProvider._view that = true ->
  WebviewScript.currentAssistantMessage pg = None ->
  Forall (fun c => no_LF c = true) (c :: rest) ->
  no_LF e = true ->
  received frags = Producer.stdout_of (c :: rest) (Some e) ->
  let r := ChatPanel.handleSendMessage that message t0 now t1 fs0
             (map StdoutData frags ++ [Close (Some 0%Z)]) in
  promise (snd r) = Some (Resolved tt)
  /\ WebviewScript.receive wnow
       (ChatView.onDidReceiveMessage that t0 now t1 fs0
          (map StdoutData frags ++ [Close (Some 0%Z)]) (ChatView.SendMessage message))
       pg
     = WebviewScript.mkPage
         (WebviewScript.chatMessages pg
          ++ [user_bubble message;
              assistant_bubble (c ++ Producer.print_chunks rest ++ "ERROR:" ++ e)])
         (Some (S (length (WebviewScript.chatMessages pg))))
         (WebviewScript.chatInput pg) (WebviewScript.toHost pg).
Proof.
  intros Hv Hcur Hc He Hcat. cbn zeta.
  rewrite raised_output in Hcat.
  assert (Hx : Forall (fun c => no_LF c = true)
                 [c ++ Producer.print_chunks rest ++ "ERROR:" ++ e]).
  { constructor; [|constructor].
    rewrite !no_LF_append, (no_LF_print_chunks rest (Forall_inv_tail Hc)),
      (Forall_inv Hc), He. reflexivity. }
  pose proof (chunk_lines_decoded _ frags that message now fs0 Hx Hcat) as HD.
  split.
  - pose proof (terminal_frame_last_chunks
                  [c ++ Producer.print_chunks rest ++ "ERROR:" ++ e] []
                  (Nat.le_0_l 1)) as Hlast.
    rewrite app_nil_r, <- HD in Hlast.
    destruct (handleSendMessage_posted that message t0 now t1 fs0 frags (Some 0%Z)
                Hv Hlast) as (_ & -> & _).
    rewrite HD. reflexivity.
  - unfold ChatView.onDidReceiveMessage.
    rewrite <- (app_nil_r (map Chunk _)) in HD.
    rewrite (handleSendMessage_posted_tail that message t0 now t1 fs0 frags (Some 0%Z)
               _ [] Hv HD) by (cbn; lia).
    rewrite (receive_request_fresh wnow message t0 _ _ pg Hcur).
    cbn [posts_of first_terminal send_continuation app streamed concat_all].
    rewrite append_empty_r. reflexivity.
Qed.

(** The script prints a chunk and then the text of an exception. *)
Lemma X20_raise_after_chunk_witness :
  let that := ChatViewProvider.resolveWebviewView ChatViewProvider.constructor in
  ChatViewProvider._view that = true
  /\ WebviewScript.currentAssistantMessage WebviewScript.initial = None
  /\ Forall (fun c => no_LF c = true) ["part"]
  /\ no_LF "boom" = true
  /\ received ["CHUNK:part"; "ERROR:boom" ++ nl]
     = Producer.stdout_of ["part"] (Some "boom")
  /\ WebviewScript.chatMessages
       (WebviewScript.receive "w"
          (ChatView.onDidReceiveMessage that "t0" "now" "t1" fs_empty
             (map StdoutData ["CHUNK:part"; "ERROR:boom" ++ nl] ++ [Close (Some 0%Z)])
             (ChatView.SendMessage "q1"))
          WebviewScript.initial)
     = [WebviewScript.greeting; user_bubble "q1"; assistant_bubble "partERROR:boom"].
Proof.
  cbv zeta.
  assert (Hc : Forall (fun c => no_LF c = true) ["part"])
    by (constructor; [reflexivity | constructor]).
  split; [reflexivity|]. split; [reflexivity|]. split; [exact Hc|].
  split; [reflexivity|]. split; [reflexivity|].
  pose proof (X20_raise_after_chunk
                (ChatViewProvider.resolveWebviewView ChatViewProvider.constructor)
                "q1" "t0" "now" "t1" "w" fs_empty ["CHUNK:part"; "ERROR:boom" ++ nl]
                "part" "boom" [] WebviewScript.initial
                eq_refl eq_refl Hc eq_refl eq_refl) as H.
  cbv zeta in H. destruct H as (_ & H).
  rewrite H. reflexivity.
Defined.

(** A second request after one that left its assistant message current. *)
Lemma X19_chunks_into_earlier_answer_witness :
  let that := ChatViewProvider.resolveWebviewView ChatViewProvider.constructor in
  let pg :=
    WebviewScript.receive "w"
      (ChatView.onDidReceiveMessage that "t0" "now" "t1" fs_empty
         (map StdoutData [Producer.stdout_of ["part"] (Some "boom")]
          ++ [Close (Some 0%Z)])
         (ChatView.SendMessage "q1"))
      WebviewScript.initial in
  ChatViewProvider._view that = true
  /\ WebviewScript.chatMessages pg
     = ([WebviewScript.greeting; user_bubble "q1"]
        ++ assistant_bubble "partERROR:boom" :: [])%list
  /\ WebviewScript.currentAssistantMessage pg
     = Some (length [WebviewScript.greeting; user_bubble "q1"])
  /\ decoded (snd (ChatViewProvider.sendMessageToAgent that "q2" "now" fs_empty
                     (map StdoutData [hello_stream])))
     = (map Chunk ["Hello"; " world"] ++ [End])%list
  /\ WebviewScript.chatMessages
       (WebviewScript.receive "w"
          (ChatView.onDidReceiveMessage that "t2" "now" "t3" fs_empty
             (map StdoutData [hello_stream] ++ [Close (Some 0%Z)])
             (ChatView.SendMessage "q2"))
          pg)
     = [WebviewScript.greeting; user_bubble "q1";
        assistant_bubble "partERROR:boomHello world";
        user_bubble "q2"; assistant_bubble "Hello world"].
Proof.
  cbv zeta.
  split; [reflexivity|]. split; [reflexivity|]. split; [reflexivity|].
  split; [reflexivity|].
  match goal with
  | |- WebviewScript.chatMessages (WebviewScript.receive _ _ ?pg) = _ =>
      rewrite (X19_chunks_into_earlier_answer
                 (ChatViewProvider.resolveWebviewView ChatViewProvider.constructor)
                 "q2" "t2" "now" "t3" "w" fs_empty [hello_stream] (Some 0%Z)
                 ["Hello"; " world"] pg
                 [WebviewScript.greeting; user_bubble "q1"] []
                 (assistant_bubble "partERROR:boom")
                 eq_refl eq_refl eq_refl eq_refl)
  end.
  reflexivity.
Defined.

(** X21. Clearing the chat, from the listener to the webview: the
    messages of the chat are replaced by the single message
    Chat cleared. How can I help you? and no assistant message is
    current any more, exactly when the clear process has closed with exit
    code 0, its output contains SUCCESS and a view is set; otherwise, and
    as long as the process has not closed, and at an error event of the
    process, the chat stays as it is.  The value of the input is never
    touched. *)
Theorem X21_clear_chat (that : ChatViewProvider.Provider) (t0 now t1 wnow : string)
    (fs0 : FS) (frags : list string) (code : option Z) (pg : WebviewScript.Page) :
  WebviewScript.receive wnow
    (ChatView.onDidReceiveMessage that t0 now t1 fs0
       (map StdoutData frags ++ [Close code]) ChatView.ClearChat)
    pg
  = (if code_is_zero code && includes (received frags) "SUCCESS"
        && ChatViewProvider._view that
     then WebviewScript.mkPage [WebviewScript.cleared] None
            (WebviewScript.chatInput pg) (WebviewScript.toHost pg)
     else pg)
  /\ WebviewScript.receive wnow
       (ChatView.onDidReceiveMessage that t0 now t1 fs0
          (map StdoutData frags) ChatView.ClearChat)
       pg
     = pg
  /\ (forall e,
      WebviewScript.receive wnow
        (ChatView.onDidReceiveMessage that t0 now t1 fs0
           (map StdoutData frags ++ [ProcError e]) ChatView.ClearChat)
        pg
      = pg).
Proof.
  unfold ChatView.onDidReceiveMessage. split; [|split];
    [| |intros e; destruct (handleClearChat_error that fs0 frags e) as (f1 & ->);
        reflexivity].
  - destruct (handleClearChat_closed that fs0 frags code) as (f' & c' & ->).
    cbn [snd locals].
    destruct (code_is_zero code && includes (received frags) "SUCCESS"
              && ChatViewProvider._view that); reflexivity.
  - unfold ChatPanel.handleClearChat.
    unfold bind at 1, writeFileSync, modify.
    cbn [locals promise fs console decoded].
    rewrite <- (app_nil_r (map StdoutData frags)), clear_chat_data by reflexivity.
    reflexivity.
Qed.
